(* ===== verification/_CoqProject ===== *)
-Q . S2P
Prelude.v
JsArray.v
JsString.v
Utf8.v
JsNumber.v
JsDecimal.v
JsValue.v
JsCoerce.v
JsDouble.v
Query.v
Fetcher.v
SyncSpec.v
Catalog.v
FormBinding.v
DialogSpec.v
AdminCourses.v
AdminDialog.v
EditCourseForm.v
AdminDashboard.v
StudentDashboard.v
AdminEnrollments.v
Home.v
Payments.v
