(* ===== verification/Prelude.v ===== *)
(** * Online Course Management Portal front end: a Rocq model

    The program is a React front end of eight pages ([src/src/pages/]).
    Two of them own the course data: the public catalog [Courses.jsx]
    (filters, pagination and the list request) and the admin table
    [AdminCourses.jsx] (list, create, update and delete through a dialog);
    [EditCourseForm.jsx] is a second editor of one course.  They talk to the
    backend through [api.get/post/put/delete] and keep their state in
    [useState] hooks.  This development models those pages, the JavaScript
    built-ins they rely on, and the contract of the specification.

    ** Files, in dependency order

    - [Prelude] (this file): the [portal_scope] notations ([o ?? d] for
      [x || d], [let* x := a in b] for a computation that may throw), the
      tactics [inv] and [case_if], the hint databases [portal] and
      [portal_rw], [remove_at] (a response leaving the requests in flight)
      with its lemmas, runs of a step function with [run_invariant], the
      reflexive-transitive closure [star], and [run_simulation], a labelled
      forward simulation of runs (in the manner of [simulation_star] in
      Leroy's course) into the traces of a specification relation.
    - [JsArray]: [Array.prototype.map] with a callback that may throw
      ([map_opt]), the map of every render.
    - [JsString]: [Boolean] on strings, [trim] (white space of Latin-1),
      [split] by one character, [join], [filter(Boolean)] and
      [filter(item => item.trim())]; [split_join] is their round trip.
    - [Utf8]: the source files are UTF-8; a literal with non-ASCII text is
      kept as its bytes, and [decode] gives the characters shown
      ([decode_encode] is the round trip with [encode]).
    - [JsNumber]: numbers as exact decimals [Num mant exp10];
      [Number#toString] on integers and [parseInt] (white space, sign,
      [0x], longest digit prefix, NaN as [None]).
    - [JsDecimal]: [Number#toString] on any finite number in its four
      layouts (integer, fixed point, [0.000ddd], exponent) and [parseFloat]
      ([Infinity], fraction, exponent); equality of values [num_eqv] is an
      [Equivalence] used by setoid rewriting.
    - [JsValue]: JSON values of [response.data], truthiness, [||], property
      access (a [TypeError] is [None]) and the text React renders for a
      value.
    - [JsCoerce]: the implicit conversions [ToString] (template literals)
      and [ToNumber] ([StringToNumber] on whole trimmed strings, arrays
      through [join]), and the comparisons [>] and [<=] with a number.
    - [JsDouble]: numbers as IEEE 754 binary64 values with Rocq's
      primitive floats (the kernel computes them): the correctly rounded
      reading of a decimal where one IEEE operation gives it (integers
      below 2^53, [mant / 10^k] with [k <= 18]; [None] elsewhere), [*]
      and [===].  [Payments] computes [order.amount * 100] with it.
    - [Query] (module [Query], [Courses.jsx] lines 36-98): the filter
      descriptor, [handleFilterChange], [handlePageChange], the loop that
      appends the truthy filters to [URLSearchParams], and the
      form-urlencoded serializer with a reference decoder.
    - [Fetcher] ([Courses.jsx] 73-79): the settled response and
      [normalize], the [content || data] / [totalPages || 1] reading.
    - [SyncSpec]: the synchronization controller of the specification
      (section 4.1) as a deterministic labelled relation [sstep] on views;
      it models the specification, not a source file.
    - [Catalog] ([Courses.jsx] 33-325): the component's state [cstate], one
      function per setter and per handler, cut at each [await], the render
      [view] (spinner, filters, cards, pagination, empty message), and
      [step] over events (mount, filter edit, page change, arrival of the
      i-th response in flight), whose filter and page events are those the
      view offers.  The requests in flight and their issue numbers are
      ghost state.
    - [FormBinding] ([AdminCourses.jsx] 43-118, [EditCourseForm.jsx] 56-57):
      the course, the text draft and the payload; [toDraft]
      ([handleOpenDialog]), [fromDraft] ([handleSubmit]), the input
      updates, and a [Codec] class whose instances are the field codecs.
    - [DialogSpec]: the edit dialog and mutation contract of the
      specification (sections 4.3 and 4.4) as a labelled relation [dstep]
      (open, edit, cancel, submit with validation, success, failure); it
      models the specification, not a source file.
    - [AdminCourses] ([AdminCourses.jsx] 37-319): the state [astate], every
      handler, [step] with the guards the render imposes (nothing but
      responses while the spinner shows, the modal dialog hides the table),
      and the render [view] (rows, alert, dialog) where a throwing render
      is [None].
    - [AdminDialog]: the abstraction [abs] of the admin page's dialog into
      [DialogSpec], the label of each step, and the simulation.
    - [EditCourseForm] ([EditCourseForm.jsx]): [courseData] as a JavaScript
      object built by spreads ([obj_set], [spread]); each handler returns
      the new object and the effects it asks of its host (a request, or
      [onClose]).
    - [AdminDashboard] ([AdminDashboard.jsx]): the dashboard's hooks, its
      cards, and the hosting of [EditCourseForm]: each mount is a new
      instance (a ghost counter), the host runs the form's effects, and
      responses reach only the instance still mounted, while [onClose]
      always reaches the dashboard; its [view] shows the six cards or the
      hosted form's inputs.
    - [Fetcher] also holds [all2], [Promise.all] of two requests: the
      first rejection settles it, both fulfilments give both values.
    - [StudentDashboard] ([StudentDashboard.jsx]): two requests awaited
      together, answered in either order, the [finally] that ends the
      spinner, and the render (greeting, alert, statistics, one card per
      enrollment, recent activity); the logged user of [AuthContext],
      which is not in the sources, is a parameter of the render.
    - [AdminEnrollments] ([AdminEnrollments.jsx]): the fetch on mount and
      the render (spinner, error only, or one card per enrollment).
    - [Home] ([Home.jsx]): two requests awaited together, failures only
      logged, and the render: hero, statistics, featured cards, the
      "View All Courses" button and the call to action.
    - [Payments] ([Payments.jsx]): the form, [handlePayment] cut at its
      two [await]s with the form captured at the click, the options of
      the checkout widget, its payment handler and callback request; the
      widget is a third-party script, so a payment it reports is an event.
      The continuations in flight are ghost state, with a well-formedness
      predicate [pending_wf] and a measure [weight] for termination.

    ** What is proved

    - Catalog against the contract: as long as every course response
      answers the latest request, the catalog's run is a trace of
      [SyncSpec], told the run's own edits and course results ([label]),
      ending in the page's view and, the contract being deterministic, in
      no other ([catalog_refines_contract], by [run_simulation] through
      [abs]); it is not when an older response arrives last ([stale_response_overwrites],
      [loading_cleared_while_pending]); failures keep the items; the
      requests in flight stay in issue order.
    - The query: a filter edit resets the page, a page change keeps the
      filters; exactly the truthy fields are sent; the query string of
      [courses_url], parsed by [URLSearchParams], is exactly those
      parameters, and the backend's [get] of each filter is its text
      ([courses_url_carries_filters]).
    - Normalization of both response shapes, a missing or zero
      [totalPages] reading as one page ([normalize_shapes]).
    - The form binding: [fromDraft (toDraft c)] carries the course back
      ([fromDraft_toDraft], specification property 3) when the duration
      is a safe integer ([toString] of [10^21] is [1e+21]), and the exact sets
      of lists that survive each page's line splitting.
    - The admin page: a closed dialog edits nothing in every reachable
      state; the spinner ends on the first response; submit sends
      unparsed numbers; a failed save surfaces nothing; a late save closes
      whatever dialog is open; deletes need confirmation and refresh; list
      refreshes apply in arrival order, the last to arrive winning
      ([list_refresh_last_arrival_wins]);
      an envelope response crashes the table; every well-formed course
      renders.  On the runs the contract expects (drafts that parse, no
      edit or close while a save is in flight, saves that succeed) the
      dialog refines [DialogSpec] ([admin_dialog_refines_spec]); the other
      theorems show where the page leaves the contract.
    - The catalog's render: an empty current result hides the filters
      while a fetch is pending; a non-empty one stays on screen; an
      envelope without content crashes the page.
    - The edit form and the dashboard: typing sets one property; the
      browser blocks a submit while a [required] input is empty, and a
      filled form sends its [put] ([submit_requires_filled_form]); the
      load discards earlier
      edits; a late save closes a newer form; stale loads are ignored; the
      dashboard only ever edits course 1.
    - The student dashboard and the home page: the outcome of
      [Promise.all] in either order of answers; a [null] body crashes the
      dashboard; the recent-activity dividers are computed on the whole
      list; on every run where a home-page request fails the page keeps
      its zero counts ([failure_shows_zero_counts]).
    - The enrollment table: a missing status crashes it; an error hides
      the list.
    - Payments: the empty-field guard; the order sends the form of the
      click, not the one shown; the checkout amount is [100 * n] paise
      for [n] whole rupees up to 100000, and in general the binary64
      product [order.amount * 100] ([checkout_amount_paise]).
      In every reachable state [loading] is on exactly while one
      [handlePayment] continuation is in flight ([reachable_pending_wf]);
      the flow terminates whatever the answers
      ([payment_flow_terminates]).
    - Built-ins: [parseInt] reads back [toString] of an integer below
      [10^21] ([JsDecimal.parseInt_toString]) and is NaN
      on a non-numeric start; [parseFloat] reads back [toString] of any
      finite number.

    ** Bounds and fuel

    [N_to_string n] recurses on fuel [S (log2 n)], one more than the
    number of binary digits, which exceeds the number of decimal digits, so
    the fuel never runs out ([N_to_string_fuel]); [strip_zeros] gets the
    same fuel, enough to strip every trailing zero of the mantissa.  No
    other definition of the code uses fuel: the step functions are total
    and the parsers recurse on the string.  [Payments.drain], which answers
    the continuations in flight, gets [weight] as fuel (two per script
    load, one per request), and [drain_empties] shows that it is enough.
    [JsDecimal.parseInt_toString] assumes [|z| < 10^21], the range where
    JavaScript's [toString] writes an integer without an exponent; the
    form binding asks for a safe integer ([|z| <= 2^53 - 1]), the
    integers a JSON number holds exactly.  [JsNumber.Z_to_string] (ids,
    page numbers) is [toString] in that range only.

    ** Not modelled

    Binary floating point outside [JsDouble] (elsewhere numbers are exact
    decimals, so rounding and NaN/Infinity of arithmetic are out of scope;
    [parseFloat] keeps [Infinity]); characters beyond Latin-1; React's scheduling beyond the
    order of events (setters in one continuation are applied together);
    markup, styling and navigation; the backend and [services/api], which
    are not in the sources, seen only through the responses they give.
    [AddCourseForm], which [AdminDashboard] imports, is not in the
    repository; only its [onClose] is modelled.  Dates
    ([toLocaleDateString], [toLocaleString]) are locale-dependent: the views
    keep the value given to [new Date].  The browser is modelled where
    the pages rely on it: a [type="number"] input reports [""] for text
    that is not a valid floating-point number, and a [form]'s submit
    button is blocked while a [required] input is empty; the admin dialog
    opens only courses its table shows, and a row without a duration or
    price (whose [toString] would throw in [handleOpenDialog]) is not
    modelled.  [JsDouble.to_double] is [None] outside
    its range (amounts of more than 18 decimals or of 2^53 and more); the checkout widget's own
    behaviour is outside the sources. *)

From Stdlib Require Import String Ascii List ZArith Bool Lia.
Import ListNotations.

(** ** Notations of the development *)

Declare Scope portal_scope.
Delimit Scope portal_scope with portal.

(** The newline character, the separator of the list-valued form fields. *)
Definition NL : ascii := Ascii.ascii_of_nat 10.

(** [o ?? d] is [o] when it is [Some], else [d]: the shape of the
    [x?.y || d] and [x || d] defaults of the pages. *)
Definition with_default {A : Type} (d : A) (o : option A) : A :=
  match o with Some x => x | None => d end.
Notation "o ?? d" := (with_default d o) (at level 40, left associativity) : portal_scope.

(** [let* x := a in b]: the rest of the computation runs only when [a]
    gave a value; [None] is an exception thrown by [a]. *)
Notation "'let*' x ':=' a 'in' b" := (match a with Some x => b | None => None end)
  (at level 10, x name, a at level 100, b at level 200) : portal_scope.

Open Scope portal_scope.

(** ** Tactics *)

Ltac inv H := inversion H; subst; clear H.

(** Split the goal on the first [if] or [match] scrutinee it finds. *)
Ltac case_if :=
  match goal with
  | |- context [if ?c then _ else _] => let E := fresh "E" in destruct c eqn:E
  | H : context [if ?c then _ else _] |- _ => let E := fresh "E" in destruct c eqn:E
  end.

(** Split a hypothesis [H] on the first [match] on an option or [if] it
    holds, repeatedly: the case analysis of a computation that may throw. *)
Ltac split_opt H :=
  repeat match type of H with
  | context [match ?x with Some _ => _ | None => _ end] => destruct x eqn:?; simpl in H
  | context [if ?b then _ else _] => destruct b eqn:?; simpl in H
  end.

Create HintDb portal discriminated.
Create Rewrite HintDb portal_rw.

(** ** Lists *)

Section Lists.
Context {A : Type}.

(** Remove the [i]-th element; out of range, nothing happens.  It models a
    request leaving the set of in-flight requests when its response arrives. *)
Fixpoint remove_at (i : nat) (l : list A) : list A :=
  match i, l with
  | _, [] => []
  | O, _ :: l' => l'
  | S i', x :: l' => x :: remove_at i' l'
  end.

Lemma remove_at_lt (i j : nat) (l : list A) :
  i < j -> nth_error (remove_at j l) i = nth_error l i.
Proof.
  revert i l; induction j as [|j IH]; intros i l Hij; [lia|].
  destruct l as [|x l]; [reflexivity|].
  destruct i as [|i]; simpl; [reflexivity|]. apply IH. lia.
Qed.

Lemma remove_at_ge (i j : nat) (l : list A) :
  j <= i -> nth_error (remove_at j l) i = nth_error l (S i).
Proof.
  revert i l; induction j as [|j IH]; intros i l Hij.
  - destruct l; simpl; [now destruct i|reflexivity].
  - destruct l as [|x l]; [now destruct i|].
    destruct i as [|i]; [lia|]. simpl. apply IH. lia.
Qed.

Lemma remove_at_length (i : nat) (l : list A) :
  i < length l -> length (remove_at i l) = pred (length l).
Proof.
  revert i; induction l as [|x l IH]; intros i Hi; simpl in *; [lia|].
  destruct i as [|i]; [reflexivity|]. simpl. rewrite IH by lia.
  destruct l; simpl in *; lia.
Qed.

Lemma remove_at_app_l (i : nat) (l r : list A) :
  i < length l -> remove_at i (l ++ r) = remove_at i l ++ r.
Proof.
  revert i; induction l as [|x l IH]; intros i Hi; simpl in *; [lia|].
  destruct i as [|i]; [reflexivity|]. simpl. rewrite IH by lia. reflexivity.
Qed.

Lemma nth_error_remove_at (k i : nat) (l : list A) :
  nth_error (remove_at k l) i = nth_error l (if Nat.ltb i k then i else S i).
Proof.
  destruct (Nat.ltb_spec i k); [apply remove_at_lt|apply remove_at_ge]; lia.
Qed.

Lemma existsb_remove_at (f : A -> bool) (i : nat) (l : list A) (x : A) :
  nth_error l i = Some x -> f x = false -> existsb f (remove_at i l) = existsb f l.
Proof.
  revert i; induction l as [|y l IH]; intros i Hi Hf; [now destruct i|].
  destruct i as [|i]; simpl in *.
  - inv Hi. rewrite Hf. reflexivity.
  - rewrite (IH i Hi Hf). reflexivity.
Qed.

Lemma nth_error_snoc (l : list A) (x : A) (i : nat) :
  nth_error (l ++ [x]) i =
  if Nat.ltb i (length l) then nth_error l i else if Nat.eqb i (length l) then Some x else None.
Proof.
  destruct (Nat.ltb_spec i (length l)); [apply nth_error_app1; lia|].
  rewrite nth_error_app2 by lia.
  destruct (Nat.eqb_spec i (length l)) as [->|Hne].
  - rewrite Nat.sub_diag. reflexivity.
  - apply nth_error_None. simpl. lia.
Qed.

End Lists.

Section ListsMore.
Context {A : Type}.

Lemma in_remove_at (i : nat) (l : list A) (x : A) : In x (remove_at i l) -> In x l.
Proof.
  revert i; induction l as [|y l IH]; intros [|i] H; simpl in *; auto.
  destruct H as [->|H]; [left; reflexivity|right; eapply IH; exact H].
Qed.

(** A measure summed over the requests in flight loses exactly the
    removed request's share. *)
Lemma list_sum_remove_at (f : A -> nat) (i : nat) (l : list A) (x : A) :
  nth_error l i = Some x ->
  list_sum (map f (remove_at i l)) + f x = list_sum (map f l).
Proof.
  revert i; induction l as [|y l IH]; intros [|i] H; simpl in *; try discriminate.
  - injection H as ->. lia.
  - rewrite <- (IH i H). lia.
Qed.

(** The request issued last leaves the set in flight. *)
Lemma remove_at_snoc (l : list A) (x : A) : remove_at (length l) (l ++ [x]) = l.
Proof. induction l as [|y l IH]; simpl; [reflexivity|]. rewrite IH. reflexivity. Qed.

Lemma nth_error_length_snoc (l : list A) (x : A) : nth_error (l ++ [x]) (length l) = Some x.
Proof. induction l as [|y l IH]; simpl; [reflexivity|exact IH]. Qed.

Lemma filter_all_true (f : A -> bool) (l : list A) :
  Forall (fun x => f x = true) l -> filter f l = l.
Proof. induction 1 as [|x l Hx _ IH]; simpl; [|rewrite Hx, IH]; reflexivity. Qed.

End ListsMore.

#[export] Hint Rewrite @remove_at_lt @remove_at_ge using lia : portal_rw.

(** ** Runs of a deterministic step function

    Every stateful page is modelled as a function from a state and an
    event (a user action, or the arrival of a response) to the next state,
    or [None] when the event cannot happen in that state (a response to a
    request that is not in flight).  A run is a list of events. *)

Section Runs.
Context {S E : Type} (step : S -> E -> option S).

Fixpoint run (s : S) (es : list E) : option S :=
  match es with
  | [] => Some s
  | e :: es' => match step s e with Some s' => run s' es' | None => None end
  end.

Lemma run_app (s : S) (es1 es2 : list E) :
  run s (es1 ++ es2) = match run s es1 with Some s' => run s' es2 | None => None end.
Proof.
  revert s; induction es1 as [|e es IH]; intros s; simpl; [reflexivity|].
  destruct (step s e); [apply IH|reflexivity].
Qed.

(** An invariant of every reachable state: established initially and kept
    by every step. *)
Lemma run_invariant (P : S -> Prop) :
  (forall s e s', P s -> step s e = Some s' -> P s') ->
  forall es s s', P s -> run s es = Some s' -> P s'.
Proof.
  intros Hstep es; induction es as [|e es IH]; intros s s' Hs Hrun; simpl in Hrun.
  - now inv Hrun.
  - destruct (step s e) as [s1|] eqn:Hs1; [|discriminate]. eapply IH; [|exact Hrun].
    eapply Hstep; eassumption.
Qed.

End Runs.

(** ** Sequences of transitions of a relation *)

Section Star.
Context {S : Type} (R : S -> S -> Prop).

Inductive star : S -> S -> Prop :=
| star_refl (s : S) : star s s
| star_step (s1 s2 s3 : S) : R s1 s2 -> star s2 s3 -> star s1 s3.

Lemma star_one (s1 s2 : S) : R s1 s2 -> star s1 s2.
Proof. intros H. eapply star_step; [exact H|constructor]. Qed.

Lemma star_trans (s1 s2 s3 : S) : star s1 s2 -> star s2 s3 -> star s1 s3.
Proof. induction 1; [auto|]. intros H3. eapply star_step; eauto. Qed.

End Star.

#[export] Hint Constructors star : portal.
#[export] Hint Resolve star_one star_trans : portal.

(** ** Simulation of runs

    The abstraction of a step function into a labelled specification
    relation, in the manner of a forward simulation diagram: every step
    allowed by [P] from a state satisfying [I] keeps [I]; a step with a
    label is matched by one step of [R] with that label between the
    abstractions, and a step without label leaves the abstraction as it
    is.  Then every run whose steps are all allowed is matched by a trace
    of [R] carrying the labels of the run, in order. *)

Section Simulation.
Context {S E A L : Type} (step : S -> E -> option S) (label : S -> E -> option L)
        (R : A -> L -> A -> Prop) (abs : S -> A).

(** The labelled traces of [R]. *)
Inductive trace : A -> list L -> A -> Prop :=
| trace_nil (a : A) : trace a [] a
| trace_cons (a1 a2 a3 : A) (l : L) (ls : list L) :
    R a1 l a2 -> trace a2 ls a3 -> trace a1 (l :: ls) a3.

(** Every step of the run from [s] over [es] is allowed by [P]. *)
Fixpoint all_steps (P : S -> E -> bool) (s : S) (es : list E) : bool :=
  match es with
  | [] => true
  | e :: es' => P s e && match step s e with Some s' => all_steps P s' es' | None => true end
  end.

(** The labels of the run from [s] over [es]. *)
Fixpoint run_labels (s : S) (es : list E) : list L :=
  match es with
  | [] => []
  | e :: es' =>
      let rest := match step s e with Some s' => run_labels s' es' | None => [] end in
      match label s e with Some l => l :: rest | None => rest end
  end.

Lemma run_simulation (I : S -> Prop) (P : S -> E -> bool) :
  (forall s e s', I s -> P s e = true -> step s e = Some s' ->
     I s' /\ match label s e with
              | Some l => R (abs s) l (abs s')
              | None => abs s' = abs s
              end) ->
  forall es s s', I s -> all_steps P s es = true -> run step s es = Some s' ->
  trace (abs s) (run_labels s es) (abs s').
Proof.
  intros Hsim es; induction es as [|e es IH]; intros s s' Hs Hall Hrun; simpl in *.
  - inv Hrun. constructor.
  - apply andb_true_iff in Hall as [He Hall].
    destruct (step s e) as [s1|] eqn:Hs1; [|discriminate].
    destruct (Hsim s e s1 Hs He Hs1) as [HI1 Hst]. specialize (IH s1 s' HI1 Hall Hrun).
    destruct (label s e); [econstructor; [exact Hst|exact IH]|rewrite <- Hst; exact IH].
Qed.

(** A deterministic relation has at most one end state per trace. *)
Lemma trace_functional (a : A) (ls : list L) (b c : A) :
  (forall x l y z, R x l y -> R x l z -> y = z) -> trace a ls b -> trace a ls c -> b = c.
Proof.
  intros Hdet Hb; revert c; induction Hb as [a|a1 a2 a3 l ls H1 _ IH]; intros c Hc;
    inversion Hc; subst; [reflexivity|].
  apply IH. rewrite (Hdet _ _ _ _ H1 ltac:(eassumption)). assumption.
Qed.

End Simulation.
