(* ===== verification/JsArray.v ===== *)
(** * JavaScript arrays: [Array.prototype.map] with a callback that may throw

    A render maps a callback over an array, and the callback may throw (a
    property read of [null], an object given as React text).  [map_opt]
    is that map: [None] as soon as one call throws, so the whole render
    fails. *)

From Stdlib Require Import List Lia.
From S2P Require Import Prelude.
Import ListNotations.

Module JsArray.

(** [l.map(f)] for a callback that may throw: the first exception stops
    the whole map. *)
Fixpoint map_opt {A B : Type} (f : A -> option B) (l : list A) : option (list B) :=
  match l with
  | [] => Some []
  | x :: l' => match f x with
               | Some y => match map_opt f l' with Some ys => Some (y :: ys) | None => None end
               | None => None
               end
  end.

Section MapOpt.
Context {A : Type}.

Lemma map_opt_Some {B : Type} (f : A -> option B) (l : list A) (g : A -> B) :
  (forall x, In x l -> f x = Some (g x)) -> map_opt f l = Some (map g l).
Proof.
  induction l as [|x l IH]; intros H; simpl; [reflexivity|].
  rewrite (H x (or_introl eq_refl)), IH by (intros y Hy; apply H; right; exact Hy). reflexivity.
Qed.

Lemma map_opt_In {B : Type} (f : A -> option B) (l : list A) (ys : list B) (y : B) :
  map_opt f l = Some ys -> In y ys -> exists x, In x l /\ f x = Some y.
Proof.
  revert ys; induction l as [|x l IH]; intros ys H Hy; simpl in H.
  { injection H as <-. destruct Hy. }
  destruct (f x) as [y'|] eqn:Hx; [|discriminate].
  destruct (map_opt f l) as [ys'|] eqn:Hl; [|discriminate]. inv H.
  destruct Hy as [<-|Hy]; [exists x; split; [left; reflexivity|exact Hx]|].
  destruct (IH ys' eq_refl Hy) as (x' & Hin & Hx'). exists x'. split; [right; exact Hin|exact Hx'].
Qed.

Lemma map_opt_length {B : Type} (f : A -> option B) (l : list A) (ys : list B) :
  map_opt f l = Some ys -> length ys = length l.
Proof.
  revert ys; induction l as [|x l IH]; intros ys H; simpl in H.
  { injection H as <-. reflexivity. }
  destruct (f x); [|discriminate]. destruct (map_opt f l) eqn:Hl; [|discriminate].
  inv H. simpl. rewrite (IH l0 eq_refl). reflexivity.
Qed.

Lemma map_opt_None {B : Type} (f : A -> option B) (l1 l2 : list A) (x : A) :
  f x = None -> map_opt f (l1 ++ x :: l2) = None.
Proof.
  intros Hx. induction l1 as [|y l1 IH]; simpl; [rewrite Hx; reflexivity|].
  destruct (f y); [rewrite IH|]; reflexivity.
Qed.

End MapOpt.

End JsArray.
