(* ===== verification/JsString.v ===== *)
(** * JavaScript string operations used by the form binding

    [String.prototype.split] and [Array.prototype.join] with a one-character
    separator, [String.prototype.trim], and the truthiness of strings that
    [filter(Boolean)] tests.  Strings are Rocq [string]s whose characters are
    read as the Latin-1 code units U+0000 to U+00FF; code units above U+00FF
    are not represented. *)

From Stdlib Require Import String Ascii List Bool Arith NArith Lia.
From S2P Require Import Prelude.
Import ListNotations.
Open Scope string_scope.

Module JsString.

(** A string is truthy exactly when it is not empty ([Boolean(s)]). *)
Definition truthy_str (s : string) : bool :=
  match s with EmptyString => false | String _ _ => true end.

(** WhiteSpace and LineTerminator code units of the Latin-1 range
    (TAB, LF, VT, FF, CR, SPACE, NBSP): what [trim] removes. *)
Definition is_space (a : ascii) : bool :=
  let n := nat_of_ascii a in
  Nat.eqb n 9 || Nat.eqb n 10 || Nat.eqb n 11 || Nat.eqb n 12 || Nat.eqb n 13
  || Nat.eqb n 32 || Nat.eqb n 160.

Fixpoint trim_start (s : string) : string :=
  match s with
  | EmptyString => EmptyString
  | String a s' => if is_space a then trim_start s' else s
  end.

Fixpoint trim_end (s : string) : string :=
  match s with
  | EmptyString => EmptyString
  | String a s' =>
      match trim_end s' with
      | EmptyString => if is_space a then EmptyString else String a EmptyString
      | r => String a r
      end
  end.

(** [s.trim()] *)
Definition trim (s : string) : string := trim_end (trim_start s).

(** Whether character [c] occurs in [s]. *)
Fixpoint has_char (c : ascii) (s : string) : bool :=
  match s with
  | EmptyString => false
  | String a s' => Ascii.eqb a c || has_char c s'
  end.

(** [s.split(c)] for a one-character separator [c]: the pieces between the
    occurrences of [c], so an empty string gives [[""]]. *)
Fixpoint split (c : ascii) (s : string) : list string :=
  match s with
  | EmptyString => [EmptyString]
  | String a s' =>
      if Ascii.eqb a c then EmptyString :: split c s'
      else match split c s' with
           | x :: xs => String a x :: xs
           | [] => [String a EmptyString]
           end
  end.

(** [l.join(sep)]: the elements separated by [sep]; [[].join(sep)] is [""]. *)
Fixpoint join (sep : string) (l : list string) : string :=
  match l with
  | [] => EmptyString
  | [x] => x
  | x :: xs => x ++ sep ++ join sep xs
  end.

(** [l.filter(Boolean)] on strings. *)
Definition filter_truthy (l : list string) : list string := filter truthy_str l.

(** [l.filter(item => item.trim())]. *)
Definition filter_nonblank (l : list string) : list string :=
  filter (fun x => truthy_str (trim x)) l.

(** ** Lemmas *)

Lemma str_app_assoc (s t u : string) : s ++ (t ++ u) = (s ++ t) ++ u.
Proof. induction s as [|a s IH]; simpl; [reflexivity|]. rewrite IH. reflexivity. Qed.

Lemma str_length_app (s t : string) : String.length (s ++ t) = String.length s + String.length t.
Proof. induction s as [|a s IH]; simpl; [reflexivity|]. rewrite IH. reflexivity. Qed.

Lemma str_app_nil_r (s : string) : s ++ EmptyString = s.
Proof. induction s as [|a s IH]; simpl; [reflexivity|]. rewrite IH. reflexivity. Qed.

Lemma split_no_sep (c : ascii) (s : string) :
  has_char c s = false -> split c s = [s].
Proof.
  induction s as [|a s IH]; simpl; [reflexivity|].
  intros H. apply orb_false_iff in H as [Ha Hs].
  rewrite Ha, IH by exact Hs. reflexivity.
Qed.

Lemma split_app_sep (c : ascii) (x rest : string) :
  has_char c x = false -> split c (x ++ String c rest) = x :: split c rest.
Proof.
  induction x as [|a x IH]; simpl; intros H.
  - rewrite Ascii.eqb_refl. reflexivity.
  - apply orb_false_iff in H as [Ha Hx]. rewrite Ha, IH by exact Hx. reflexivity.
Qed.

(** Splitting a joined list gives the list back when no element contains
    the separator. *)
Lemma split_join (c : ascii) (l : list string) :
  l <> [] -> Forall (fun x => has_char c x = false) l ->
  split c (join (String c EmptyString) l) = l.
Proof.
  intros Hne Hall. induction Hall as [|x l Hx Hl IH]; [congruence|].
  destruct l as [|y l].
  - apply split_no_sep, Hx.
  - change (join (String c "") (x :: y :: l)) with (x ++ String c (join (String c "") (y :: l))).
    rewrite split_app_sep by exact Hx. rewrite IH by discriminate. reflexivity.
Qed.

Lemma trim_end_empty_iff (s : string) :
  trim_end s = EmptyString <-> forallb is_space (list_ascii_of_string s) = true.
Proof.
  induction s as [|a s IH]; simpl; [tauto|].
  destruct (trim_end s) eqn:E.
  - destruct (is_space a); simpl; [tauto|]. split; discriminate.
  - rewrite andb_true_iff, <- IH. split; [discriminate|]. intros [_ H]; discriminate.
Qed.

Lemma trim_start_blank (s : string) :
  forallb is_space (list_ascii_of_string (trim_start s)) = forallb is_space (list_ascii_of_string s).
Proof.
  induction s as [|a s IH]; simpl; [reflexivity|].
  destruct (is_space a) eqn:E; simpl; [exact IH|rewrite E; reflexivity].
Qed.

(** [s.trim()] is empty exactly when [s] is made of white space. *)
Lemma trim_empty_iff (s : string) :
  trim s = EmptyString <-> forallb is_space (list_ascii_of_string s) = true.
Proof. unfold trim. rewrite trim_end_empty_iff, trim_start_blank. reflexivity. Qed.

Lemma truthy_trim (s : string) :
  truthy_str (trim s) = negb (forallb is_space (list_ascii_of_string s)).
Proof.
  destruct (trim s) eqn:E; simpl.
  - apply trim_empty_iff in E. rewrite E. reflexivity.
  - destruct (forallb is_space (list_ascii_of_string s)) eqn:F; [|reflexivity].
    apply trim_empty_iff in F. congruence.
Qed.

Lemma has_char_app (c : ascii) (s t : string) :
  has_char c (s ++ t) = has_char c s || has_char c t.
Proof. induction s as [|a s IH]; simpl; [reflexivity|]. rewrite IH, orb_assoc. reflexivity. Qed.

Lemma truthy_app_cons (s t : string) (a : ascii) : truthy_str (s ++ String a t) = true.
Proof. destruct s; reflexivity. Qed.

(** Character equality through the code of the character. *)
Lemma ascii_of_N_eqb (b : N) (c : ascii) :
  (b < 256)%N -> Ascii.eqb (ascii_of_N b) c = N.eqb b (N_of_ascii c).
Proof.
  intros Hb. destruct (Ascii.eqb_spec (ascii_of_N b) c) as [E|E];
    destruct (N.eqb_spec b (N_of_ascii c)) as [F|F]; try reflexivity.
  - subst c. rewrite N_ascii_embedding in F by exact Hb. congruence.
  - subst b. rewrite ascii_N_embedding in E. congruence.
Qed.

End JsString.
