(* ===== verification/Utf8.v ===== *)
(** * UTF-8: the bytes of the source text and the characters shown

    The pages' sources are UTF-8 files, and a string literal of a page is
    modelled by the bytes it has in the file (as [AdminEnrollments.em_dash]
    is).  The characters the browser shows are the UTF-8 decoding of those
    bytes.  [decode] is that decoding (a malformed sequence is [None]),
    [encode] its inverse on code points, and [decode_encode] the round
    trip.  [cp1252] is the Windows-1252 reading of a byte, given for the
    bytes a mis-decoded text contains. *)

From Stdlib Require Import String Ascii List Bool ZArith Lia.
From S2P Require Import Prelude.
Import ListNotations.
Open Scope Z_scope.

Module Utf8.

(** The byte with value [n], and the value of a byte. *)
Definition byte (n : Z) : ascii := ascii_of_nat (Z.to_nat n).
Definition val (a : ascii) : Z := Z.of_nat (nat_of_ascii a).

(** A continuation byte [10xxxxxx]. *)
Definition cont (a : ascii) : bool := (128 <=? val a) && (val a <? 192).

Fixpoint decode (s : string) : option (list Z) :=
  match s with
  | EmptyString => Some []
  | String a r =>
      let b := val a in
      if b <? 128 then option_map (cons b) (decode r)
      else if (192 <=? b) && (b <? 224) then
        match r with
        | String a2 r2 =>
            if cont a2 then option_map (cons ((b - 192) * 64 + (val a2 - 128))) (decode r2)
            else None
        | _ => None
        end
      else if (224 <=? b) && (b <? 240) then
        match r with
        | String a2 (String a3 r3) =>
            if cont a2 && cont a3
            then option_map (cons (((b - 224) * 64 + (val a2 - 128)) * 64 + (val a3 - 128)))
                   (decode r3)
            else None
        | _ => None
        end
      else if (240 <=? b) && (b <? 248) then
        match r with
        | String a2 (String a3 (String a4 r4)) =>
            if cont a2 && cont a3 && cont a4
            then option_map
                   (cons ((((b - 240) * 64 + (val a2 - 128)) * 64 + (val a3 - 128)) * 64
                          + (val a4 - 128)))
                   (decode r4)
            else None
        | _ => None
        end
      else None
  end.

(** The UTF-8 bytes of a code point below U+110000. *)
Definition encode (c : Z) : string :=
  if c <? 128 then String (byte c) EmptyString
  else if c <? 2048 then
    String (byte (192 + c / 64)) (String (byte (128 + c mod 64)) EmptyString)
  else if c <? 65536 then
    String (byte (224 + c / 64 / 64))
      (String (byte (128 + (c / 64) mod 64)) (String (byte (128 + c mod 64)) EmptyString))
  else
    String (byte (240 + c / 64 / 64 / 64))
      (String (byte (128 + (c / 64 / 64) mod 64))
        (String (byte (128 + (c / 64) mod 64)) (String (byte (128 + c mod 64)) EmptyString))).

Fixpoint encode_all (cps : list Z) : string :=
  match cps with
  | [] => EmptyString
  | c :: cs => (encode c ++ encode_all cs)%string
  end.

(** The Windows-1252 character of a byte, for the bytes of U+2018 to
    U+201D that differ from Latin-1; other bytes read as Latin-1. *)
Definition cp1252 (b : Z) : Z :=
  if b =? 128 then 8364       (* U+20AC *)
  else if b =? 145 then 8216  (* U+2018 *)
  else if b =? 146 then 8217  (* U+2019 *)
  else if b =? 147 then 8220  (* U+201C *)
  else if b =? 148 then 8221  (* U+201D *)
  else if b =? 153 then 8482  (* U+2122 *)
  else b.

(** Bytes read one character each, as Windows-1252. *)
Fixpoint cp1252_decode (s : string) : list Z :=
  match s with
  | EmptyString => []
  | String a r => cp1252 (val a) :: cp1252_decode r
  end.

(** ** Lemmas *)

Lemma val_byte (n : Z) : 0 <= n < 256 -> val (byte n) = n.
Proof.
  intros H. unfold val, byte. rewrite nat_ascii_embedding by lia. apply Z2Nat.id. lia.
Qed.

(** The base-64 digits of [c], as linear facts for [lia]. *)
Ltac digits64 c :=
  pose proof (Z.div_mod c 64 ltac:(lia)); pose proof (Z.mod_pos_bound c 64 ltac:(lia));
  pose proof (Z.div_mod (c / 64) 64 ltac:(lia)); pose proof (Z.mod_pos_bound (c / 64) 64 ltac:(lia));
  pose proof (Z.div_mod (c / 64 / 64) 64 ltac:(lia));
  pose proof (Z.mod_pos_bound (c / 64 / 64) 64 ltac:(lia)).

(** Evaluate the byte values and the tests on them. *)
Ltac settle_bytes :=
  repeat (rewrite val_byte by lia);
  repeat match goal with
  | |- context [?a <? ?b] =>
      first [rewrite (proj2 (Z.ltb_lt a b)) by lia | rewrite (proj2 (Z.ltb_ge a b)) by lia]
  | |- context [?a <=? ?b] =>
      first [rewrite (proj2 (Z.leb_le a b)) by lia | rewrite (proj2 (Z.leb_gt a b)) by lia]
  end; cbn [andb].

Lemma decode_encode_app (c : Z) (r : string) :
  0 <= c < 1114112 -> decode (encode c ++ r) = option_map (cons c) (decode r).
Proof.
  intros Hc. digits64 c. unfold encode.
  destruct (Z.ltb_spec c 128); [|destruct (Z.ltb_spec c 2048); [|destruct (Z.ltb_spec c 65536)]];
    cbn [append decode]; unfold cont; settle_bytes;
    destruct (decode r); cbn [option_map]; f_equal; f_equal; lia.
Qed.

(** Decoding the encoding of code points gives them back. *)
Lemma decode_encode (cps : list Z) :
  Forall (fun c => 0 <= c < 1114112) cps -> decode (encode_all cps) = Some cps.
Proof.
  induction 1 as [|c cs Hc _ IH]; [reflexivity|].
  simpl. rewrite decode_encode_app, IH by exact Hc. reflexivity.
Qed.

End Utf8.
