(* ===== verification/JsNumber.v ===== *)
(** * JavaScript numbers: [Number.prototype.toString] and [parseInt]

    A JS number that the pages read from the backend (a course's duration,
    a page number, a page count) is modelled as an integer [Z]; its decimal
    rendering [Z_to_string] is what [n.toString()] and [String(n)] give for
    every safe integer (|n| <= 2^53 - 1), the range in which a double holds
    an integer exactly and prints without an exponent.  [parseInt] follows
    the ECMAScript algorithm with no radix argument: leading white space,
    an optional sign, an optional [0x]/[0X] prefix that selects base 16,
    then the longest run of digits of the base; no digit gives NaN, here
    [None].  The rounding of a parsed integer beyond 2^53 to the nearest
    double is not modelled. *)

From Stdlib Require Import String Ascii List Bool NArith ZArith Lia.
From S2P Require Import Prelude JsString.
Import ListNotations.
Open Scope string_scope.

Module JsNumber.

(** A finite JS number as it arrives in a JSON response, kept as the exact
    decimal [mant * 10 ^ exp10] that the JSON text denotes (a count or an id
    has [exp10 = 0]; a price such as [19.99] is [Num 1999 (-2)]). *)
Record num := Num { mant : Z; exp10 : Z }.

Definition num_of_Z (z : Z) : num := Num z 0.

(** The number is [0] (or [-0]): the falsy numbers of JSON data. *)
Definition num_is_zero (x : num) : bool := Z.eqb (mant x) 0.

(** [Number.MAX_SAFE_INTEGER] *)
Definition MAX_SAFE_INTEGER : Z := 9007199254740991.

(** ** Rendering *)

Definition digit_char (d : N) : ascii := ascii_of_N (48 + d).

(** The decimal digits of [n], most significant first, given [fuel] at
    least the number of digits. *)
Fixpoint digits_fuel (fuel : nat) (n : N) : string :=
  match fuel with
  | O => EmptyString
  | S f =>
      if (n <? 10)%N then String (digit_char n) EmptyString
      else digits_fuel f (n / 10)%N ++ String (digit_char (n mod 10)%N) EmptyString
  end.

(** A number has at most [log2 n + 1] decimal digits. *)
Definition N_to_string (n : N) : string := digits_fuel (S (N.to_nat (N.log2 n))) n.

(** [String(n)] / [n.toString()] of an integer below [10^21] in magnitude,
    where JavaScript prints its plain digits ([JsDecimal.num_toString] has
    all the layouts and agrees with it there). *)
Definition Z_to_string (z : Z) : string :=
  if (z <? 0)%Z then String "-" (N_to_string (Z.to_N (- z))) else N_to_string (Z.to_N z).

(** ** Parsing *)

(** The value of a digit of bases up to 36: [0-9], then [a-z] or [A-Z]. *)
Definition digit_value (a : ascii) : N :=
  let n := N_of_ascii a in
  if (48 <=? n)%N && (n <=? 57)%N then n - 48
  else if (97 <=? n)%N && (n <=? 122)%N then n - 87
  else if (65 <=? n)%N && (n <=? 90)%N then n - 55
  else 36.

Definition is_radix_digit (radix : N) (a : ascii) : bool := (digit_value a <? radix)%N.

(** The longest prefix of [s] made of characters satisfying [p], and the rest. *)
Fixpoint span (p : ascii -> bool) (s : string) : string * string :=
  match s with
  | EmptyString => (EmptyString, EmptyString)
  | String a s' =>
      if p a then let (pre, rest) := span p s' in (String a pre, rest)
      else (EmptyString, s)
  end.

(** The value of a run of digits in base [radix], accumulated into [acc]. *)
Fixpoint radix_value (radix acc : N) (s : string) : N :=
  match s with
  | EmptyString => acc
  | String a s' => radix_value radix (radix * acc + digit_value a)%N s'
  end.

(** The longest run of digits of base [radix] at the start of [s]; no digit
    at all gives NaN. *)
Definition parse_digits (radix : N) (s : string) : option N :=
  match span (is_radix_digit radix) s with
  | (EmptyString, _) => None
  | (pre, _) => Some (radix_value radix 0 pre)
  end.

(** The optional sign of [parseInt]: [-] gives -1, [+] or nothing gives 1. *)
Definition parse_sign (s : string) : Z * string :=
  match s with
  | String a r =>
      if Ascii.eqb a "-" then ((-1)%Z, r)
      else if Ascii.eqb a "+" then (1%Z, r) else (1%Z, s)
  | EmptyString => (1%Z, s)
  end.

(** The [0x] or [0X] prefix selects base 16, otherwise base 10. *)
Definition parse_prefix (s : string) : N * string :=
  match s with
  | String z (String x r) =>
      if Ascii.eqb z "0" && (Ascii.eqb x "x" || Ascii.eqb x "X") then (16%N, r)
      else (10%N, s)
  | _ => (10%N, s)
  end.

(** [parseInt(s)] *)
Definition parseInt (s : string) : option Z :=
  let '(sign, s2) := parse_sign (JsString.trim_start s) in
  let '(radix, s3) := parse_prefix s2 in
  option_map (fun v => (sign * Z.of_N v)%Z) (parse_digits radix s3).

(** ** Lemmas *)

Fixpoint all_chars (p : ascii -> bool) (s : string) : bool :=
  match s with
  | EmptyString => true
  | String a s' => p a && all_chars p s'
  end.

Lemma all_chars_app (p : ascii -> bool) (s t : string) :
  all_chars p (s ++ t) = all_chars p s && all_chars p t.
Proof. induction s as [|a s IH]; simpl; [reflexivity|]. rewrite IH, andb_assoc. reflexivity. Qed.

Lemma span_all (p : ascii -> bool) (s : string) :
  all_chars p s = true -> span p s = (s, EmptyString).
Proof.
  induction s as [|a s IH]; simpl; [reflexivity|].
  intros H. apply andb_true_iff in H as [Ha Hs]. rewrite Ha, IH by exact Hs. reflexivity.
Qed.

Lemma radix_value_app (radix acc : N) (s t : string) :
  radix_value radix acc (s ++ t) = radix_value radix (radix_value radix acc s) t.
Proof. revert acc; induction s as [|a s IH]; intros acc; simpl; [reflexivity|apply IH]. Qed.

(** What is known of a decimal digit: its character, its value, and that it is
    neither white space nor a sign. *)
Lemma digit_char_facts (d : N) : (d < 10)%N ->
  digit_value (digit_char d) = d /\ is_radix_digit 10 (digit_char d) = true /\
  JsString.is_space (digit_char d) = false /\
  Ascii.eqb (digit_char d) "-" = false /\ Ascii.eqb (digit_char d) "+" = false /\
  (Ascii.eqb (digit_char d) "0" = true <-> d = 0%N).
Proof.
  intros H.
  assert (d = 0 \/ d = 1 \/ d = 2 \/ d = 3 \/ d = 4 \/ d = 5 \/ d = 6 \/ d = 7 \/ d = 8 \/ d = 9)%N
    as Hd by lia.
  repeat destruct Hd as [->|Hd]; subst; vm_compute; repeat split; congruence.
Qed.

Lemma digits_fuel_all (f : nat) (n : N) :
  all_chars (is_radix_digit 10) (digits_fuel f n) = true.
Proof.
  revert n; induction f as [|f IH]; intros n; simpl; [reflexivity|].
  destruct (N.ltb_spec n 10).
  - simpl. rewrite (proj1 (proj2 (digit_char_facts n H))). reflexivity.
  - rewrite all_chars_app, IH. simpl.
    rewrite (proj1 (proj2 (digit_char_facts (n mod 10) (N.mod_lt n 10 ltac:(lia))))).
    reflexivity.
Qed.

Lemma pow10_succ (f : nat) : (10 ^ N.of_nat (S f) = 10 * 10 ^ N.of_nat f)%N.
Proof. rewrite Nat2N.inj_succ, N.pow_succ_r'. reflexivity. Qed.

Lemma digits_fuel_value (f : nat) (n : N) :
  (n < 10 ^ N.of_nat f)%N -> radix_value 10 0 (digits_fuel f n) = n.
Proof.
  revert n; induction f as [|f IH]; intros n Hn; simpl.
  - simpl in Hn. lia.
  - rewrite pow10_succ in Hn. destruct (N.ltb_spec n 10).
    + cbn [radix_value]. rewrite (proj1 (digit_char_facts n H)). lia.
    + rewrite radix_value_app, IH by (apply N.Div0.div_lt_upper_bound; lia). cbn [radix_value].
      rewrite (proj1 (digit_char_facts (n mod 10) (N.mod_lt n 10 ltac:(lia)))).
      pose proof (N.div_mod n 10 ltac:(lia)). lia.
Qed.

(** The first digit is [0] only for the number 0, written ["0"]. *)
Lemma digits_fuel_head (f : nat) (n : N) :
  (n < 10 ^ N.of_nat f)%N -> f <> O ->
  exists d r, digits_fuel f n = String (digit_char d) r /\ (d < 10)%N /\
              (d = 0%N -> n = 0%N /\ r = EmptyString).
Proof.
  revert n; induction f as [|f IH]; intros n Hn Hf; [congruence|].
  rewrite pow10_succ in Hn. simpl. destruct (N.ltb_spec n 10).
  - exists n, EmptyString. repeat split; auto.
  - destruct f as [|f'].
    + simpl in Hn. lia.
    + destruct (IH (n / 10)%N) as (d & r & Hdr & Hd & H0);
        [apply N.Div0.div_lt_upper_bound; lia|discriminate|].
      rewrite Hdr. exists d, (r ++ String (digit_char (n mod 10)) EmptyString).
      split; [reflexivity|]. split; [exact Hd|]. intros Hd0.
      destruct (H0 Hd0) as [Hn0 _]. exfalso.
      pose proof (N.div_le_lower_bound n 10 1 ltac:(lia) ltac:(lia)). lia.
Qed.

Lemma N_to_string_fuel (n : N) : (n < 10 ^ N.of_nat (S (N.to_nat (N.log2 n))))%N.
Proof.
  rewrite Nat2N.inj_succ, N2Nat.id.
  destruct (N.eq_dec n 0) as [->|Hn]; [reflexivity|].
  apply N.lt_le_trans with (2 ^ N.succ (N.log2 n))%N.
  - apply N.log2_spec. lia.
  - apply N.pow_le_mono_l. lia.
Qed.

Lemma N_to_string_shape (n : N) :
  exists d r, N_to_string n = String (digit_char d) r /\ (d < 10)%N /\
              (d = 0%N -> n = 0%N /\ r = EmptyString).
Proof. apply digits_fuel_head; [apply N_to_string_fuel|discriminate]. Qed.

Lemma parse_N_to_string (n : N) :
  JsString.trim_start (N_to_string n) = N_to_string n /\
  parse_sign (N_to_string n) = (1%Z, N_to_string n) /\
  parse_prefix (N_to_string n) = (10%N, N_to_string n) /\
  parse_digits 10 (N_to_string n) = Some n.
Proof.
  assert (Hv : radix_value 10 0 (N_to_string n) = n)
    by (apply digits_fuel_value, N_to_string_fuel).
  destruct (N_to_string_shape n) as (d & r & Hs & Hd & H0).
  destruct (digit_char_facts d Hd) as (_ & _ & Hsp & Hm & Hp & Hz).
  unfold parse_digits. rewrite span_all by apply digits_fuel_all.
  rewrite Hs in *. simpl. rewrite Hsp, Hm, Hp. repeat split; [|exact (f_equal Some Hv)].
  destruct r as [|x r]; [reflexivity|].
  destruct (Ascii.eqb (digit_char d) "0") eqn:E; [|reflexivity].
  assert (E0 : d = 0%N) by (apply Hz; reflexivity).
  destruct (H0 E0) as [_ Hr]. discriminate.
Qed.

(** The text of an integer reads back as the integer. *)
Lemma parseInt_Z_to_string (z : Z) : parseInt (Z_to_string z) = Some z.
Proof.
  unfold Z_to_string. destruct (Z.ltb_spec z 0).
  - destruct (parse_N_to_string (Z.to_N (- z))) as (_ & _ & Hp & Hd).
    unfold parseInt.
    replace (JsString.trim_start (String "-" (N_to_string (Z.to_N (- z)))))
      with (String "-" (N_to_string (Z.to_N (- z)))) by reflexivity.
    replace (parse_sign (String "-" (N_to_string (Z.to_N (- z)))))
      with ((-1)%Z, N_to_string (Z.to_N (- z))) by reflexivity.
    rewrite Hp, Hd. cbn [option_map]. f_equal. lia.
  - destruct (parse_N_to_string (Z.to_N z)) as (Ht & Hs & Hp & Hd).
    unfold parseInt. rewrite Ht, Hs, Hp, Hd. cbn [option_map]. f_equal. lia.
Qed.

(** A duration field that does not start with a digit (after white
    space and a sign) parses to NaN. *)
Theorem parseInt_nan (a : ascii) (s : string) :
  JsString.is_space a = false -> Ascii.eqb a "-" = false -> Ascii.eqb a "+" = false ->
  (10 <= digit_value a)%N -> parseInt (String a s) = None.
Proof.
  intros Hsp Hm Hp Hd. unfold parseInt. cbn [JsString.trim_start]. rewrite Hsp.
  cbn [parse_sign]. rewrite Hm, Hp.
  assert (Hnd : is_radix_digit 10 a = false) by (unfold is_radix_digit; apply N.ltb_ge; exact Hd).
  unfold parse_prefix. destruct s as [|x r].
  - unfold parse_digits. simpl. rewrite Hnd. reflexivity.
  - destruct (Ascii.eqb a "0" && (Ascii.eqb x "x" || Ascii.eqb x "X")) eqn:E.
    + apply andb_true_iff in E as [E _]. apply Ascii.eqb_eq in E. subst a. discriminate.
    + unfold parse_digits. simpl. rewrite Hnd. reflexivity.
Qed.

Lemma parseInt_nan_witness :
  JsString.is_space "a" = false /\ parseInt "abc" = None.
Proof.
  split; [reflexivity|]. apply parseInt_nan; vm_compute; first [reflexivity | discriminate].
Defined.

End JsNumber.
