(* ===== verification/JsDecimal.v ===== *)
(** * JavaScript decimals: [Number.prototype.toString] and [parseFloat]

    A course's price is a JSON number such as [19.99]; the edit dialog turns
    it into text with [course.price.toString()] and back with
    [parseFloat(formData.price)].  The number is the exact decimal [num] of
    [JsNumber]; [num_toString] is the ECMAScript [Number::toString] on it
    (the shortest digits [s], the decimal point position [n], and the four
    layouts: integer, fixed point, leading [0.], exponent), which is what a
    double prints when its decimal has at most 15 significant digits.
    [parseFloat] reads the longest [StrDecimalLiteral] prefix after the
    leading white space; the rounding of the result to a double is not
    modelled, so numbers are compared by their exact value ([num_eqv]). *)

From Stdlib Require Import String Ascii List Bool NArith ZArith Lia.
From Stdlib Require Import Setoid Morphisms.
From S2P Require Import Prelude JsString JsNumber.
Import ListNotations.
Open Scope string_scope.

Module JsDecimal.

Import JsNumber.

(** ** Rendering *)

(** Remove the trailing zeros of a positive significand, moving them to the
    exponent: [(s, e)] with [s] not a multiple of 10. *)
Fixpoint strip_zeros (fuel : nat) (s : N) (e : Z) : N * Z :=
  match fuel with
  | O => (s, e)
  | S f => if (s mod 10 =? 0)%N then strip_zeros f (s / 10)%N (e + 1)%Z else (s, e)
  end.

Fixpoint zeros (n : nat) : string :=
  match n with O => EmptyString | S n' => String "0" (zeros n') end.

(** [Number::toString] of the positive number [s * 10^e], [s] without
    trailing zeros: [k] digits, the point after digit [n]. *)
Definition pos_to_string (s : N) (e : Z) : string :=
  let ds := N_to_string s in
  let k := Z.of_nat (String.length ds) in
  let n := (k + e)%Z in
  if (k <=? n)%Z && (n <=? 21)%Z then ds ++ zeros (Z.to_nat (n - k))
  else if (0 <? n)%Z && (n <=? 21)%Z then
    substring 0 (Z.to_nat n) ds ++ "." ++ substring (Z.to_nat n) (Z.to_nat (k - n)) ds
  else if (-6 <? n)%Z && (n <=? 0)%Z then "0." ++ zeros (Z.to_nat (- n)) ++ ds
  else
    let e' := (n - 1)%Z in
    let ex := String "e" (String (if (0 <=? e')%Z then "+" else "-") (Z_to_string (Z.abs e'))) in
    match ds with
    | String d EmptyString => String d ex
    | String d rest => String d ("." ++ rest ++ ex)
    | EmptyString => ex
    end.

(** [x.toString()] *)
Definition num_toString (x : num) : string :=
  if (mant x =? 0)%Z then "0"
  else
    let m := Z.to_N (Z.abs (mant x)) in
    let '(s, e) := strip_zeros (S (N.to_nat (N.log2 m))) m (exp10 x) in
    if (mant x <? 0)%Z then String "-" (pos_to_string s e) else pos_to_string s e.

(** ** Parsing *)

(** What [parseFloat] returns besides NaN. *)
Inductive fnum := FFin (x : num) | FInf (negative : bool).

Definition is_dec_digit : ascii -> bool := is_radix_digit 10.

(** An [ExponentPart] ([e] or [E], a sign, digits) at the start of [t], or
    exponent 0 and nothing read when there is none. *)
Definition parse_exponent (t : string) : Z :=
  match t with
  | String c r =>
      if Ascii.eqb c "e" || Ascii.eqb c "E" then
        let '(sgn, r1) := parse_sign r in
        match span is_dec_digit r1 with
        | (EmptyString, _) => 0%Z
        | (ds, _) => (sgn * Z.of_N (radix_value 10 0 ds))%Z
        end
      else 0%Z
  | EmptyString => 0%Z
  end.

(** The digits after a decimal point, if [t] starts with one. *)
Definition parse_fraction (t : string) : string * string :=
  match t with
  | String "." r => span is_dec_digit r
  | _ => (EmptyString, t)
  end.

(** The longest [StrUnsignedDecimalLiteral] at the start of [t]. *)
Definition parse_unsigned (t : string) : option fnum :=
  if String.prefix "Infinity" t then Some (FInf false)
  else
    let (int, r1) := span is_dec_digit t in
    let (frac, r2) := parse_fraction r1 in
    match int, frac with
    | EmptyString, EmptyString => None
    | _, _ =>
        Some (FFin (Num (Z.of_N (radix_value 10 0 (int ++ frac)))
                        (parse_exponent r2 - Z.of_nat (String.length frac))))
    end.

Definition negate (sgn : Z) (v : fnum) : fnum :=
  match v with
  | FFin x => FFin (Num (sgn * mant x) (exp10 x))
  | FInf _ => FInf (sgn <? 0)%Z
  end.

(** [parseFloat(s)] *)
Definition parseFloat (s : string) : option fnum :=
  let '(sgn, t) := parse_sign (JsString.trim_start s) in
  option_map (negate sgn) (parse_unsigned t).

(** ** Equality of values *)

(** Two decimals denote the same number. *)
Definition num_eqv (x y : num) : Prop :=
  if (exp10 x <=? exp10 y)%Z then mant x = (mant y * 10 ^ (exp10 y - exp10 x))%Z
  else (mant x * 10 ^ (exp10 x - exp10 y))%Z = mant y.

(** ** Lemmas on digit strings *)

Lemma span_app_all (p : ascii -> bool) (s t : string) :
  all_chars p s = true -> span p (s ++ t) = (s ++ fst (span p t), snd (span p t)).
Proof.
  induction s as [|a s IH]; simpl; [destruct (span p t); reflexivity|].
  intros H. apply andb_true_iff in H as [Ha Hs]. rewrite Ha, IH by exact Hs.
  reflexivity.
Qed.

Lemma span_stop (p : ascii -> bool) (c : ascii) (r : string) :
  p c = false -> span p (String c r) = (EmptyString, String c r).
Proof. intros H. simpl. rewrite H. reflexivity. Qed.

Lemma zeros_digits (n : nat) : all_chars is_dec_digit (zeros n) = true.
Proof. induction n as [|n IH]; [reflexivity|exact IH]. Qed.

Lemma radix_value_zeros (acc : N) (n : nat) :
  radix_value 10 acc (zeros n) = (acc * 10 ^ N.of_nat n)%N.
Proof.
  revert acc; induction n as [|n IH]; intros acc; [simpl; lia|].
  cbn [zeros radix_value]. rewrite IH. rewrite Nat2N.inj_succ, N.pow_succ_r'.
  change (digit_value "0") with 0%N. lia.
Qed.

Lemma N_to_string_digits (m : N) : all_chars is_dec_digit (N_to_string m) = true.
Proof. apply digits_fuel_all. Qed.

Lemma N_to_string_value (m : N) : radix_value 10 0 (N_to_string m) = m.
Proof. apply digits_fuel_value, N_to_string_fuel. Qed.

Lemma all_chars_substring (p : ascii -> bool) (s : string) (n m : nat) :
  all_chars p s = true -> all_chars p (substring n m s) = true.
Proof.
  revert n m; induction s as [|a s IH]; intros n m H; destruct n, m; simpl in *; auto.
  apply andb_true_iff in H as [Ha Hs]. rewrite Ha. simpl. apply IH, Hs.
  apply andb_true_iff in H as [_ Hs]. apply IH, Hs.
  apply andb_true_iff in H as [_ Hs]. apply IH, Hs.
Qed.

Lemma substring_full (s : string) : substring 0 (String.length s) s = s.
Proof. induction s as [|a s IH]; simpl; [reflexivity|]. rewrite IH. reflexivity. Qed.

Lemma substring_split (s : string) (n : nat) :
  n <= String.length s -> substring 0 n s ++ substring n (String.length s - n) s = s.
Proof.
  revert n; induction s as [|a s IH]; intros n Hn; simpl in *.
  - destruct n; reflexivity.
  - destruct n as [|n]; simpl.
    + rewrite substring_full. reflexivity.
    + rewrite IH by lia. reflexivity.
Qed.

Lemma substring_length (s : string) (n m : nat) :
  n + m <= String.length s -> String.length (substring n m s) = m.
Proof.
  revert n m; induction s as [|a s IH]; intros n m H; simpl in *.
  - destruct n, m; simpl; lia.
  - destruct n as [|n], m as [|m]; simpl; try reflexivity; rewrite IH by lia; reflexivity.
Qed.

(** A decimal digit is one of the ten characters. *)
Lemma dec_digit_cases (a : ascii) :
  is_dec_digit a = true -> In a ["0";"1";"2";"3";"4";"5";"6";"7";"8";"9"]%char.
Proof.
  destruct a as [b0 b1 b2 b3 b4 b5 b6 b7].
  destruct b0, b1, b2, b3, b4, b5, b6, b7; vm_compute; intros H;
    first [discriminate H | tauto].
Qed.

Lemma dec_digit_facts (a : ascii) : is_dec_digit a = true ->
  JsString.is_space a = false /\ Ascii.eqb a "-" = false /\ Ascii.eqb a "+" = false /\
  Ascii.eqb a "." = false /\ Ascii.eqb a "e" = false /\ Ascii.eqb a "I" = false.
Proof.
  intros H. apply dec_digit_cases in H.
  repeat destruct H as [<-|H]; [..|contradiction]; vm_compute; repeat split.
Qed.

(** ** The value of a literal *)

(** The exponent part written by [toString]: [e], its sign, its digits. *)
Definition exp_part (ex : option (bool * N)) : string :=
  match ex with
  | None => EmptyString
  | Some (neg, m) => String "e" (String (if neg then "-" else "+") (N_to_string m))
  end.

Definition exp_value (ex : option (bool * N)) : Z :=
  match ex with
  | None => 0%Z
  | Some (neg, m) => if neg then (- Z.of_N m)%Z else Z.of_N m
  end.

Lemma span_exp_part (ex : option (bool * N)) :
  span is_dec_digit (exp_part ex) = (EmptyString, exp_part ex).
Proof. destruct ex as [[[] m]|]; reflexivity. Qed.

Lemma parse_fraction_exp_part (ex : option (bool * N)) :
  parse_fraction (exp_part ex) = (EmptyString, exp_part ex).
Proof. destruct ex as [[[] m]|]; reflexivity. Qed.

Lemma parse_exponent_exp_part (ex : option (bool * N)) :
  parse_exponent (exp_part ex) = exp_value ex.
Proof.
  destruct ex as [[neg m]|]; [|reflexivity].
  pose proof (N_to_string_digits m) as Hd. pose proof (N_to_string_value m) as Hv.
  destruct (N_to_string_shape m) as (d & r & Hs & _).
  unfold parse_exponent, exp_part. rewrite Hs in *.
  remember (String (digit_char d) r) as ds eqn:Eds.
  destruct neg; cbn -[span radix_value Z.mul Z.opp Z.of_N]; rewrite span_all by exact Hd;
    subst ds; rewrite Hv; lia.
Qed.

(** A literal [d int], an optional fraction [.f], an optional exponent part,
    reads as the digits of [d int f] scaled by the exponent minus the
    number of fraction digits. *)
Lemma parse_unsigned_lit (d : ascii) (int : string) (fo : option string)
    (ex : option (bool * N)) :
  is_dec_digit d = true -> all_chars is_dec_digit int = true ->
  all_chars is_dec_digit (fo ?? EmptyString) = true ->
  parse_unsigned (String d int ++
                  match fo with Some f => String "." (f ++ exp_part ex) | None => exp_part ex end)
  = Some (FFin (Num (Z.of_N (radix_value 10 0 (String d int ++ (fo ?? EmptyString))))
                    (exp_value ex - Z.of_nat (String.length (fo ?? EmptyString))))).
Proof.
  intros Hd Hint Hf. destruct (dec_digit_facts d Hd) as (_ & _ & _ & Hdot & _ & HI).
  unfold parse_unsigned.
  replace (String.prefix "Infinity" _) with false
    by (apply dec_digit_cases in Hd; repeat destruct Hd as [<-|Hd]; [..|contradiction];
        reflexivity).
  rewrite span_app_all by (cbn; rewrite Hd; exact Hint).
  destruct fo as [f|]; cbn [with_default] in *.
  - rewrite span_stop by reflexivity. cbn [fst snd parse_fraction].
    rewrite span_app_all, span_exp_part by exact Hf. cbn [fst snd].
    rewrite !JsString.str_app_nil_r, parse_exponent_exp_part. reflexivity.
  - rewrite span_exp_part. cbn [fst snd]. rewrite parse_fraction_exp_part.
    rewrite !JsString.str_app_nil_r, parse_exponent_exp_part. reflexivity.
Qed.

(** The same, for a non-empty run of digits [int]. *)
Lemma parse_unsigned_digits (int : string) (fo : option string) (ex : option (bool * N)) :
  int <> EmptyString -> all_chars is_dec_digit int = true ->
  all_chars is_dec_digit (fo ?? EmptyString) = true ->
  parse_unsigned (int ++
                  match fo with Some f => String "." (f ++ exp_part ex) | None => exp_part ex end)
  = Some (FFin (Num (Z.of_N (radix_value 10 0 (int ++ (fo ?? EmptyString))))
                    (exp_value ex - Z.of_nat (String.length (fo ?? EmptyString))))).
Proof.
  intros Hne Hint Hf. destruct int as [|d int]; [congruence|].
  cbn [all_chars] in Hint. apply andb_true_iff in Hint as [Hd Hint].
  apply parse_unsigned_lit; assumption.
Qed.

(** ** Equality of values is an equivalence *)

Lemma num_eqv_at (x y : num) (k : Z) :
  (k <= exp10 x)%Z -> (k <= exp10 y)%Z ->
  num_eqv x y <-> (mant x * 10 ^ (exp10 x - k) = mant y * 10 ^ (exp10 y - k))%Z.
Proof.
  intros Hx Hy. unfold num_eqv.
  destruct (Z.leb_spec (exp10 x) (exp10 y)).
  - replace (exp10 y - k)%Z with ((exp10 y - exp10 x) + (exp10 x - k))%Z by lia.
    rewrite Z.pow_add_r, Z.mul_assoc by lia.
    split; [intros ->; reflexivity|]. intros H1.
    apply Z.mul_cancel_r in H1; [exact H1|apply Z.pow_nonzero; lia].
  - replace (exp10 x - k)%Z with ((exp10 x - exp10 y) + (exp10 y - k))%Z by lia.
    rewrite Z.pow_add_r, Z.mul_assoc by lia.
    split; [intros <-; reflexivity|]. intros H1.
    apply Z.mul_cancel_r in H1; [exact H1|apply Z.pow_nonzero; lia].
Qed.

#[export] Instance num_eqv_equiv : Equivalence num_eqv.
Proof.
  split.
  - intros x. apply (num_eqv_at x x (exp10 x)); lia.
  - intros x y H. set (k := Z.min (exp10 x) (exp10 y)).
    apply (num_eqv_at x y k) in H; [|lia|lia]. apply (num_eqv_at y x k); [lia|lia|].
    symmetry. exact H.
  - intros x y z H1 H2. set (k := Z.min (exp10 x) (Z.min (exp10 y) (exp10 z))).
    apply (num_eqv_at x y k) in H1; [|lia|lia]. apply (num_eqv_at y z k) in H2; [|lia|lia].
    apply (num_eqv_at x z k); [lia|lia|]. congruence.
Qed.

Lemma num_eqv_opp (x y : num) :
  num_eqv x y -> num_eqv (Num (- mant x) (exp10 x)) (Num (- mant y) (exp10 y)).
Proof. unfold num_eqv. simpl. destruct (exp10 x <=? exp10 y)%Z; lia. Qed.

Lemma strip_zeros_eqv (f : nat) (s : N) (e : Z) : (0 < s)%N ->
  (0 < fst (strip_zeros f s e))%N /\
  num_eqv (Num (Z.of_N (fst (strip_zeros f s e))) (snd (strip_zeros f s e))) (Num (Z.of_N s) e).
Proof.
  revert s e; induction f as [|f IH]; intros s e Hs; simpl; [split; [exact Hs|reflexivity]|].
  destruct (N.eqb_spec (s mod 10) 0) as [H0|H0]; [|split; [exact Hs|reflexivity]].
  pose proof (N.div_mod s 10 ltac:(lia)) as Hdm.
  destruct (IH (s / 10)%N (e + 1)%Z) as [Hp Heq]; [lia|].
  split; [exact Hp|]. etransitivity; [exact Heq|].
  apply (num_eqv_at _ _ e); simpl; [lia|lia|].
  replace (e + 1 - e)%Z with 1%Z by lia. replace (e - e)%Z with 0%Z by lia. lia.
Qed.

(** ** The four layouts of [toString] read back *)

Lemma N_to_string_nonempty (s : N) : N_to_string s <> EmptyString.
Proof. destruct (N_to_string_shape s) as (d & r & -> & _). discriminate. Qed.

Lemma zeros_length (n : nat) : String.length (zeros n) = n.
Proof. induction n as [|n IH]; simpl; [reflexivity|]. rewrite IH. reflexivity. Qed.

Lemma Z_to_string_nonneg (z : Z) : (0 <= z)%Z -> Z_to_string z = N_to_string (Z.to_N z).
Proof. intros H. unfold Z_to_string. destruct (Z.ltb_spec z 0); [lia|reflexivity]. Qed.

Lemma parse_digits_none (int : string) (ex : option (bool * N)) :
  int <> EmptyString -> all_chars is_dec_digit int = true ->
  parse_unsigned (int ++ exp_part ex) =
  Some (FFin (Num (Z.of_N (radix_value 10 0 int)) (exp_value ex))).
Proof.
  intros Hne Hint. pose proof (parse_unsigned_digits int None ex Hne Hint eq_refl) as H.
  cbn [with_default String.length] in H. rewrite JsString.str_app_nil_r, Z.sub_0_r in H.
  exact H.
Qed.

Lemma parse_digits_some (int f : string) (ex : option (bool * N)) :
  int <> EmptyString -> all_chars is_dec_digit int = true -> all_chars is_dec_digit f = true ->
  parse_unsigned (int ++ String "." (f ++ exp_part ex)) =
  Some (FFin (Num (Z.of_N (radix_value 10 0 (int ++ f)))
                  (exp_value ex - Z.of_nat (String.length f)))).
Proof. intros Hne Hint Hf. exact (parse_unsigned_digits int (Some f) ex Hne Hint Hf). Qed.

(** Integer layout: the digits and [n - k] zeros. *)
Lemma parse_int_layout (s : N) (z : nat) :
  parse_unsigned (N_to_string s ++ zeros z) =
  Some (FFin (Num (Z.of_N s * 10 ^ Z.of_nat z) 0)).
Proof.
  rewrite <- (JsString.str_app_nil_r (N_to_string s ++ zeros z)).
  change EmptyString with (exp_part None).
  rewrite parse_digits_none;
    [|destruct (N_to_string s) eqn:E; [destruct (N_to_string_nonempty s E)|discriminate]
     |rewrite all_chars_app, N_to_string_digits, zeros_digits; reflexivity].
  rewrite radix_value_app, N_to_string_value, radix_value_zeros.
  do 3 f_equal. rewrite N2Z.inj_mul, N2Z.inj_pow, nat_N_Z. reflexivity.
Qed.

(** Fixed-point layout: the first [n] digits, a point, the others. *)
Lemma parse_point_layout (s : N) (n : nat) :
  0 < n -> n <= String.length (N_to_string s) ->
  parse_unsigned (substring 0 n (N_to_string s) ++ "." ++
                  substring n (String.length (N_to_string s) - n) (N_to_string s)) =
  Some (FFin (Num (Z.of_N s) (- Z.of_nat (String.length (N_to_string s) - n)))).
Proof.
  intros Hn Hle. set (ds := N_to_string s) in *.
  replace ("." ++ substring n (String.length ds - n) ds)
    with (String "." (substring n (String.length ds - n) ds ++ exp_part None))
    by (simpl; rewrite JsString.str_app_nil_r; reflexivity).
  rewrite parse_digits_some; cbn [exp_value].
  - rewrite substring_split by exact Hle. subst ds. rewrite N_to_string_value.
    rewrite substring_length by lia. do 3 f_equal; lia.
  - intros E. apply (f_equal String.length) in E. rewrite substring_length in E by lia.
    simpl in E. lia.
  - apply all_chars_substring, N_to_string_digits.
  - apply all_chars_substring, N_to_string_digits.
Qed.

(** Small layout: [0.], [-n] zeros, the digits. *)
Lemma parse_small_layout (s : N) (z : nat) :
  parse_unsigned ("0." ++ zeros z ++ N_to_string s) =
  Some (FFin (Num (Z.of_N s) (- Z.of_nat (z + String.length (N_to_string s))))).
Proof.
  replace ("0." ++ zeros z ++ N_to_string s)
    with ("0" ++ String "." ((zeros z ++ N_to_string s) ++ exp_part None))
    by (simpl; rewrite JsString.str_app_nil_r; reflexivity).
  rewrite parse_digits_some; cbn [exp_value];
    [|discriminate|reflexivity|rewrite all_chars_app, zeros_digits, N_to_string_digits; reflexivity].
  rewrite radix_value_app, radix_value_app, radix_value_zeros, N.mul_0_l, N_to_string_value.
  rewrite JsString.str_length_app, zeros_length. do 3 f_equal; lia.
Qed.

(** Exponent layout: one digit, the others after a point, [e] and the
    signed exponent of the first digit. *)
Lemma parse_exp_layout (s : N) (e' : Z) :
  let ex := String "e" (String (if (0 <=? e')%Z then "+" else "-") (Z_to_string (Z.abs e'))) in
  parse_unsigned (match N_to_string s with
                  | String d EmptyString => String d ex
                  | String d rest => String d ("." ++ rest ++ ex)
                  | EmptyString => ex
                  end) =
  Some (FFin (Num (Z.of_N s) (e' - Z.of_nat (String.length (N_to_string s) - 1)))).
Proof.
  intros ex.
  assert (Hex : ex = exp_part (Some (negb (0 <=? e')%Z, Z.to_N (Z.abs e'))) /\
                exp_value (Some (negb (0 <=? e')%Z, Z.to_N (Z.abs e'))) = e').
  { unfold ex, exp_part, exp_value. rewrite Z_to_string_nonneg by lia.
    destruct (Z.leb_spec 0 e'); simpl; split; [reflexivity|lia|reflexivity|lia]. }
  destruct Hex as [-> Hv]. pose proof (N_to_string_value s) as Hval.
  pose proof (N_to_string_digits s) as Hdig.
  destruct (N_to_string s) as [|d [|c r]] eqn:E; [destruct (N_to_string_nonempty s E)| |].
  - change (String d (exp_part ?x)) with (String d EmptyString ++ exp_part x).
    rewrite parse_digits_none; [|discriminate|exact Hdig].
    rewrite Hval, Hv. simpl. do 3 f_equal; lia.
  - change (String d ("." ++ String c r ++ exp_part ?x))
      with (String d EmptyString ++ String "." (String c r ++ exp_part x)).
    rewrite parse_digits_some; [|discriminate| |].
    + change (String d EmptyString ++ String c r) with (String d (String c r)).
      rewrite Hval, Hv. do 3 f_equal; simpl; lia.
    + cbn [all_chars] in Hdig |- *. apply andb_true_iff in Hdig as [Hd _]. rewrite Hd. reflexivity.
    + cbn [all_chars] in Hdig |- *. apply andb_true_iff in Hdig as [_ Hd]. exact Hd.
Qed.

(** ** [parseFloat(x.toString())] gives [x] back *)

Lemma pos_to_string_roundtrip (s : N) (e : Z) :
  exists y, parse_unsigned (pos_to_string s e) = Some (FFin y) /\ num_eqv y (Num (Z.of_N s) e).
Proof.
  unfold pos_to_string. cbv zeta.
  set (len := String.length (N_to_string s)).
  assert (Hlen : 1 <= len)
    by (unfold len; destruct (N_to_string_shape s) as (d & r & -> & _); simpl; lia).
  destruct ((Z.of_nat len <=? Z.of_nat len + e) && (Z.of_nat len + e <=? 21))%Z eqn:CA.
  - apply andb_true_iff in CA as [C1 _]. apply Z.leb_le in C1.
    rewrite parse_int_layout. eexists; split; [reflexivity|].
    apply (num_eqv_at _ _ 0); simpl; [lia|lia|].
    replace (Z.of_nat (Z.to_nat (Z.of_nat len + e - Z.of_nat len))) with e by lia.
    rewrite Z.sub_0_r. simpl. ring.
  - destruct ((0 <? Z.of_nat len + e) && (Z.of_nat len + e <=? 21))%Z eqn:CB.
    + apply andb_true_iff in CB as [C1 C2]. apply Z.ltb_lt in C1. apply Z.leb_le in C2.
      assert (C3 : (Z.of_nat len + e < Z.of_nat len)%Z)
        by (apply andb_false_iff in CA as [CA|CA]; [apply Z.leb_gt in CA|apply Z.leb_gt in CA]; lia).
      replace (Z.to_nat (Z.of_nat len - (Z.of_nat len + e)))
        with (len - Z.to_nat (Z.of_nat len + e)) by lia.
      rewrite parse_point_layout by lia. eexists; split; [reflexivity|].
      replace (- Z.of_nat (String.length (N_to_string s) - Z.to_nat (Z.of_nat len + e)))%Z
        with e by (unfold len in *; lia).
      reflexivity.
    + destruct ((-6 <? Z.of_nat len + e) && (Z.of_nat len + e <=? 0))%Z eqn:CC.
      * apply andb_true_iff in CC as [_ C2]. apply Z.leb_le in C2.
        rewrite parse_small_layout. eexists; split; [reflexivity|].
        replace (- Z.of_nat (Z.to_nat (- (Z.of_nat len + e)) + String.length (N_to_string s)))%Z
          with e by (unfold len in *; lia).
        reflexivity.
      * rewrite parse_exp_layout. eexists; split; [reflexivity|].
        replace (Z.of_nat len + e - 1 - Z.of_nat (String.length (N_to_string s) - 1))%Z
          with e by (unfold len in *; lia).
        reflexivity.
Qed.

(** [toString] of a positive number starts with a decimal digit. *)
Lemma pos_to_string_head (s : N) (e : Z) :
  exists d r, pos_to_string s e = String d r /\ is_dec_digit d = true.
Proof.
  destruct (N_to_string_shape s) as (d0 & r & Hs & Hd0 & _).
  assert (Hd : is_dec_digit (digit_char d0) = true) by apply (digit_char_facts d0 Hd0).
  unfold pos_to_string. cbv zeta. rewrite Hs.
  set (k := Z.of_nat (String.length (String (digit_char d0) r))).
  set (n := (k + e)%Z).
  destruct ((k <=? n) && (n <=? 21))%Z; [eexists _, _; split; [reflexivity|exact Hd]|].
  destruct ((0 <? n) && (n <=? 21))%Z eqn:CB.
  - apply andb_true_iff in CB as [C1 _]. apply Z.ltb_lt in C1.
    destruct (Z.to_nat n) eqn:E; [lia|]. eexists _, _; split; [reflexivity|exact Hd].
  - destruct ((-6 <? n) && (n <=? 0))%Z; [eexists _, _; split; [reflexivity|reflexivity]|].
    destruct r; eexists _, _; split; [reflexivity|exact Hd|reflexivity|exact Hd].
Qed.

Lemma parseFloat_num_toString (x : num) :
  exists y, parseFloat (num_toString x) = Some (FFin y) /\ num_eqv y x.
Proof.
  unfold num_toString. destruct (Z.eqb_spec (mant x) 0) as [H0|H0].
  - exists (Num 0 0). split; [reflexivity|].
    apply (num_eqv_at _ _ (Z.min 0 (exp10 x))); simpl; [lia|lia|]. rewrite H0. lia.
  - set (m := Z.to_N (Z.abs (mant x))).
    assert (Hm : (0 < m)%N) by lia.
    destruct (strip_zeros_eqv (S (N.to_nat (N.log2 m))) m (exp10 x) Hm) as [_ Heq].
    destruct (strip_zeros (S (N.to_nat (N.log2 m))) m (exp10 x)) as [s e]. simpl in Heq.
    destruct (pos_to_string_roundtrip s e) as (y & Hy & Hye).
    destruct (pos_to_string_head s e) as (d & r & Hdr & Hd).
    destruct (dec_digit_facts d Hd) as (Hsp & Hm1 & Hp1 & _).
    destruct (Z.ltb_spec (mant x) 0).
    + exists (Num (-1 * mant y) (exp10 y)). split.
      * unfold parseFloat. simpl. rewrite Hy. reflexivity.
      * etransitivity; [apply (num_eqv_opp _ _ Hye)|].
        etransitivity; [apply (num_eqv_opp _ _ Heq)|].
        destruct x as [mx ex]; simpl in *. unfold m. rewrite Z2N.id by lia.
        replace (- Z.abs mx)%Z with mx by lia. reflexivity.
    + exists (Num (1 * mant y) (exp10 y)). split.
      * unfold parseFloat. rewrite Hdr. simpl. rewrite Hsp. simpl.
        rewrite Hm1, Hp1, <- Hdr, Hy. reflexivity.
      * rewrite Z.mul_1_l. etransitivity; [|etransitivity]; [destruct y; exact Hye|exact Heq|].
        destruct x as [mx ex]; simpl in *. unfold m. rewrite Z2N.id by lia.
        replace (Z.abs mx) with mx by lia. reflexivity.
Qed.

(** Reading back the text of a number gives the same number:
    [parseFloat(x.toString())] is [x], in every layout [toString] uses
    (plain digits, fixed point, leading [0.], exponent). *)
Theorem parseFloat_toString (x : num) :
  exists y, parseFloat (num_toString x) = Some (FFin y) /\ num_eqv y x.
Proof. apply parseFloat_num_toString. Qed.

(** ** [parseInt] of the text of an integer *)

Lemma radix_value_lower (acc : N) (r : string) :
  (acc * 10 ^ N.of_nat (String.length r) <= radix_value 10 acc r)%N.
Proof.
  revert acc; induction r as [|a r IH]; intros acc; cbn [radix_value String.length]; [lia|].
  etransitivity; [|apply IH]. rewrite Nat2N.inj_succ, N.pow_succ_r'. nia.
Qed.

(** A positive number has no more digits than its magnitude allows. *)
Lemma N_to_string_lower (s : N) :
  (0 < s)%N -> (10 ^ N.of_nat (String.length (N_to_string s) - 1) <= s)%N.
Proof.
  intros Hs. destruct (N_to_string_shape s) as (d & r & Hds & Hd & H0).
  rewrite <- (N_to_string_value s) at 2. rewrite Hds. cbn [radix_value String.length].
  rewrite (proj1 (digit_char_facts d Hd)). replace (S (String.length r) - 1) with (String.length r) by lia.
  assert (d <> 0%N) by (intros E; destruct (H0 E); lia).
  etransitivity; [|apply radix_value_lower]. nia.
Qed.

(** [strip_zeros] only moves trailing zeros to the exponent. *)
Lemma strip_zeros_value (f : nat) (s : N) (e : Z) :
  (e <= snd (strip_zeros f s e))%Z /\
  (Z.of_N (fst (strip_zeros f s e)) * 10 ^ (snd (strip_zeros f s e) - e) = Z.of_N s)%Z.
Proof.
  revert s e; induction f as [|f IH]; intros s e; simpl; [rewrite Z.sub_diag; lia|].
  destruct (N.eqb_spec (s mod 10) 0) as [H0|H0]; [|rewrite Z.sub_diag; simpl; lia].
  destruct (IH (s / 10)%N (e + 1)%Z) as [Hle Hv]. split; [lia|].
  pose proof (N.div_mod s 10 ltac:(lia)) as Hdm.
  replace (snd (strip_zeros f (s / 10) (e + 1)) - e)%Z
    with (Z.succ (snd (strip_zeros f (s / 10) (e + 1)) - (e + 1))) by lia.
  rewrite Z.pow_succ_r by lia. rewrite Z.mul_assoc, (Z.mul_comm _ 10), <- Z.mul_assoc, Hv. lia.
Qed.

(** The digits of a positive number followed by zeros read back with
    [parseInt], with or without a minus sign. *)
Lemma parseInt_digits_zeros (s : N) (z : nat) :
  (0 < s)%N ->
  parseInt (N_to_string s ++ zeros z) = Some (Z.of_N (s * 10 ^ N.of_nat z)) /\
  parseInt (String "-" (N_to_string s ++ zeros z)) = Some (- Z.of_N (s * 10 ^ N.of_nat z))%Z.
Proof.
  intros Hs. destruct (N_to_string_shape s) as (d & r & Hds & Hd & H0).
  destruct (digit_char_facts d Hd) as (_ & _ & Hsp & Hm & Hp & Hz).
  assert (Hz0 : Ascii.eqb (digit_char d) "0" = false)
    by (destruct (Ascii.eqb (digit_char d) "0") eqn:E; [destruct (H0 (proj1 Hz eq_refl)); lia|reflexivity]).
  assert (Hne : N_to_string s ++ zeros z = String (digit_char d) (r ++ zeros z))
    by (rewrite Hds; reflexivity).
  assert (Hdig : parse_digits 10 (N_to_string s ++ zeros z) = Some (s * 10 ^ N.of_nat z)%N).
  { unfold parse_digits. rewrite span_all
      by (rewrite all_chars_app; apply andb_true_iff; split; [apply N_to_string_digits|apply zeros_digits]).
    transitivity (Some (radix_value 10 0 (N_to_string s ++ zeros z))); [rewrite Hne; reflexivity|].
    rewrite radix_value_app, N_to_string_value, radix_value_zeros. reflexivity. }
  assert (Hpre : parse_prefix (N_to_string s ++ zeros z) = (10%N, N_to_string s ++ zeros z)).
  { rewrite Hne. unfold parse_prefix. destruct (r ++ zeros z); [reflexivity|]. rewrite Hz0. reflexivity. }
  unfold parseInt. split.
  - replace (JsString.trim_start (N_to_string s ++ zeros z)) with (N_to_string s ++ zeros z)
      by (rewrite Hne; cbn [JsString.trim_start]; rewrite Hsp; reflexivity).
    replace (parse_sign (N_to_string s ++ zeros z)) with (1%Z, N_to_string s ++ zeros z)
      by (rewrite Hne; cbn [parse_sign]; rewrite Hm, Hp; reflexivity).
    rewrite Hpre, Hdig. cbn [option_map]. f_equal; lia.
  - replace (parse_sign (JsString.trim_start (String "-" (N_to_string s ++ zeros z))))
      with ((-1)%Z, N_to_string s ++ zeros z) by reflexivity.
    rewrite Hpre, Hdig. cbn [option_map]. f_equal; lia.
Qed.

(** The text [toString] gives an integer below [10^21] in magnitude has
    the plain-digit layout, and [parseInt] reads it back as the same
    integer.  From [10^21] on, [toString] uses the exponent layout
    ([1e+21]), which [parseInt] stops reading at the [e]. *)
Theorem parseInt_toString (z : Z) :
  (Z.abs z < 10 ^ 21)%Z -> parseInt (num_toString (num_of_Z z)) = Some z.
Proof.
  intros Hz. unfold num_toString, num_of_Z. cbn [mant exp10].
  destruct (Z.eqb_spec z 0) as [->|Hnz]; [reflexivity|].
  set (m := Z.to_N (Z.abs z)). set (f := S (N.to_nat (N.log2 m))).
  assert (Hm : (0 < m)%N) by lia.
  destruct (strip_zeros_eqv f m 0 Hm) as [Hs _]. destruct (strip_zeros_value f m 0) as [He Hv].
  destruct (strip_zeros f m 0) as [s e]. cbn [fst snd] in *. rewrite Z.sub_0_r in Hv.
  pose proof (N_to_string_lower s Hs) as Hlow.
  set (k := String.length (N_to_string s)) in *.
  assert (Hk : 1 <= k) by (unfold k; destruct (N_to_string_shape s) as (? & ? & -> & _); simpl; lia).
  assert (Hbound : (Z.of_nat k + e <= 21)%Z).
  { destruct (Z.le_gt_cases (Z.of_nat k + e) 21) as [H|H]; [exact H|exfalso].
    assert (H1 : (10 ^ 21 <= 10 ^ (Z.of_nat (k - 1)) * 10 ^ e)%Z)
      by (rewrite <- Z.pow_add_r by lia; apply Z.pow_le_mono_r; lia).
    assert (H2 : (10 ^ Z.of_nat (k - 1) <= Z.of_N s)%Z)
      by (apply N2Z.inj_le in Hlow; rewrite N2Z.inj_pow, nat_N_Z in Hlow; exact Hlow).
    assert (H3 : (Z.of_N m = Z.abs z)) by (unfold m; lia).
    pose proof (Z.pow_pos_nonneg 10 e ltac:(lia) ltac:(lia)). nia. }
  unfold pos_to_string. fold k. cbv zeta.
  replace ((Z.of_nat k <=? Z.of_nat k + e) && (Z.of_nat k + e <=? 21))%Z with true
    by (symmetry; apply andb_true_iff; split; apply Z.leb_le; lia).
  replace (Z.to_nat (Z.of_nat k + e - Z.of_nat k)) with (Z.to_nat e) by lia.
  destruct (parseInt_digits_zeros s (Z.to_nat e) Hs) as [Hpos Hneg].
  assert (Hval : Z.of_N (s * 10 ^ N.of_nat (Z.to_nat e)) = Z.abs z).
  { rewrite N2Z.inj_mul, N2Z.inj_pow, nat_N_Z, Z2Nat.id by lia. unfold m in Hv. lia. }
  destruct (Z.ltb_spec z 0); [rewrite Hneg, Hval|rewrite Hpos, Hval]; f_equal; lia.
Qed.

End JsDecimal.
