(* ===== verification/JsValue.v ===== *)
(** * JavaScript values of the responses

    What [axios] hands the pages as [response.data]: the JSON value the
    backend sent, read by property access ([data.content],
    [data.totalPages]), tested for truthiness and combined with [||].
    Property access on [null] or [undefined] throws a [TypeError]; here it
    gives [None], which the callers turn into the [catch] branch of their
    [try]. *)

From Stdlib Require Import String Ascii List Bool ZArith Lia.
From S2P Require Import Prelude JsString JsNumber JsDecimal.
Import ListNotations.
Open Scope string_scope.

Module JsValue.

Import JsNumber.

#[local] Set Warnings "-register-all".

(** JSON values, and [undefined] for a missing property. *)
Inductive jsval : Type :=
| JUndefined
| JNull
| JBool (b : bool)
| JNum (n : num)
| JStr (s : string)
| JArr (items : list jsval)
| JObj (fields : list (string * jsval)).

(** Two JSON values with the same text: same kinds, same numbers as
    written, same strings, same items and same keys in the same order. *)
Fixpoint jsval_eqb (a b : jsval) : bool :=
  match a, b with
  | JUndefined, JUndefined | JNull, JNull => true
  | JBool x, JBool y => Bool.eqb x y
  | JNum x, JNum y => Z.eqb (mant x) (mant y) && Z.eqb (exp10 x) (exp10 y)
  | JStr x, JStr y => String.eqb x y
  | JArr xs, JArr ys =>
      (fix items (xs ys : list jsval) : bool :=
         match xs, ys with
         | [], [] => true
         | x :: xs', y :: ys' => jsval_eqb x y && items xs' ys'
         | _, _ => false
         end) xs ys
  | JObj fs, JObj gs =>
      (fix fields (fs gs : list (string * jsval)) : bool :=
         match fs, gs with
         | [], [] => true
         | (k, x) :: fs', (k', y) :: gs' => String.eqb k k' && jsval_eqb x y && fields fs' gs'
         | _, _ => false
         end) fs gs
  | _, _ => false
  end.

(** [Boolean(v)]: [undefined], [null], [false], [0] and [""] are falsy;
    arrays and objects, even empty ones, are truthy. *)
Definition truthy (v : jsval) : bool :=
  match v with
  | JUndefined | JNull => false
  | JBool b => b
  | JNum n => negb (num_is_zero n)
  | JStr s => JsString.truthy_str s
  | JArr _ | JObj _ => true
  end.

(** [a || b] *)
Definition js_or (a b : jsval) : jsval := if truthy a then a else b.

(** The value of key [k] in the fields of a parsed JSON object; a key that
    occurs twice has the value of its last occurrence, as [JSON.parse]
    gives it. *)
Fixpoint field_lookup (k : string) (fs : list (string * jsval)) : option jsval :=
  match fs with
  | [] => None
  | (k', v) :: fs' =>
      match field_lookup k fs' with
      | Some w => Some w
      | None => if String.eqb k k' then Some v else None
      end
  end.

(** [v[k]] for the property names the pages read ([content], [totalPages],
    [length]): own fields of an object, the [length] of an array or a
    string, [undefined] otherwise; [None] is the [TypeError] of reading a
    property of [null] or [undefined]. *)
Definition get_prop (v : jsval) (k : string) : option jsval :=
  match v with
  | JUndefined | JNull => None
  | JObj fs => Some (field_lookup k fs ?? JUndefined)
  | JArr l => Some (if String.eqb k "length" then JNum (num_of_Z (Z.of_nat (length l))) else JUndefined)
  | JStr s => Some (if String.eqb k "length" then JNum (num_of_Z (Z.of_nat (String.length s))) else JUndefined)
  | JBool _ | JNum _ => Some JUndefined
  end.

(** The text React renders for [{v}] in JSX: a string as it is, a number
    by [toString], nothing for [null], [undefined] and booleans, the
    children of an array in order; an object is not a valid child and
    makes the render throw ([None]). *)
Fixpoint react_text (v : jsval) : option string :=
  match v with
  | JUndefined | JNull | JBool _ => Some EmptyString
  | JNum n => Some (JsDecimal.num_toString n)
  | JStr s => Some s
  | JArr l =>
      fold_right (fun x acc => let* a := react_text x in let* b := acc in Some (a ++ b))
                 (Some EmptyString) l
  | JObj _ => None
  end.

(** [a === b] on the values the pages compare (strings against literals). *)
Definition is_str (v : jsval) (lit : string) : bool :=
  match v with JStr s => String.eqb s lit | _ => false end.

(** A field of the later part of an object's fields hides the earlier. *)
Lemma field_lookup_app (k : string) (l1 l2 : list (string * jsval)) :
  field_lookup k (l1 ++ l2) =
  match field_lookup k l2 with Some w => Some w | None => field_lookup k l1 end.
Proof.
  induction l1 as [|[k' w] l1 IH]; simpl.
  - destruct (field_lookup k l2); reflexivity.
  - rewrite IH. destruct (field_lookup k l2); reflexivity.
Qed.

Lemma js_or_truthy (a b : jsval) : truthy a = true -> js_or a b = a.
Proof. unfold js_or. intros ->. reflexivity. Qed.

Lemma js_or_falsy (a b : jsval) : truthy a = false -> js_or a b = b.
Proof. unfold js_or. intros ->. reflexivity. Qed.

End JsValue.
