(* ===== verification/JsCoerce.v ===== *)
(** * The implicit conversions of JavaScript

    [ToString] (template literals such as [`/course/${course.id}`]) and
    [ToNumber] (the relational comparison [totalPages > 1]) on JSON values,
    as ECMAScript defines them: [StringToNumber] reads a whole trimmed
    string as a decimal literal (with [Infinity]) or a [0x]/[0o]/[0b]
    integer, the empty string is 0, anything else is NaN ([None]); arrays
    convert through [join(',')], objects through ["[object Object]"] (JSON
    objects whose own [toString] or [valueOf] field would shadow the
    prototype's are not modelled). *)

From Stdlib Require Import String Ascii List Bool Arith NArith ZArith Lia.
From S2P Require Import Prelude JsString JsNumber JsDecimal JsValue.
Import ListNotations.
Open Scope string_scope.

Module JsCoerce.

Import JsNumber JsDecimal JsValue.

(** ** ToString *)

Fixpoint to_string (v : jsval) : string :=
  match v with
  | JUndefined => "undefined"
  | JNull => "null"
  | JBool b => if b then "true" else "false"
  | JNum n => num_toString n
  | JStr s => s
  | JArr l =>
      JsString.join ","
        (map (fun x => match x with JUndefined | JNull => EmptyString | _ => to_string x end) l)
  | JObj _ => "[object Object]"
  end.

(** ** ToNumber *)

(** An [ExponentPart] at the start of [t] and what follows it; without
    one, exponent 0 and [t] unread. *)
Definition scan_exponent (t : string) : Z * string :=
  match t with
  | String c r =>
      if Ascii.eqb c "e" || Ascii.eqb c "E" then
        let '(sgn, r1) := parse_sign r in
        match span is_dec_digit r1 with
        | (EmptyString, _) => (0%Z, t)
        | (ds, r2) => ((sgn * Z.of_N (radix_value 10 0 ds))%Z, r2)
        end
      else (0%Z, t)
  | EmptyString => (0%Z, t)
  end.

(** A [StrUnsignedDecimalLiteral] at the start of [t] and what follows. *)
Definition scan_unsigned (t : string) : option (fnum * string) :=
  if String.prefix "Infinity" t then Some (FInf false, substring 8 (String.length t - 8) t)
  else
    let (int, r1) := span is_dec_digit t in
    let (frac, r2) := parse_fraction r1 in
    match int, frac with
    | EmptyString, EmptyString => None
    | _, _ =>
        let (e, r3) := scan_exponent r2 in
        Some (FFin (Num (Z.of_N (radix_value 10 0 (int ++ frac))) (e - Z.of_nat (String.length frac))), r3)
    end.

(** The radix a [NonDecimalIntegerLiteral] prefix selects, if [t] starts
    with one. *)
Definition radix_prefix (t : string) : option (N * string) :=
  match t with
  | String z (String x r) =>
      if Ascii.eqb z "0" then
        if Ascii.eqb x "x" || Ascii.eqb x "X" then Some (16%N, r)
        else if Ascii.eqb x "o" || Ascii.eqb x "O" then Some (8%N, r)
        else if Ascii.eqb x "b" || Ascii.eqb x "B" then Some (2%N, r)
        else None
      else None
  | _ => None
  end.

(** [StringToNumber(s)]: the whole trimmed string must be one literal. *)
Definition str_to_number (s : string) : option fnum :=
  match JsString.trim s with
  | EmptyString => Some (FFin (Num 0 0))
  | t =>
      match radix_prefix t with
      | Some (radix, r) =>
          match span (is_radix_digit radix) r with
          | (EmptyString, _) => None
          | (ds, EmptyString) => Some (FFin (num_of_Z (Z.of_N (radix_value radix 0 ds))))
          | _ => None
          end
      | None =>
          let '(sgn, u) := parse_sign t in
          match scan_unsigned u with
          | Some (v, EmptyString) => Some (negate sgn v)
          | _ => None
          end
      end
  end.

(** [ToNumber(v)] on JSON values and [undefined]. *)
Definition to_number (v : jsval) : option fnum :=
  match v with
  | JUndefined => None
  | JNull => Some (FFin (Num 0 0))
  | JBool b => Some (FFin (num_of_Z (if b then 1 else 0)))
  | JNum n => Some (FFin n)
  | JStr s => str_to_number s
  | JArr _ | JObj _ => str_to_number (to_string v)
  end.

(** The order of two decimals, at their common exponent. *)
Definition num_compare (x y : num) : comparison :=
  let e := Z.min (exp10 x) (exp10 y) in
  Z.compare (mant x * 10 ^ (exp10 x - e)) (mant y * 10 ^ (exp10 y - e)).

(** [v > k] for a number literal [k]: NaN compares false. *)
Definition gt_num (v : jsval) (k : num) : bool :=
  match to_number v with
  | Some (FFin x) => if num_compare x k is Gt then true else false
  | Some (FInf neg) => negb neg
  | None => false
  end.

(** [k <= v] for a number literal [k]. *)
Definition le_num (k : num) (v : jsval) : bool :=
  match to_number v with
  | Some (FFin x) => if num_compare k x is Gt then false else true
  | Some (FInf neg) => negb neg
  | None => false
  end.

(** [v >= k] for a number literal [k]. *)
Definition ge_num (v : jsval) (k : num) : bool :=
  match to_number v with
  | Some (FFin x) => if num_compare x k is Lt then false else true
  | Some (FInf neg) => negb neg
  | None => false
  end.

(** [String.prototype.toLowerCase] on Latin-1: [A]-[Z] and the accented
    capitals (except the multiplication sign) move down by 32. *)
Definition lower_char (a : ascii) : ascii :=
  let n := nat_of_ascii a in
  if (Nat.leb 65 n && Nat.leb n 90) || (Nat.leb 192 n && Nat.leb n 222 && negb (Nat.eqb n 215))
  then ascii_of_nat (n + 32) else a.

Fixpoint to_lower (s : string) : string :=
  match s with
  | EmptyString => EmptyString
  | String a s' => String (lower_char a) (to_lower s')
  end.

(** [v === 0] *)
Definition is_zero (v : jsval) : bool :=
  match v with JNum n => num_is_zero n | _ => false end.

End JsCoerce.
