(* ===== verification/JsDouble.v ===== *)
(** * JavaScript numbers as binary64 values

    [JsNumber] and [JsDecimal] keep a number as the exact decimal it is
    written as.  JavaScript computes with IEEE 754 binary64 values: a
    decimal read from JSON or from a string is rounded to the nearest
    double, and [*] rounds its exact product.  This file gives that
    reading with Rocq's primitive floats, whose operations the kernel
    computes as IEEE 754 does.

    [to_double] is the correctly rounded conversion of a decimal
    [mant * 10^exp10] on the range where one IEEE operation computes it:
    an integer below 2^53 in absolute value is exact, and [mant / 10^k]
    with [|mant| < 2^53] and [k <= 18] is one correctly rounded division
    of two exact doubles ([10^k] is exact for [k <= 22] and below 2^63 for
    [k <= 18]).  Outside that range it is [None]: the model does not
    compute the value. *)

From Stdlib Require Import ZArith List Bool PrimFloat Uint63 Lia.
From S2P Require Import Prelude JsNumber JsDecimal JsValue JsCoerce.
Import ListNotations.

Module JsDouble.

Import JsNumber JsDecimal JsValue.

(** An integer as a double, exact below 2^53 in absolute value. *)
Definition of_Z (z : Z) : float :=
  let f := PrimFloat.of_uint63 (Uint63.of_Z (Z.abs z)) in
  if (z <? 0)%Z then PrimFloat.opp f else f.

Definition to_double (x : num) : option float :=
  if (Z.abs (mant x) <? 2 ^ 53)%Z then
    if (0 <=? exp10 x)%Z then
      let n := (mant x * 10 ^ exp10 x)%Z in
      if (Z.abs n <? 2 ^ 53)%Z then Some (of_Z n) else None
    else if (-18 <=? exp10 x)%Z then
      Some (PrimFloat.div (of_Z (mant x)) (of_Z (10 ^ (- exp10 x))))
    else None
  else None.

(** [ToNumber] of a value as a double: [NaN] when [ToNumber] fails. *)
Definition number_of (v : jsval) : option float :=
  match JsCoerce.to_number v with
  | Some (FFin x) => to_double x
  | Some (FInf neg) => Some (if neg then PrimFloat.neg_infinity else PrimFloat.infinity)
  | None => Some PrimFloat.nan
  end.

(** [v * 100]: the product rounded to binary64. *)
Definition times_100 (v : jsval) : option float :=
  option_map (fun d => PrimFloat.mul d (of_Z 100)) (number_of v).

(** [x === y] on doubles ([+0] equals [-0], [NaN] equals nothing). *)
Definition strict_eq (x y : float) : bool := PrimFloat.eqb x y.

(** ** Whole and fractional amounts *)

(** [v * 100 === p] for the double [p] of an integer. *)
Definition times_100_is (v : jsval) (p : Z) : bool :=
  match times_100 v with Some a => strict_eq a (of_Z p) | None => false end.

(** [times_100_is] holds for the [n] integers from [k]. *)
Fixpoint check_from (k : Z) (n : nat) : bool :=
  match n with
  | O => true
  | S n' => times_100_is (JNum (num_of_Z k)) (100 * k) && check_from (k + 1) n'
  end.

Lemma check_from_spec (n : nat) (k j : Z) :
  check_from k n = true -> (k <= j < k + Z.of_nat n)%Z ->
  times_100_is (JNum (num_of_Z j)) (100 * j) = true.
Proof.
  revert k; induction n as [|n IH]; intros k H Hj; simpl in *; [lia|].
  apply andb_true_iff in H as [Hk H].
  destruct (Z.eq_dec j k) as [->|Hne]; [exact Hk|]. apply (IH (k + 1)%Z H). lia.
Qed.

(** A whole number of rupees up to one lakh times 100 is exact. *)
Lemma times_100_whole (n : Z) :
  (0 <= n <= 100000)%Z -> times_100_is (JNum (num_of_Z n)) (100 * n) = true.
Proof.
  intros Hn. assert (E : Z.of_nat 100001 = 100001%Z) by (vm_compute; reflexivity).
  apply (check_from_spec 100001 0); [vm_compute; reflexivity|]. rewrite E. lia.
Qed.

End JsDouble.
