(* ===== verification/Query.v ===== *)
(** * The catalog's query descriptor ([src/src/pages/Courses.jsx])

    The [filters] state of the course catalog ([search], [category],
    [difficulty], [page], [limit]), the two handlers that replace it
    ([handleFilterChange], [handlePageChange]), and the query string
    [fetchCourses] builds from it: the truthy entries, in the key order of
    the object, appended to a [URLSearchParams] and serialized in the
    [application/x-www-form-urlencoded] format.  A reference decoder of that
    format (the WHATWG [URLSearchParams] parser, as the backend applies it)
    shows that the serialization loses nothing. *)

From Stdlib Require Import String Ascii List Bool NArith ZArith Lia.
From S2P Require Import Prelude JsString JsNumber.
Import ListNotations.
Open Scope string_scope.

Module Query.

Import JsNumber.

(** ** The descriptor and its handlers *)

(** [const [filters, setFilters] = useState({search, category, difficulty,
    page, limit})]: the three filters are the strings of their inputs, the
    page and the page size are numbers. *)
Record filters := Filters {
  search : string;
  category : string;
  difficulty : string;
  page : Z;
  limit : Z
}.

Definition initial_filters : filters :=
  {| search := ""; category := ""; difficulty := ""; page := 1; limit := 12 |}.

(** The fields [handleFilterChange] is called with: the search box, the
    category select and the difficulty select. *)
Inductive filter_field := FSearch | FCategory | FDifficulty.

(** [setFilters(prev => ({...prev, [field]: value, page: 1}))] *)
Definition handleFilterChange (field : filter_field) (value : string) (prev : filters) : filters :=
  match field with
  | FSearch =>
      {| search := value; category := category prev; difficulty := difficulty prev;
         page := 1; limit := limit prev |}
  | FCategory =>
      {| search := search prev; category := value; difficulty := difficulty prev;
         page := 1; limit := limit prev |}
  | FDifficulty =>
      {| search := search prev; category := category prev; difficulty := value;
         page := 1; limit := limit prev |}
  end.

(** [setFilters(prev => ({...prev, page: value}))] *)
Definition handlePageChange (value : Z) (prev : filters) : filters :=
  {| search := search prev; category := category prev; difficulty := difficulty prev;
     page := value; limit := limit prev |}.

(** The value of one filter field. *)
Definition field_value (field : filter_field) (f : filters) : string :=
  match field with
  | FSearch => search f
  | FCategory => category f
  | FDifficulty => difficulty f
  end.

(** ** The query parameters *)

(** [if (filters[key]) params.append(key, filters[key])] for a string
    value and for a number value (appended as [String(value)]). *)
Definition append_str (key value : string) (ps : list (string * string)) : list (string * string) :=
  if JsString.truthy_str value then ps ++ [(key, value)] else ps.

Definition append_num (key : string) (value : Z) (ps : list (string * string)) : list (string * string) :=
  if negb (Z.eqb value 0) then ps ++ [(key, Z_to_string value)] else ps.

(** [Object.keys(filters).forEach(...)]: the keys in the order the object
    literal and every spread of it keep. *)
Definition build_params (f : filters) : list (string * string) :=
  append_num "limit" (limit f)
    (append_num "page" (page f)
      (append_str "difficulty" (difficulty f)
        (append_str "category" (category f)
          (append_str "search" (search f) [])))).

(** ** Serialization: [params.toString()]

    A character is a code point of the Latin-1 range; it is encoded as its
    UTF-8 bytes (one byte below U+0080, two above), and each byte as itself
    when it is one of [*-._0-9A-Za-z], as [+] when it is a space, and as
    [%XY] in upper-case hexadecimal otherwise. *)

Definition hex_digit (n : N) : ascii :=
  if (n <? 10)%N then ascii_of_N (48 + n) else ascii_of_N (55 + n).

Definition is_unreserved (b : N) : bool :=
  (b =? 42)%N || (b =? 45)%N || (b =? 46)%N || ((48 <=? b)%N && (b <=? 57)%N)
  || ((65 <=? b)%N && (b <=? 90)%N) || (b =? 95)%N || ((97 <=? b)%N && (b <=? 122)%N).

Definition encode_byte (b : N) : string :=
  if (b =? 32)%N then "+"
  else if is_unreserved b then String (ascii_of_N b) EmptyString
  else String "%" (String (hex_digit (b / 16)) (String (hex_digit (b mod 16)) EmptyString)).

Definition utf8_bytes (a : ascii) : list N :=
  let c := N_of_ascii a in
  if (c <? 128)%N then [c] else [(192 + c / 64)%N; (128 + c mod 64)%N].

Fixpoint encode_bytes (bs : list N) : string :=
  match bs with
  | [] => EmptyString
  | b :: bs' => encode_byte b ++ encode_bytes bs'
  end.

Fixpoint form_encode (s : string) : string :=
  match s with
  | EmptyString => EmptyString
  | String a s' => encode_bytes (utf8_bytes a) ++ form_encode s'
  end.

(** [name=value] pairs joined by [&]. *)
Definition serialize (ps : list (string * string)) : string :=
  JsString.join "&" (map (fun '(k, v) => form_encode k ++ "=" ++ form_encode v) ps).

(** [api.get(`/api/courses?${params.toString()}`)] *)
Definition courses_url (f : filters) : string :=
  "/api/courses?" ++ serialize (build_params f).

(** ** The reference decoder *)

Definition hex_value (a : ascii) : option N :=
  let n := N_of_ascii a in
  if (48 <=? n)%N && (n <=? 57)%N then Some (n - 48)%N
  else if (65 <=? n)%N && (n <=? 70)%N then Some (n - 55)%N
  else if (97 <=? n)%N && (n <=? 102)%N then Some (n - 87)%N
  else None.

(** [+] is a space and [%XY] a byte; a [%] not followed by two hexadecimal
    digits stands for itself. *)
Fixpoint percent_decode (s : string) : list N :=
  match s with
  | EmptyString => []
  | String a s' =>
      if Ascii.eqb a "%" then
        match s' with
        | String h1 (String h2 r) =>
            match hex_value h1, hex_value h2 with
            | Some x, Some y => (16 * x + y)%N :: percent_decode r
            | _, _ => 37%N :: percent_decode s'
            end
        | _ => 37%N :: percent_decode s'
        end
      else if Ascii.eqb a "+" then 32%N :: percent_decode s'
      else N_of_ascii a :: percent_decode s'
  end.

(** UTF-8 of the Latin-1 range; any other byte sequence is refused. *)
Fixpoint utf8_decode (bs : list N) : option string :=
  match bs with
  | [] => Some EmptyString
  | b :: bs' =>
      if (b <? 128)%N then option_map (String (ascii_of_N b)) (utf8_decode bs')
      else match bs' with
           | b2 :: bs'' =>
               if ((b =? 194)%N || (b =? 195)%N) && (128 <=? b2)%N && (b2 <? 192)%N
               then option_map (String (ascii_of_N ((b - 192) * 64 + (b2 - 128))))
                      (utf8_decode bs'')
               else None
           | [] => None
           end
  end.

Definition form_decode (s : string) : option string := utf8_decode (percent_decode s).

(** The text before the first [=], and the text after it. *)
Fixpoint split_first (c : ascii) (s : string) : string * string :=
  match s with
  | EmptyString => (EmptyString, EmptyString)
  | String a s' =>
      if Ascii.eqb a c then (EmptyString, s')
      else let (l, r) := split_first c s' in (String a l, r)
  end.

Definition parse_pair (seq : string) : option (string * string) :=
  let (name, value) := split_first "=" seq in
  match form_decode name, form_decode value with
  | Some k, Some v => Some (k, v)
  | _, _ => None
  end.

Fixpoint parse_pairs (seqs : list string) : option (list (string * string)) :=
  match seqs with
  | [] => Some []
  | q :: qs =>
      match parse_pair q, parse_pairs qs with
      | Some p, Some ps => Some (p :: ps)
      | _, _ => None
      end
  end.

(** [new URLSearchParams(q)]: the [&]-separated sequences, empty ones
    skipped. *)
Definition parse_query (q : string) : option (list (string * string)) :=
  parse_pairs (JsString.filter_truthy (JsString.split "&" q)).

(** ** Lemmas of the serialization *)

Lemma hex_digit_facts (d : N) : (d < 16)%N ->
  hex_value (hex_digit d) = Some d /\
  Ascii.eqb (hex_digit d) "&" = false /\ Ascii.eqb (hex_digit d) "=" = false.
Proof.
  intros H.
  assert (d = 0 \/ d = 1 \/ d = 2 \/ d = 3 \/ d = 4 \/ d = 5 \/ d = 6 \/ d = 7 \/ d = 8 \/
          d = 9 \/ d = 10 \/ d = 11 \/ d = 12 \/ d = 13 \/ d = 14 \/ d = 15)%N as Hd by lia.
  repeat destruct Hd as [->|Hd]; subst; vm_compute; auto.
Qed.

(** A byte the serializer writes as itself is none of the characters that
    carry structure: space, [%], [&], [+], [=]. *)
Lemma unreserved_not_special (b : N) : is_unreserved b = true ->
  b <> 32%N /\ b <> 37%N /\ b <> 38%N /\ b <> 43%N /\ b <> 61%N.
Proof.
  unfold is_unreserved. intros H.
  repeat (apply orb_true_iff in H as [H|H]);
    repeat match goal with
    | H : _ && _ = true |- _ => apply andb_true_iff in H as [? ?]
    | H : (_ <=? _)%N = true |- _ => apply N.leb_le in H
    | H : (_ =? _)%N = true |- _ => apply N.eqb_eq in H
    end; lia.
Qed.

Lemma encode_byte_decode (b : N) (rest : string) : (b < 256)%N ->
  percent_decode (encode_byte b ++ rest) = b :: percent_decode rest.
Proof.
  intros Hb. unfold encode_byte.
  destruct (N.eqb_spec b 32) as [->|H32]; [reflexivity|].
  destruct (is_unreserved b) eqn:U.
  - destruct (unreserved_not_special b U) as (_ & H37 & _ & H43 & _). simpl.
    rewrite !JsString.ascii_of_N_eqb by exact Hb. simpl.
    rewrite (proj2 (N.eqb_neq b 37) H37), (proj2 (N.eqb_neq b 43) H43).
    rewrite N_ascii_embedding by exact Hb. reflexivity.
  - destruct (hex_digit_facts (b / 16)) as (H1 & _); [apply N.Div0.div_lt_upper_bound; lia|].
    destruct (hex_digit_facts (b mod 16)) as (H2 & _); [apply N.mod_lt; lia|].
    cbn -[N.mul N.add]. rewrite H1, H2. f_equal. pose proof (N.div_mod b 16 ltac:(lia)). lia.
Qed.

Lemma encode_byte_no_special (c : ascii) (b : N) : (b < 256)%N ->
  (c = "&"%char \/ c = "="%char) -> JsString.has_char c (encode_byte b) = false.
Proof.
  intros Hb Hc. unfold encode_byte.
  destruct (N.eqb_spec b 32) as [->|H32]; [destruct Hc as [->| ->]; reflexivity|].
  destruct (is_unreserved b) eqn:U.
  - destruct (unreserved_not_special b U) as (_ & _ & H38 & _ & H61). simpl.
    rewrite JsString.ascii_of_N_eqb by exact Hb.
    destruct Hc as [->| ->]; simpl; rewrite orb_false_r; apply N.eqb_neq; assumption.
  - destruct (hex_digit_facts (b / 16)) as (_ & A1 & E1); [apply N.Div0.div_lt_upper_bound; lia|].
    destruct (hex_digit_facts (b mod 16)) as (_ & A2 & E2); [apply N.mod_lt; lia|].
    destruct Hc as [->| ->]; simpl; rewrite ?A1, ?A2, ?E1, ?E2; reflexivity.
Qed.

Lemma utf8_bytes_bound (a : ascii) : Forall (fun b => (b < 256)%N) (utf8_bytes a).
Proof.
  unfold utf8_bytes. pose proof (N_ascii_bounded a).
  destruct (N.ltb_spec (N_of_ascii a) 128); repeat constructor.
  - lia.
  - pose proof (N.Div0.div_lt_upper_bound (N_of_ascii a) 64 4 ltac:(lia)). lia.
  - pose proof (N.mod_lt (N_of_ascii a) 64 ltac:(lia)). lia.
Qed.

Fixpoint utf8_of (s : string) : list N :=
  match s with
  | EmptyString => []
  | String a s' => (utf8_bytes a ++ utf8_of s')%list
  end.

Lemma encode_bytes_decode (bs : list N) (rest : string) :
  Forall (fun b => (b < 256)%N) bs ->
  percent_decode (encode_bytes bs ++ rest) = (bs ++ percent_decode rest)%list.
Proof.
  induction 1 as [|b bs Hb _ IH]; simpl; [reflexivity|].
  rewrite <- JsString.str_app_assoc, encode_byte_decode, IH by exact Hb. reflexivity.
Qed.

Lemma form_encode_decode (s rest : string) :
  percent_decode (form_encode s ++ rest) = (utf8_of s ++ percent_decode rest)%list.
Proof.
  induction s as [|a s IH]; simpl; [reflexivity|].
  rewrite <- JsString.str_app_assoc, encode_bytes_decode by apply utf8_bytes_bound.
  rewrite IH, app_assoc. reflexivity.
Qed.

Lemma utf8_decode_of (s : string) : utf8_decode (utf8_of s) = Some s.
Proof.
  induction s as [|a s IH]; [reflexivity|]. cbn [utf8_of]. unfold utf8_bytes.
  enough (H : utf8_decode ((if (N_of_ascii a <? 128)%N then [N_of_ascii a]
            else [(192 + N_of_ascii a / 64)%N; (128 + N_of_ascii a mod 64)%N]) ++ utf8_of s)
            = Some (String (ascii_of_N (N_of_ascii a)) s))
    by (rewrite ascii_N_embedding in H; exact H).
  pose proof (N_ascii_bounded a) as Ha.
  pose proof (N.div_mod (N_of_ascii a) 64 ltac:(lia)) as Hdm.
  pose proof (N.mod_lt (N_of_ascii a) 64 ltac:(lia)) as Hm.
  generalize dependent (N_of_ascii a). intros c Ha Hdm Hm.
  generalize dependent (c / 64)%N. generalize dependent (c mod 64)%N. intros r Hm q Hdm.
  destruct (N.ltb_spec c 128); cbn [app utf8_decode].
  - destruct (N.ltb_spec c 128); [|lia]. rewrite IH. reflexivity.
  - destruct (N.ltb_spec (192 + q) 128); [lia|].
    replace (((192 + q =? 194)%N || (192 + q =? 195)%N) && (128 <=? 128 + r)%N
             && (128 + r <? 192)%N) with true.
    + rewrite IH. cbn [option_map]. do 3 f_equal. lia.
    + symmetry. repeat rewrite andb_true_iff. rewrite orb_true_iff, !N.eqb_eq, N.leb_le, N.ltb_lt.
      lia.
Qed.

Lemma form_decode_encode (s : string) : form_decode (form_encode s) = Some s.
Proof.
  unfold form_decode. rewrite <- (JsString.str_app_nil_r (form_encode s)).
  rewrite form_encode_decode, app_nil_r. apply utf8_decode_of.
Qed.

Lemma form_encode_no_special (c : ascii) (s : string) :
  (c = "&"%char \/ c = "="%char) -> JsString.has_char c (form_encode s) = false.
Proof.
  intros Hc. induction s as [|a s IH]; simpl; [reflexivity|].
  rewrite JsString.has_char_app, IH, orb_false_r.
  induction (utf8_bytes_bound a) as [|b bs Hb _ IHb]; simpl; [reflexivity|].
  rewrite JsString.has_char_app, IHb, encode_byte_no_special by assumption. reflexivity.
Qed.

Lemma split_first_app (c : ascii) (l r : string) :
  JsString.has_char c l = false -> split_first c (l ++ String c r) = (l, r).
Proof.
  induction l as [|a l IH]; simpl; intros H.
  - rewrite Ascii.eqb_refl. reflexivity.
  - apply orb_false_iff in H as [Ha Hl]. rewrite Ha, IH by exact Hl. reflexivity.
Qed.

Lemma parse_pairs_encoded (ps : list (string * string)) :
  parse_pairs (map (fun '(k, v) => form_encode k ++ "=" ++ form_encode v) ps) = Some ps.
Proof.
  induction ps as [|[k v] ps IH]; [reflexivity|]. cbn [map parse_pairs].
  unfold parse_pair.
  change (form_encode k ++ "=" ++ form_encode v) with (form_encode k ++ String "=" (form_encode v)).
  rewrite split_first_app by (apply form_encode_no_special; auto).
  rewrite !form_decode_encode, IH. reflexivity.
Qed.

(** The key of a filter field in the query. *)
Definition field_key (field : filter_field) : string :=
  match field with FSearch => "search" | FCategory => "category" | FDifficulty => "difficulty" end.

Lemma In_append_str (k k' v v' : string) ps :
  In (k', v') (append_str k v ps) <-> In (k', v') ps \/ (k' = k /\ v' = v /\ v <> EmptyString).
Proof.
  unfold append_str. destruct v as [|a v]; simpl.
  - intuition congruence.
  - rewrite in_app_iff. simpl. intuition congruence.
Qed.

Lemma In_append_num (k k' v' : string) (z : Z) ps :
  In (k', v') (append_num k z ps) <-> In (k', v') ps \/ (k' = k /\ v' = Z_to_string z /\ z <> 0%Z).
Proof.
  unfold append_num. destruct (Z.eqb_spec z 0); simpl.
  - intuition congruence.
  - rewrite in_app_iff. simpl. intuition congruence.
Qed.

(** ** Properties of the descriptor *)

(** C6. A filter edit sets the edited field to the new value, resets the
    page to 1, and leaves the other filters and the page size unchanged. *)
Theorem handleFilterChange_resets_page (field : filter_field) (value : string) (f : filters) :
  let f' := handleFilterChange field value f in
  page f' = 1%Z /\ field_value field f' = value /\ limit f' = limit f /\
  (forall other, other <> field -> field_value other f' = field_value other f).
Proof.
  destruct field; simpl; (split; [reflexivity|]); (split; [reflexivity|]); (split; [reflexivity|]);
    intros [] Hne; (reflexivity || congruence).
Qed.

(** C7. A page change sets the page and leaves every filter and the page
    size unchanged. *)
Theorem handlePageChange_keeps_filters (value : Z) (f : filters) :
  let f' := handlePageChange value f in
  page f' = value /\ limit f' = limit f /\
  (forall field, field_value field f' = field_value field f).
Proof. simpl. split; [reflexivity|]. split; [reflexivity|]. intros []; reflexivity. Qed.

(** C32. The query carries a filter exactly when its value is not the empty
    string, and then with that value; it carries the page and the page size
    exactly when they are not 0, written in decimal. *)
Theorem build_params_truthy (f : filters) :
  (forall field v, In (field_key field, v) (build_params f) <->
                   v = field_value field f /\ field_value field f <> EmptyString) /\
  (forall v, In ("page", v) (build_params f) <-> v = Z_to_string (page f) /\ page f <> 0%Z) /\
  (forall v, In ("limit", v) (build_params f) <-> v = Z_to_string (limit f) /\ limit f <> 0%Z).
Proof.
  unfold build_params.
  split; [|split]; [intros field v|intros v|intros v];
    rewrite ?In_append_num, ?In_append_str; simpl;
    try (destruct field; simpl); intuition (try congruence).
Qed.

(** [URLSearchParams] of a query string serialized from [ps] gives [ps]
    back, whatever characters the values contain. *)
Lemma parse_query_serialize (ps : list (string * string)) :
  parse_query (serialize ps) = Some ps.
Proof.
  unfold parse_query, serialize. destruct ps as [|p ps]; [reflexivity|].
  set (enc := fun '(k, v) => form_encode k ++ "=" ++ form_encode v).
  rewrite JsString.split_join; [| discriminate |].
  - unfold JsString.filter_truthy. rewrite filter_all_true; [apply parse_pairs_encoded|].
    apply Forall_forall. intros x Hx. apply in_map_iff in Hx as [[k v] [<- _]].
    apply JsString.truthy_app_cons.
  - apply Forall_forall. intros x Hx. apply in_map_iff in Hx as [[k v] [<- _]].
    cbn. rewrite JsString.has_char_app. cbn.
    rewrite !form_encode_no_special by auto. reflexivity.
Qed.

(** The first value of [key] in the parsed pairs. *)
Definition pairs_get (key : string) (ps : list (string * string)) : option string :=
  option_map snd (find (fun p => String.eqb (fst p) key) ps).

(** [new URLSearchParams(q).get(key)]: what the backend reads. *)
Definition query_get (key : string) (q : string) : option string :=
  match parse_query q with Some ps => pairs_get key ps | None => None end.

Lemma build_params_get (f : filters) :
  (forall field, pairs_get (field_key field) (build_params f) =
     if JsString.truthy_str (field_value field f) then Some (field_value field f) else None) /\
  pairs_get "page" (build_params f) = (if (page f =? 0)%Z then None else Some (Z_to_string (page f))) /\
  pairs_get "limit" (build_params f) = (if (limit f =? 0)%Z then None else Some (Z_to_string (limit f))).
Proof.
  unfold build_params, append_str, append_num.
  destruct (JsString.truthy_str (search f)) eqn:E1, (JsString.truthy_str (category f)) eqn:E2,
    (JsString.truthy_str (difficulty f)) eqn:E3, (page f =? 0)%Z, (limit f =? 0)%Z;
    (split; [intros []; simpl; rewrite ?E1, ?E2, ?E3; reflexivity|split; reflexivity]).
Qed.

(** C33. The URL the catalog requests carries the descriptor to the
    backend: its query string, parsed by [URLSearchParams], is exactly the
    list [build_params] appended, and the backend's [get] of each filter
    is the filter's text, whatever characters it contains, when it is not
    empty and absent otherwise; the page and the page size are their
    decimal text when they are not 0. *)
Theorem courses_url_carries_filters (f : filters) :
  exists q, courses_url f = "/api/courses?" ++ q /\
    parse_query q = Some (build_params f) /\
    (forall field, query_get (field_key field) q =
       if JsString.truthy_str (field_value field f) then Some (field_value field f) else None) /\
    query_get "page" q = (if (page f =? 0)%Z then None else Some (Z_to_string (page f))) /\
    query_get "limit" q = (if (limit f =? 0)%Z then None else Some (Z_to_string (limit f))).
Proof.
  exists (serialize (build_params f)). unfold query_get. rewrite parse_query_serialize.
  destruct (build_params_get f) as (H1 & H2 & H3).
  split; [reflexivity|]. split; [reflexivity|]. split; [exact H1|]. split; [exact H2|exact H3].
Qed.

End Query.
