(* ===== verification/Fetcher.v ===== *)
(** * Responses and their normalization ([src/src/pages/Courses.jsx],
      [src/src/pages/AdminCourses.jsx])

    What [api.get] resolves or rejects with, and how the two list pages read
    the resolved [response.data]: the catalog accepts a bare array or an
    envelope [{content, totalPages}] ([response.data.content ||
    response.data], [response.data.totalPages || 1]); the admin table takes
    [response.data] as it is. *)

From Stdlib Require Import String Ascii List Bool ZArith Lia.
From S2P Require Import Prelude JsString JsNumber JsValue.
Import ListNotations.
Open Scope string_scope.

Module Fetcher.

Import JsNumber JsValue.

(** Why a request is rejected: no response, or a status outside 2xx. *)
Inductive http_error := Network | ServerStatus (status : Z).

(** The settled promise of [api.get(url)]: [response.data], or the error
    the [catch] receives. *)
Inductive http_response :=
| HttpOk (data : jsval)
| HttpFail (err : http_error).

(** The page count a missing or falsy [totalPages] falls back to. *)
Definition one : jsval := JNum (num_of_Z 1).

(** The two values the catalog's [try] block computes from [response.data]:
    the items ([response.data.content || response.data]) and the page count
    ([response.data.totalPages || 1]); [None] when reading [content] throws
    because [response.data] is [null]. *)
Definition normalize (data : jsval) : option (jsval * jsval) :=
  match get_prop data "content" with
  | None => None
  | Some content =>
      match get_prop data "totalPages" with
      | None => None
      | Some tp => Some (js_or content data, js_or tp one)
      end
  end.

(** ** Two requests awaited together

    [await Promise.all([a, b])] in the pages that load two resources at
    once: each request is pending, answered with [response.data], or
    failed. *)
Inductive pstatus := Pending | Fulfilled (data : jsval) | Rejected.

Definition outcome (r : http_response) : pstatus :=
  match r with HttpOk d => Fulfilled d | HttpFail _ => Rejected end.

(** How [Promise.all] settles on the two statuses: fulfilled with both
    answers, rejected as soon as one fails, or not yet. *)
Definition all2 (p1 p2 : pstatus) : option (option (jsval * jsval)) :=
  match p1, p2 with
  | Fulfilled a, Fulfilled b => Some (Some (a, b))
  | Rejected, _ | _, Rejected => Some None
  | _, _ => None
  end.

(** ** Properties *)

(** C8. Both shapes of the list endpoints are accepted: a bare array is the
    item list with one page; an envelope whose [content] is truthy gives
    that [content], and as page count one page when [totalPages] is
    missing, its [totalPages] when that is a non-zero number, and one page
    when it is zero; a [null] body is an error. *)
Theorem normalize_shapes (items : list jsval) (fs : list (string * jsval)) (content : jsval) :
  normalize (JArr items) = Some (JArr items, one) /\
  (field_lookup "content" fs = Some content -> truthy content = true ->
   (field_lookup "totalPages" fs = None -> normalize (JObj fs) = Some (content, one)) /\
   (forall tp, field_lookup "totalPages" fs = Some (JNum tp) ->
      normalize (JObj fs) = Some (content, if num_is_zero tp then one else JNum tp))) /\
  normalize JNull = None.
Proof.
  split; [reflexivity|]. split; [|reflexivity].
  intros Hc Ht. unfold normalize. cbn [get_prop]. rewrite Hc. cbn [with_default].
  rewrite js_or_truthy by exact Ht.
  split; [intros ->; reflexivity|]. intros tp ->. unfold js_or. simpl.
  destruct (num_is_zero tp); reflexivity.
Qed.

Definition paged_envelope : list (string * jsval) :=
  [("content", JArr [JStr "Java 101"]); ("totalPages", JNum (num_of_Z 3))].

Lemma normalize_shapes_witness :
  normalize (JObj paged_envelope) = Some (JArr [JStr "Java 101"], JNum (num_of_Z 3)) /\
  normalize (JObj [("content", JArr [])]) = Some (JArr [], one).
Proof.
  split.
  - apply (proj2 (proj1 (proj2 (normalize_shapes [] paged_envelope (JArr [JStr "Java 101"])))
                   eq_refl eq_refl) (num_of_Z 3) eq_refl).
  - apply (proj1 (proj1 (proj2 (normalize_shapes [] [("content", JArr [])] (JArr []))) eq_refl eq_refl)
                   eq_refl).
Defined.

End Fetcher.
