(* ===== verification/SyncSpec.v ===== *)
(** * The synchronization contract of the specification (§4.1)

    The abstract controller of a filtered, paginated collection: it owns the
    query descriptor and the latest result, numbers its fetches, and applies
    a result only when it answers the latest fetch issued; until that answer
    arrives it is [loading].  A failed fetch sets the error message and keeps
    the items.  This is the contract the catalog page is compared with in
    [Catalog]; it models the specification, not a source file. *)

From Stdlib Require Import String List Bool ZArith Lia.
From S2P Require Import Prelude JsValue Query Fetcher.
Import ListNotations.
Open Scope string_scope.

Module SyncSpec.

Import JsValue Query Fetcher.

(** What the controller exposes, and the number of the fetch it waits for. *)
Record view := View {
  v_filters : Query.filters;
  v_items : jsval;
  v_pages : jsval;
  v_error : string;
  v_loading : bool;
  v_pending : option nat;
  v_issued : nat
}.

Section Contract.

(** The user-facing message of a failed fetch. *)
Variable failure_message : string.

(** A new fetch for descriptor [f]: it gets the next number and becomes the
    one the controller waits for. *)
Definition issue (f : Query.filters) (v : view) : view :=
  {| v_filters := f; v_items := v_items v; v_pages := v_pages v; v_error := v_error v;
     v_loading := true; v_pending := Some (v_issued v); v_issued := S (v_issued v) |}.

(** The result of the awaited fetch. *)
Definition apply_result (r : http_response) (v : view) : view :=
  let done_ items pages err :=
    {| v_filters := v_filters v; v_items := items; v_pages := pages; v_error := err;
       v_loading := false; v_pending := None; v_issued := v_issued v |} in
  match r with
  | HttpOk data =>
      match normalize data with
      | Some (items, pages) => done_ items pages ""
      | None => done_ (v_items v) (v_pages v) failure_message
      end
  | HttpFail _ => done_ (v_items v) (v_pages v) failure_message
  end.

(** What the contract is told: a filter edit, a page change, a refresh,
    or the result [r] of fetch number [seq]. *)
Inductive act :=
| ASetFilter (field : filter_field) (value : string)
| ASetPage (p : Z)
| ARefresh
| ADeliver (seq : nat) (r : http_response).

(** The transitions of the contract: [setFilter], [setPage], [refresh], and
    the arrival of the result of fetch [seq], applied only when it is the
    awaited one and dropped otherwise. *)
Inductive sstep : view -> act -> view -> Prop :=
| SSetFilter (field : filter_field) (value : string) (v : view) :
    sstep v (ASetFilter field value) (issue (handleFilterChange field value (v_filters v)) v)
| SSetPage (p : Z) (v : view) :
    sstep v (ASetPage p) (issue (handlePageChange p (v_filters v)) v)
| SRefresh (v : view) :
    sstep v ARefresh (issue (v_filters v) v)
| SDeliverLatest (seq : nat) (r : http_response) (v : view) :
    v_pending v = Some seq -> sstep v (ADeliver seq r) (apply_result r v)
| SDeliverStale (seq : nat) (r : http_response) (v : view) :
    v_pending v <> Some seq -> seq < v_issued v -> sstep v (ADeliver seq r) v.

(** The contract is deterministic: a view and what it is told fix the next
    view, so a trace of the contract fixes the view it ends in. *)
Lemma sstep_deterministic (x : view) (a : act) (y z : view) :
  sstep x a y -> sstep x a z -> y = z.
Proof. intros H1 H2. inversion H1; subst; inversion H2; subst; congruence. Qed.

End Contract.

End SyncSpec.
