(* ===== verification/Catalog.v ===== *)
(** * The course catalog's synchronization ([src/src/pages/Courses.jsx])

    The [Courses] component keeps a view of the remote, filtered, paginated
    course list: its state ([courses], [loading], [error], [filters],
    [totalPages], [categories]) is modelled as the record [cstate], each
    [setX] call as a function on it, and the component's life as a step
    function on events: the mount (which runs both effects), a filter edit
    or a page change (which, through the [filters] effect, calls
    [fetchCourses]), and the arrival of the response of one of the requests
    in flight, in any order.  The model adds two ghost fields that the code
    does not have: the list of requests in flight, in the order they were
    issued, and the issue number of each course request.

    The theorems compare the component with the contract of [SyncSpec]:
    they agree as long as every course response that arrives answers the
    latest request, and they part when an older one arrives last. *)

From Stdlib Require Import String Ascii List Bool ZArith Lia.
From S2P Require Import Prelude JsArray JsString JsNumber JsValue JsCoerce Query Fetcher SyncSpec.
Import ListNotations.
Open Scope string_scope.

Module Catalog.

Import JsNumber JsValue Query Fetcher JsArray.

(** ** State *)

(** A request in flight: the categories, or a course page with its issue
    number and its URL. *)
Inductive request :=
| ReqCategories
| ReqCourses (seq : nat) (url : string).

Record cstate := CState {
  courses : jsval;         (** [useState([])] *)
  loading : bool;          (** [useState(true)] *)
  error : string;          (** [useState('')] *)
  filters : Query.filters; (** [useState({search: '', ..., page: 1, limit: 12})] *)
  totalPages : jsval;      (** [useState(1)] *)
  categories : jsval;      (** [useState([])] *)
  mounted : bool;
  inflight : list request;
  next_seq : nat
}.

Definition initial : cstate :=
  {| courses := JArr []; loading := true; error := ""; filters := initial_filters;
     totalPages := one; categories := JArr []; mounted := false; inflight := [];
     next_seq := 0 |}.

(** ** The setters *)

Definition setCourses (v : jsval) (s : cstate) : cstate :=
  {| courses := v; loading := loading s; error := error s; filters := filters s;
     totalPages := totalPages s; categories := categories s; mounted := mounted s;
     inflight := inflight s; next_seq := next_seq s |}.

Definition setLoading (b : bool) (s : cstate) : cstate :=
  {| courses := courses s; loading := b; error := error s; filters := filters s;
     totalPages := totalPages s; categories := categories s; mounted := mounted s;
     inflight := inflight s; next_seq := next_seq s |}.

Definition setError (m : string) (s : cstate) : cstate :=
  {| courses := courses s; loading := loading s; error := m; filters := filters s;
     totalPages := totalPages s; categories := categories s; mounted := mounted s;
     inflight := inflight s; next_seq := next_seq s |}.

Definition setFilters (f : Query.filters) (s : cstate) : cstate :=
  {| courses := courses s; loading := loading s; error := error s; filters := f;
     totalPages := totalPages s; categories := categories s; mounted := mounted s;
     inflight := inflight s; next_seq := next_seq s |}.

Definition setTotalPages (v : jsval) (s : cstate) : cstate :=
  {| courses := courses s; loading := loading s; error := error s; filters := filters s;
     totalPages := v; categories := categories s; mounted := mounted s;
     inflight := inflight s; next_seq := next_seq s |}.

Definition setCategories (v : jsval) (s : cstate) : cstate :=
  {| courses := courses s; loading := loading s; error := error s; filters := filters s;
     totalPages := totalPages s; categories := v; mounted := mounted s;
     inflight := inflight s; next_seq := next_seq s |}.

(** Bookkeeping of the model: the component mounts, a request leaves or
    joins the requests in flight. *)
Definition with_mounted (s : cstate) : cstate :=
  {| courses := courses s; loading := loading s; error := error s; filters := filters s;
     totalPages := totalPages s; categories := categories s; mounted := true;
     inflight := inflight s; next_seq := next_seq s |}.

Definition settle (i : nat) (s : cstate) : cstate :=
  {| courses := courses s; loading := loading s; error := error s; filters := filters s;
     totalPages := totalPages s; categories := categories s; mounted := mounted s;
     inflight := remove_at i (inflight s); next_seq := next_seq s |}.

Definition issue_courses (url : string) (s : cstate) : cstate :=
  {| courses := courses s; loading := loading s; error := error s; filters := filters s;
     totalPages := totalPages s; categories := categories s; mounted := mounted s;
     inflight := inflight s ++ [ReqCourses (next_seq s) url]; next_seq := S (next_seq s) |}.

Definition issue_categories (s : cstate) : cstate :=
  {| courses := courses s; loading := loading s; error := error s; filters := filters s;
     totalPages := totalPages s; categories := categories s; mounted := mounted s;
     inflight := inflight s ++ [ReqCategories]; next_seq := next_seq s |}.

(** ** The handlers *)

Definition load_error : string := "Failed to load courses. Please try again.".

(** [fetchCourses] up to its [await]: [setLoading(true)], then the request
    for the URL of the current filters. *)
Definition fetchCourses (s : cstate) : cstate :=
  issue_courses (courses_url (filters s)) (setLoading true s).

(** [fetchCourses] after its [await], with the settled response. *)
Definition coursesSettled (r : http_response) (s : cstate) : cstate :=
  match r with
  | HttpOk data =>
      match normalize data with
      | Some (items, tp) => setLoading false (setError "" (setTotalPages tp (setCourses items s)))
      | None => setLoading false (setError load_error s)
      end
  | HttpFail _ => setLoading false (setError load_error s)
  end.

(** [fetchCategories]: [setCategories(response.data)], or only a log line. *)
Definition categoriesSettled (r : http_response) (s : cstate) : cstate :=
  match r with
  | HttpOk data => setCategories data s
  | HttpFail _ => s
  end.

(** ** The render *)

(** [getDifficultyColor(difficulty)], the catalog's own copy. *)
Definition getDifficultyColor (difficulty : jsval) : string :=
  if is_str difficulty "Beginner" then "success"
  else if is_str difficulty "Intermediate" then "warning"
  else if is_str difficulty "Advanced" then "error"
  else "default".

(** The image of a card: the course's thumbnail, or the bundled picture. *)
Inductive image := Thumbnail (v : jsval) | DefaultImage.

(** The [src] of the image, for the [process.env.PUBLIC_URL] fixed at build
    time. *)
Definition image_src (public_url : string) (i : image) : jsval :=
  match i with
  | Thumbnail v => v
  | DefaultImage => JStr (public_url ++ "/static/java.webp")
  end.

(** What one course [Card] shows. *)
Record card := Card {
  card_image : image;
  card_alt : jsval;
  card_category : string;
  card_difficulty : string;
  card_difficulty_color : string;
  card_title : string;
  card_description : string;
  card_instructor : string;
  card_duration : string;
  card_price : string;
  card_enrolled : string;
  card_link : string
}.

(** The body of [courses.map((course) => <Grid ...>)]. *)
Definition course_card (c : jsval) : option card :=
  let* cid := get_prop c "id" in
  let* thumbnail := get_prop c "thumbnail" in
  let* title := get_prop c "title" in
  let* category := get_prop c "category" in
  let* category_t := react_text category in
  let* difficulty := get_prop c "difficulty" in
  let* difficulty_t := react_text difficulty in
  let* title_t := react_text title in
  let* description := get_prop c "description" in
  let* description_t := react_text description in
  let* instructor := get_prop c "instructor" in
  let* instructor_t := react_text instructor in
  let* duration := get_prop c "duration" in
  let* duration_t := react_text duration in
  let* price := get_prop c "price" in
  let* price_t := react_text price in
  let* enrolled := get_prop c "enrolledStudents" in
  let* enrolled_t := react_text (js_or enrolled (JNum (num_of_Z 0))) in
  Some {| card_image := if truthy thumbnail then Thumbnail thumbnail else DefaultImage;
          card_alt := title; card_category := category_t; card_difficulty := difficulty_t;
          card_difficulty_color := getDifficultyColor difficulty;
          card_title := title_t; card_description := description_t;
          card_instructor := instructor_t; card_duration := duration_t ++ " hours";
          card_price := "$" ++ price_t; card_enrolled := enrolled_t;
          card_link := "/course/" ++ JsCoerce.to_string cid |}.

(** [v.map(f)]: only an array has [map]. *)
Definition js_map {B : Type} (f : jsval -> option B) (v : jsval) : option (list B) :=
  match v with JArr items => map_opt f items | _ => None end.

(** The category [Select]: "All Categories", then one item per category. *)
Definition category_options (categories : jsval) : option (list string) :=
  let* items := js_map react_text categories in Some ("All Categories" :: items).

(** [courses.length === 0] *)
Definition length_is_zero (v : jsval) : option bool :=
  let* len := get_prop v "length" in Some (JsCoerce.is_zero len).

Inductive catalog_view :=
| CSpinner
| CPage (search category difficulty : string) (options : list string)
        (alert : option string) (cards : list card)
        (pagination : option (jsval * Z)) (empty_message : bool).

(** The component's return value; [None] is a render that throws. *)
Definition view (s : cstate) : option catalog_view :=
  let page :=
    let* options := category_options (categories s) in
    let* cards := js_map course_card (courses s) in
    let* empty := if loading s then Some false else length_is_zero (courses s) in
    Some (CPage (search (filters s)) (category (filters s)) (difficulty (filters s)) options
                (if JsString.truthy_str (error s) then Some (error s) else None) cards
                (if JsCoerce.gt_num (totalPages s) (num_of_Z 1)
                 then Some (totalPages s, page (filters s)) else None)
                empty) in
  if loading s then
    let* z := length_is_zero (courses s) in
    if z then Some CSpinner else page
  else page.

(** The filter inputs are on screen. *)
Definition shows_filters (s : cstate) : bool :=
  match view s with Some (CPage _ _ _ _ _ _ _ _) => true | _ => false end.

(** The [Pagination] is on screen and offers page [v]. *)
Definition offers_page (v : Z) (s : cstate) : bool :=
  match view s with
  | Some (CPage _ _ _ _ _ _ (Some (count, _)) _) =>
      (1 <=? v)%Z && JsCoerce.le_num (num_of_Z v) count
  | _ => false
  end.

(** What happens to the page. *)
Inductive event :=
| Mount
| FilterChange (field : filter_field) (value : string)
| PageChange (value : Z)
| Respond (i : nat) (r : http_response).

(** A filter or page update, and the [useEffect(..., [filters])] it
    triggers: every update builds a new object, so the effect always runs. *)
Definition update_filters (f : Query.filters) (s : cstate) : cstate :=
  fetchCourses (setFilters f s).

(** The response of the [i]-th request in flight arrives: the request
    leaves the set in flight and the code after its [await] runs. *)
Definition respond (i : nat) (r : http_response) (s : cstate) : option cstate :=
  match nth_error (inflight s) i with
  | None => None
  | Some ReqCategories => Some (categoriesSettled r (settle i s))
  | Some (ReqCourses _ _) => Some (coursesSettled r (settle i s))
  end.

(** The component: the mount runs the two effects in their order
    ([fetchCategories], then [fetchCourses]); an edit runs the handler and
    the [filters] effect.  The filter inputs can be used only while the
    page (not the spinner) is on screen, and the [Pagination] only offers
    the pages from 1 to its [count]. *)
Definition step (s : cstate) (e : event) : option cstate :=
  match e with
  | Mount =>
      if mounted s then None else Some (fetchCourses (issue_categories (with_mounted s)))
  | FilterChange field value =>
      if mounted s && shows_filters s
      then Some (update_filters (handleFilterChange field value (filters s)) s)
      else None
  | PageChange value =>
      if mounted s && offers_page value s
      then Some (update_filters (handlePageChange value (filters s)) s) else None
  | Respond i r => respond i r s
  end.

(** ** The order of the requests in flight *)

(** The course requests in flight are in the order of their numbers, and
    every number is below the next one to be given. *)
Definition issue_ordered (s : cstate) : Prop :=
  (forall i j si sj ui uj, i < j ->
     nth_error (inflight s) i = Some (ReqCourses si ui) ->
     nth_error (inflight s) j = Some (ReqCourses sj uj) -> si < sj) /\
  (forall i si ui, nth_error (inflight s) i = Some (ReqCourses si ui) -> si < next_seq s).

Lemma issue_ordered_same (s t : cstate) :
  inflight t = inflight s -> next_seq t = next_seq s -> issue_ordered s -> issue_ordered t.
Proof. unfold issue_ordered. intros -> ->. exact id. Qed.

Lemma coursesSettled_requests (r : http_response) (s : cstate) :
  inflight (coursesSettled r s) = inflight s /\ next_seq (coursesSettled r s) = next_seq s.
Proof. unfold coursesSettled. destruct r as [d|e]; [destruct (normalize d) as [[? ?]|]|]; split; reflexivity. Qed.

Lemma categoriesSettled_requests (r : http_response) (s : cstate) :
  inflight (categoriesSettled r s) = inflight s /\ next_seq (categoriesSettled r s) = next_seq s.
Proof. destruct r; split; reflexivity. Qed.

Lemma issue_ordered_settle (k : nat) (s : cstate) :
  issue_ordered s -> issue_ordered (settle k s).
Proof.
  intros [Hord Hlt]. split; simpl.
  - intros i j si sj ui uj Hij Hi Hj. rewrite nth_error_remove_at in Hi, Hj.
    eapply Hord; [|exact Hi|exact Hj].
    destruct (Nat.ltb_spec i k), (Nat.ltb_spec j k); lia.
  - intros i si ui Hi. rewrite nth_error_remove_at in Hi. eapply Hlt; exact Hi.
Qed.

Lemma issue_ordered_issue_courses (url : string) (s : cstate) :
  issue_ordered s -> issue_ordered (issue_courses url s).
Proof.
  intros [Hord Hlt]. split; simpl.
  - intros i j si sj ui uj Hij Hi Hj. rewrite nth_error_snoc in Hi, Hj.
    destruct (Nat.ltb_spec j (length (inflight s))).
    + destruct (Nat.ltb_spec i (length (inflight s))); [|lia]. exact (Hord _ _ _ _ _ _ Hij Hi Hj).
    + destruct (Nat.eqb_spec j (length (inflight s))); [|discriminate]. inv Hj.
      destruct (Nat.ltb_spec i (length (inflight s))); [|lia]. exact (Hlt _ _ _ Hi).
  - intros i si ui Hi. rewrite nth_error_snoc in Hi.
    destruct (Nat.ltb_spec i (length (inflight s))).
    + specialize (Hlt _ _ _ Hi). lia.
    + destruct (Nat.eqb_spec i (length (inflight s))); inv Hi. lia.
Qed.

Lemma issue_ordered_issue_categories (s : cstate) :
  issue_ordered s -> issue_ordered (issue_categories s).
Proof.
  intros [Hord Hlt]. split; simpl.
  - intros i j si sj ui uj Hij Hi Hj. rewrite nth_error_snoc in Hi, Hj.
    destruct (Nat.ltb_spec j (length (inflight s))).
    + destruct (Nat.ltb_spec i (length (inflight s))); [|lia]. exact (Hord _ _ _ _ _ _ Hij Hi Hj).
    + destruct (Nat.eqb_spec j (length (inflight s))); discriminate.
  - intros i si ui Hi. rewrite nth_error_snoc in Hi.
    destruct (Nat.ltb_spec i (length (inflight s))); [eapply Hlt; eauto|].
    destruct (Nat.eqb_spec i (length (inflight s))); discriminate.
Qed.

#[local] Hint Resolve issue_ordered_settle issue_ordered_issue_courses
  issue_ordered_issue_categories : portal.

Lemma step_issue_ordered (s s' : cstate) (e : event) :
  issue_ordered s -> step s e = Some s' -> issue_ordered s'.
Proof.
  intros Hs Hstep. destruct e as [| field value | value | i r]; simpl in Hstep.
  - destruct (mounted s); inv Hstep. unfold fetchCourses.
    apply issue_ordered_issue_courses, (issue_ordered_same (issue_categories (with_mounted s)));
      [reflexivity|reflexivity|]. apply issue_ordered_issue_categories, Hs.
  - case_if; inv Hstep. apply issue_ordered_issue_courses, Hs.
  - case_if; inv Hstep. apply issue_ordered_issue_courses, Hs.
  - unfold respond in Hstep. destruct (nth_error (inflight s) i) as [[|seq u]|]; inv Hstep.
    + destruct (categoriesSettled_requests r (settle i s)) as [E1 E2].
      eapply issue_ordered_same; eauto with portal.
    + destruct (coursesSettled_requests r (settle i s)) as [E1 E2].
      eapply issue_ordered_same; eauto with portal.
Qed.

(** ** The contract seen in the component *)

Definition is_course_req (k : nat) (q : request) : bool :=
  match q with ReqCourses seq _ => Nat.eqb seq k | ReqCategories => false end.

(** The fetch the contract waits for: the latest one issued, while it is
    still in flight. *)
Definition pending_of (s : cstate) : option nat :=
  match next_seq s with
  | O => None
  | S k => if existsb (is_course_req k) (inflight s) then Some k else None
  end.

(** The component's state as a state of the contract. *)
Definition abs (s : cstate) : SyncSpec.view :=
  {| SyncSpec.v_filters := filters s; SyncSpec.v_items := courses s;
     SyncSpec.v_pages := totalPages s; SyncSpec.v_error := error s;
     SyncSpec.v_loading := loading s; SyncSpec.v_pending := pending_of s;
     SyncSpec.v_issued := next_seq s |}.

(** A response answers the latest course request, or is not a course
    response. *)
Definition latest_response (s : cstate) (e : event) : bool :=
  match e with
  | Respond i _ =>
      match nth_error (inflight s) i with
      | Some (ReqCourses seq _) => Nat.eqb (S seq) (next_seq s)
      | _ => true
      end
  | _ => true
  end.

(** Every course response of the run answers the latest request. *)
Definition latest_only (s : cstate) (es : list event) : bool :=
  all_steps step latest_response s es.

(** What an event tells the contract: the edits and the mount as they are,
    a course response as the result of the fetch it answers; a category
    response is not seen by it. *)
Definition label (s : cstate) (e : event) : option SyncSpec.act :=
  match e with
  | Mount => Some SyncSpec.ARefresh
  | FilterChange field value => Some (SyncSpec.ASetFilter field value)
  | PageChange value => Some (SyncSpec.ASetPage value)
  | Respond i r =>
      match nth_error (inflight s) i with
      | Some (ReqCourses seq _) => Some (SyncSpec.ADeliver seq r)
      | _ => None
      end
  end.

Lemma abs_fetchCourses (t : cstate) :
  abs (fetchCourses t) = SyncSpec.issue (filters t) (abs t).
Proof.
  unfold abs, SyncSpec.issue, pending_of. simpl. rewrite existsb_app. simpl.
  rewrite Nat.eqb_refl, orb_true_r. reflexivity.
Qed.

Lemma abs_issue_categories (t : cstate) : abs (issue_categories t) = abs t.
Proof.
  unfold abs, pending_of. simpl. destruct (next_seq t); [reflexivity|].
  rewrite existsb_app. simpl. rewrite orb_false_r. reflexivity.
Qed.

Lemma abs_settle_categories (i : nat) (s : cstate) :
  nth_error (inflight s) i = Some ReqCategories -> abs (settle i s) = abs s.
Proof.
  intros Hi. unfold abs, pending_of. simpl. destruct (next_seq s); [reflexivity|].
  rewrite (existsb_remove_at _ i (inflight s) ReqCategories Hi) by reflexivity. reflexivity.
Qed.

Lemma abs_categoriesSettled (r : http_response) (s : cstate) :
  abs (categoriesSettled r s) = abs s.
Proof. destruct r; reflexivity. Qed.

(** Once the latest request is settled, no course request of its number is
    left in flight. *)
Lemma pending_settle_latest (i seq : nat) (u : string) (s : cstate) :
  issue_ordered s -> nth_error (inflight s) i = Some (ReqCourses seq u) ->
  S seq = next_seq s -> pending_of (settle i s) = None.
Proof.
  intros [Hord _] Hi Hseq. unfold pending_of. simpl. rewrite <- Hseq.
  destruct (existsb (is_course_req seq) (remove_at i (inflight s))) eqn:E; [|reflexivity].
  apply existsb_exists in E as [q [Hq Hc]].
  destruct q as [|seq' u']; [discriminate|]. apply Nat.eqb_eq in Hc. subst seq'.
  apply In_nth_error in Hq as [j Hj]. rewrite nth_error_remove_at in Hj.
  destruct (Nat.ltb_spec j i).
  - specialize (Hord _ _ _ _ _ _ H Hj Hi). lia.
  - assert (i < S j) as Hij by lia. specialize (Hord _ _ _ _ _ _ Hij Hi Hj). lia.
Qed.

Lemma abs_coursesSettled (r : http_response) (i : nat) (s : cstate) :
  pending_of (settle i s) = None ->
  abs (coursesSettled r (settle i s)) = SyncSpec.apply_result load_error r (abs s).
Proof.
  intros Hp. unfold abs, SyncSpec.apply_result, coursesSettled.
  destruct r as [d|e]; [destruct (normalize d) as [[items tp]|]|];
    unfold pending_of in *; simpl in *; rewrite Hp; reflexivity.
Qed.

(** ** The render and the guards *)

Lemma view_crashed (s : cstate) :
  loading s = false -> js_map course_card (courses s) = None -> view s = None.
Proof.
  intros HL Hc. unfold view. rewrite HL, Hc.
  destruct (category_options (categories s)); reflexivity.
Qed.

Lemma crashed_refuses (s : cstate) : view s = None ->
  (forall f v, step s (FilterChange f v) = None) /\ (forall p, step s (PageChange p) = None).
Proof.
  intros Hv. unfold step, shows_filters, offers_page. rewrite Hv.
  split; intros; rewrite andb_false_r; reflexivity.
Qed.

(** One step of the component is matched by the contract, under the
    step's label, when the step is not the arrival of a stale course
    response; the order of the requests in flight is kept. *)
Lemma step_simulated (s : cstate) (e : event) (s' : cstate) :
  issue_ordered s -> latest_response s e = true -> step s e = Some s' ->
  issue_ordered s' /\
  match label s e with
  | Some l => SyncSpec.sstep load_error (abs s) l (abs s')
  | None => abs s' = abs s
  end.
Proof.
  intros Hord Hlat Hstep. split; [eapply step_issue_ordered; eauto|].
  destruct e as [| field value | value | i r]; simpl in Hstep |- *.
  - destruct (mounted s); inv Hstep. rewrite abs_fetchCourses, abs_issue_categories.
    apply SyncSpec.SRefresh.
  - case_if; inv Hstep. unfold update_filters. rewrite abs_fetchCourses.
    apply (SyncSpec.SSetFilter load_error field value (abs s)).
  - case_if; inv Hstep. unfold update_filters. rewrite abs_fetchCourses.
    apply (SyncSpec.SSetPage load_error value (abs s)).
  - unfold latest_response in Hlat. unfold respond in Hstep.
    destruct (nth_error (inflight s) i) as [[|seq u]|] eqn:Hi; inv Hstep.
    + rewrite abs_categoriesSettled, abs_settle_categories by exact Hi. reflexivity.
    + apply Nat.eqb_eq in Hlat.
      rewrite abs_coursesSettled by (eapply pending_settle_latest; eauto).
      apply (SyncSpec.SDeliverLatest load_error seq).
      unfold abs, pending_of. simpl. rewrite <- Hlat.
      replace (existsb (is_course_req seq) (inflight s)) with true; [reflexivity|].
      symmetry. apply existsb_exists. exists (ReqCourses seq u).
      split; [eapply nth_error_In; exact Hi|apply Nat.eqb_refl].
Qed.

(** ** Properties *)

(** Every state the page reaches keeps its course requests in flight
    in the order they were issued, each numbered below the next number. *)
Theorem reachable_issue_ordered (es : list event) (s : cstate) :
  run step initial es = Some s -> issue_ordered s.
Proof.
  apply (run_invariant step issue_ordered); [intros; eapply step_issue_ordered; eauto|].
  split; intros [] *; simpl; discriminate.
Qed.

(** C2. As long as every course response that arrives answers the latest
    request, the run is a run of the contract of the specification: the
    contract, told the run's own edits, mount and course results (each
    with the number of the fetch it answers), goes from the initial view
    to the page's view, with the same filters, items, page count, error,
    loading flag and awaited fetch, and to no other view. *)
Theorem catalog_refines_contract (es : list event) (s : cstate) :
  latest_only initial es = true -> run step initial es = Some s ->
  trace (SyncSpec.sstep load_error) (abs initial) (run_labels step label initial es) (abs s) /\
  (forall w, trace (SyncSpec.sstep load_error) (abs initial) (run_labels step label initial es) w ->
     w = abs s).
Proof.
  intros Hl Hrun.
  assert (Ht : trace (SyncSpec.sstep load_error) (abs initial) (run_labels step label initial es) (abs s)).
  { eapply (run_simulation step label _ abs issue_ordered latest_response);
      [exact step_simulated| |exact Hl|exact Hrun].
    split; intros [] *; simpl; discriminate. }
  split; [exact Ht|]. intros w Hw.
  eapply trace_functional; [exact (SyncSpec.sstep_deterministic load_error)|exact Hw|exact Ht].
Qed.

(** C1. Responses are applied in the order they arrive: when the response
    to a later course request arrives first and the response to an earlier
    one arrives after it, the page ends up showing the earlier one's items
    and page count, although the filters are the later ones. *)
Theorem stale_response_overwrites (s : cstate) (i j si sj : nat) (ui uj : string)
    (dA dB itemsA tpA itemsB tpB : jsval) :
  i < j ->
  nth_error (inflight s) i = Some (ReqCourses si ui) ->
  nth_error (inflight s) j = Some (ReqCourses sj uj) ->
  normalize dA = Some (itemsA, tpA) -> normalize dB = Some (itemsB, tpB) ->
  exists s', run step s [Respond j (HttpOk dB); Respond i (HttpOk dA)] = Some s' /\
             courses s' = itemsA /\ totalPages s' = tpA /\ filters s' = filters s /\
             error s' = "" /\ loading s' = false.
Proof.
  intros Hij Hi Hj HA HB.
  set (s1 := coursesSettled (HttpOk dB) (settle j s)).
  assert (H1 : step s (Respond j (HttpOk dB)) = Some s1)
    by (cbn [step]; unfold respond; rewrite Hj; reflexivity).
  assert (Hi1 : nth_error (inflight s1) i = Some (ReqCourses si ui)).
  { unfold s1. rewrite (proj1 (coursesSettled_requests _ _)). cbn [inflight settle].
    rewrite remove_at_lt by exact Hij. exact Hi. }
  exists (coursesSettled (HttpOk dA) (settle i s1)). cbn [run]. rewrite H1.
  cbn [step]. unfold respond. rewrite Hi1.
  assert (Hf : filters s1 = filters s) by (unfold s1, coursesSettled; rewrite HB; reflexivity).
  unfold coursesSettled. rewrite HA. repeat split; first [exact Hf | reflexivity].
Qed.

(** C4. A failed course fetch (no response, an error status, or a [null]
    body) keeps the items, the page count and the filters, shows the error
    message, and ends the loading state. *)
Theorem course_failure_keeps_items (s s' : cstate) (i seq : nat) (u : string)
    (r : http_response) :
  nth_error (inflight s) i = Some (ReqCourses seq u) ->
  (exists err, r = HttpFail err) \/ (exists d, r = HttpOk d /\ normalize d = None) ->
  step s (Respond i r) = Some s' ->
  courses s' = courses s /\ totalPages s' = totalPages s /\ filters s' = filters s /\
  error s' = load_error /\ loading s' = false.
Proof.
  intros Hi Hr Hstep. simpl in Hstep. unfold respond in Hstep. rewrite Hi in Hstep. inv Hstep.
  destruct Hr as [[err ->]|[d [-> Hd]]]; unfold coursesSettled; [|rewrite Hd];
    repeat split; reflexivity.
Qed.

(** C5. The loading indicator goes off when any course response arrives:
    after the response to an older request, the page is no longer loading
    although the latest request is still in flight, a state the contract
    never reaches. *)
Theorem loading_cleared_while_pending (s s' : cstate) (i j si sj : nat) (ui uj : string)
    (r : http_response) :
  i <> j ->
  nth_error (inflight s) i = Some (ReqCourses si ui) ->
  nth_error (inflight s) j = Some (ReqCourses sj uj) ->
  S sj = next_seq s ->
  step s (Respond i r) = Some s' ->
  SyncSpec.v_loading (abs s') = false /\ SyncSpec.v_pending (abs s') = Some sj.
Proof.
  intros Hij Hi Hj Hlatest Hstep. simpl in Hstep. unfold respond in Hstep.
  rewrite Hi in Hstep. inv Hstep.
  destruct (coursesSettled_requests r (settle i s)) as [E1 E2].
  split.
  - unfold coursesSettled. destruct r as [d|e]; [destruct (normalize d) as [[? ?]|]|]; reflexivity.
  - unfold abs, pending_of. simpl. rewrite E1, E2. simpl. rewrite <- Hlatest.
    replace (existsb (is_course_req sj) (remove_at i (inflight s))) with true; [reflexivity|].
    symmetry. apply existsb_exists. exists (ReqCourses sj uj). split; [|apply Nat.eqb_refl].
    destruct (Nat.ltb_spec j i).
    + apply (nth_error_In _ j). rewrite nth_error_remove_at.
      destruct (Nat.ltb_spec j i); [exact Hj|lia].
    + apply (nth_error_In _ (pred j)). rewrite nth_error_remove_at.
      destruct (Nat.ltb_spec (pred j) i); [lia|]. replace (S (pred j)) with j by lia. exact Hj.
Qed.

(** C10. When the current result is empty, every new fetch replaces the
    whole page by the spinner ([loading && courses.length === 0]): the
    search field and the other filters are unmounted until the response
    arrives, so no filter or page can be changed meanwhile. *)
Theorem empty_result_hides_filters (s : cstate) :
  loading s = true -> courses s = JArr [] ->
  view s = Some CSpinner /\ (forall f v, step s (FilterChange f v) = None) /\
  (forall p, step s (PageChange p) = None).
Proof.
  intros HL HC. assert (Hv : view s = Some CSpinner) by (unfold view; rewrite HL, HC; reflexivity).
  split; [exact Hv|]. unfold step, shows_filters, offers_page. rewrite Hv.
  split; intros; rewrite andb_false_r; reflexivity.
Qed.

(** C27. While a new fetch is pending, a non-empty result stays on screen:
    the page keeps showing the filters and the cards of the current items
    (not the spinner), as the specification's last known-good items. *)
Theorem refetch_keeps_cards (s : cstate) (x : jsval) (l : list jsval) (cards : list card)
    (opts : list string) :
  loading s = true -> courses s = JArr (x :: l) ->
  map_opt course_card (x :: l) = Some cards -> category_options (categories s) = Some opts ->
  exists alert pg, view s = Some (CPage (search (filters s)) (category (filters s))
                                        (difficulty (filters s)) opts alert cards pg false).
Proof.
  intros HL HC Hcards Hopts. unfold view. rewrite HL, HC. simpl.
  rewrite Hopts. simpl in Hcards |- *. rewrite Hcards. eauto.
Qed.

(** C9. An envelope whose [content] is missing, [null] or otherwise falsy
    is taken as the item list itself ([response.data.content ||
    response.data]): the object becomes [courses], [courses.map] throws, and
    the page stops rendering and accepts no filter or page change. *)
Theorem envelope_without_content_crashes (s : cstate) (i seq : nat) (u : string)
    (fs : list (string * jsval)) :
  nth_error (inflight s) i = Some (ReqCourses seq u) ->
  truthy (field_lookup "content" fs ?? JUndefined) = false ->
  exists s', step s (Respond i (HttpOk (JObj fs))) = Some s' /\ courses s' = JObj fs /\
    view s' = None /\ forall f v, step s' (FilterChange f v) = None.
Proof.
  intros Hi Hc. simpl. unfold respond. rewrite Hi.
  unfold coursesSettled, normalize, js_or. simpl. rewrite Hc.
  eexists; split; [reflexivity|]. split; [reflexivity|].
  assert (Hv : view (setLoading false (setError "" (setTotalPages
                 (if truthy (field_lookup "totalPages" fs ?? JUndefined)
                  then field_lookup "totalPages" fs ?? JUndefined else one)
                 (setCourses (JObj fs) (settle i s))))) = None) by (apply view_crashed; reflexivity).
  split; [exact Hv|]. apply (crashed_refuses _ Hv).
Qed.

(** ** Witnesses *)

(** A catalog that mounted and loaded all courses, then had "j" and "ja"
    typed in its search box: the requests numbered 1 (search "j") and 2
    (search "ja") are both in flight, after the categories request. *)
Definition after_run (es : list event) : cstate :=
  match run step initial es with Some s => s | None => initial end.

Definition all_courses : jsval := JArr [JStr "Java 101"; JStr "Python 101"].
Definition java_page : jsval :=
  JObj [("content", JArr [JStr "Java 101"]); ("totalPages", JNum (num_of_Z 1))].

Definition typed_twice : list event :=
  [Mount; Respond 1 (HttpOk all_courses); FilterChange FSearch "j"; FilterChange FSearch "ja"].

Definition two_fetches : cstate := after_run typed_twice.

Definition url_j : string := "/api/courses?search=j&page=1&limit=12".
Definition url_ja : string := "/api/courses?search=ja&page=1&limit=12".

Lemma stale_response_overwrites_witness :
  nth_error (inflight two_fetches) 1 = Some (ReqCourses 1 url_j) /\
  exists s', run step two_fetches [Respond 2 (HttpOk java_page); Respond 1 (HttpOk all_courses)]
             = Some s' /\
             courses s' = all_courses /\ totalPages s' = one /\
             filters s' = filters two_fetches /\ error s' = "" /\ loading s' = false.
Proof.
  split; [vm_compute; reflexivity|].
  apply (stale_response_overwrites two_fetches 1 2 1 2 url_j url_ja all_courses java_page
           all_courses one (JArr [JStr "Java 101"]) one);
    [lia|vm_compute; reflexivity|vm_compute; reflexivity|vm_compute; reflexivity|
     vm_compute; reflexivity].
Defined.

Definition in_order_run : list event :=
  [Mount; Respond 1 (HttpOk all_courses); FilterChange FSearch "java";
   Respond 1 (HttpOk java_page); Respond 0 (HttpOk (JArr [JStr "Programming"]))].

Lemma catalog_refines_contract_witness :
  latest_only initial in_order_run = true /\
  SyncSpec.v_items (abs (after_run in_order_run)) = JArr [JStr "Java 101"] /\
  trace (SyncSpec.sstep load_error) (abs initial) (run_labels step label initial in_order_run)
    (abs (after_run in_order_run)).
Proof.
  split; [vm_compute; reflexivity|]. split; [vm_compute; reflexivity|].
  apply (catalog_refines_contract in_order_run); vm_compute; reflexivity.
Defined.

Lemma course_failure_keeps_items_witness :
  step two_fetches (Respond 2 (HttpFail Network)) =
    Some (after_run (typed_twice ++ [Respond 2 (HttpFail Network)])) /\
  courses (after_run (typed_twice ++ [Respond 2 (HttpFail Network)])) = courses two_fetches.
Proof.
  split; [vm_compute; reflexivity|].
  apply (course_failure_keeps_items two_fetches _ 2 2 url_ja (HttpFail Network));
    [vm_compute; reflexivity|left; exists Network; reflexivity|vm_compute; reflexivity].
Defined.

Lemma loading_cleared_while_pending_witness :
  step two_fetches (Respond 1 (HttpOk all_courses)) =
    Some (after_run (typed_twice ++ [Respond 1 (HttpOk all_courses)])) /\
  SyncSpec.v_loading (abs (after_run (typed_twice ++ [Respond 1 (HttpOk all_courses)]))) = false.
Proof.
  split; [vm_compute; reflexivity|].
  apply (loading_cleared_while_pending two_fetches _ 1 2 1 2 url_j url_ja (HttpOk all_courses));
    [lia|vm_compute; reflexivity|vm_compute; reflexivity|vm_compute; reflexivity|
     vm_compute; reflexivity].
Defined.

Lemma reachable_issue_ordered_witness :
  run step initial typed_twice = Some two_fetches /\ issue_ordered two_fetches.
Proof.
  split; [vm_compute; reflexivity|].
  apply (reachable_issue_ordered typed_twice). vm_compute. reflexivity.
Defined.

(** The search for "j" found nothing; "x" is typed while the next fetch
    is pending. *)
Definition empty_then_typing : list event :=
  [Mount; Respond 1 (HttpOk (JArr [])); FilterChange FSearch "j"].

Lemma empty_result_hides_filters_witness :
  run step initial empty_then_typing = Some (after_run empty_then_typing) /\
  step (after_run empty_then_typing) (FilterChange FSearch "jx") = None.
Proof.
  split; [vm_compute; reflexivity|].
  apply (empty_result_hides_filters (after_run empty_then_typing)); vm_compute; reflexivity.
Defined.

Lemma refetch_keeps_cards_witness :
  exists cards, map_opt course_card [JStr "Java 101"; JStr "Python 101"] = Some cards /\
  exists alert pg, view two_fetches =
    Some (CPage (search (filters two_fetches)) (category (filters two_fetches))
                (difficulty (filters two_fetches)) ["All Categories"] alert cards pg false).
Proof.
  destruct (map_opt course_card [JStr "Java 101"; JStr "Python 101"]) as [cards|] eqn:Hc;
    [|vm_compute in Hc; discriminate].
  exists cards. split; [reflexivity|].
  apply (refetch_keeps_cards two_fetches (JStr "Java 101") [JStr "Python 101"] cards
           ["All Categories"]); [vm_compute; reflexivity|vm_compute; reflexivity|exact Hc|
                                 vm_compute; reflexivity].
Defined.

Lemma envelope_without_content_crashes_witness :
  exists s', step two_fetches (Respond 2 (HttpOk (JObj [("totalPages", JNum (num_of_Z 3))])))
             = Some s' /\ view s' = None.
Proof.
  destruct (envelope_without_content_crashes two_fetches 2 2 url_ja
              [("totalPages", JNum (num_of_Z 3))]) as (s' & H1 & _ & H3 & _);
    [vm_compute; reflexivity|reflexivity|].
  exists s'. split; assumption.
Defined.

End Catalog.
