(* ===== verification/FormBinding.v ===== *)
(** * The course form's binding ([src/src/pages/AdminCourses.jsx],
      [src/src/pages/EditCourseForm.jsx])

    A course as the backend sends it, the text draft the dialog edits
    ([formData]), the draft built from a course ([handleOpenDialog]), and
    the payload built from a draft ([handleSubmit]): numbers go to text with
    [toString] and back with [parseInt] / [parseFloat]; list fields go to
    text with [join('\n')] and back with [split('\n')] and a filter, which
    is [filter(Boolean)] in the admin dialog and [filter(item => item.trim())]
    in the edit form.  The field codecs are instances of the [Codec] class,
    whose law is the round trip the dialog relies on. *)

From Stdlib Require Import String Ascii List Bool NArith ZArith Lia.
From Stdlib Require Import Setoid Morphisms.
From S2P Require Import Prelude JsString JsNumber JsDecimal JsValue.
Import ListNotations.
Open Scope string_scope.

Module FormBinding.

Import JsNumber JsDecimal JsValue.

(** ** Data *)

(** A course of the admin table, as [response.data] gives it: [duration]
    is an integer number of hours, [price] a JSON number, [thumbnail],
    [curriculum] and [requirements] may be absent or [null]. *)
Record course := Course {
  id : Z;
  title : string;
  description : string;
  instructor : string;
  category : string;
  difficulty : string;
  duration : Z;
  price : num;
  thumbnail : option string;
  curriculum : option (list string);
  requirements : option (list string);
  active : bool
}.

(** The JSON object the backend sends for a course (§6 of the
    specification): an absent thumbnail or list is [null]. *)
Definition course_to_json (c : course) : jsval :=
  let opt {A} (f : A -> jsval) (o : option A) := match o with Some x => f x | None => JNull end in
  JObj [("id", JNum (num_of_Z (id c))); ("title", JStr (title c));
        ("description", JStr (description c)); ("instructor", JStr (instructor c));
        ("category", JStr (category c)); ("difficulty", JStr (difficulty c));
        ("duration", JNum (num_of_Z (duration c))); ("price", JNum (price c));
        ("thumbnail", opt JStr (thumbnail c));
        ("curriculum", opt (fun l => JArr (map JStr l)) (curriculum c));
        ("requirements", opt (fun l => JArr (map JStr l)) (requirements c));
        ("active", JBool (active c))].

(** [formData]: every field is the text of its input. *)
Record draft := Draft {
  d_title : string;
  d_description : string;
  d_instructor : string;
  d_category : string;
  d_difficulty : string;
  d_duration : string;
  d_price : string;
  d_thumbnail : string;
  d_curriculum : string;
  d_requirements : string
}.

(** [courseData] of [handleSubmit]: [None] for a number is NaN, which
    [JSON.stringify] sends as [null]. *)
Record payload := Payload {
  p_title : string;
  p_description : string;
  p_instructor : string;
  p_category : string;
  p_difficulty : string;
  p_duration : option Z;
  p_price : option fnum;
  p_thumbnail : string;
  p_curriculum : list string;
  p_requirements : list string
}.

(** ** The binding *)

Definition newline : string := String NL EmptyString.

(** The initial [formData] and the one [handleOpenDialog()] sets for a new
    course. *)
Definition empty_draft : draft :=
  {| d_title := ""; d_description := ""; d_instructor := ""; d_category := "";
     d_difficulty := "Beginner"; d_duration := ""; d_price := ""; d_thumbnail := "";
     d_curriculum := ""; d_requirements := "" |}.

(** [course.curriculum?.join('\n') || ''] *)
Definition join_lines (o : option (list string)) : string :=
  match option_map (JsString.join newline) o with
  | Some s => if JsString.truthy_str s then s else ""
  | None => ""
  end.

(** [course.thumbnail || ''] *)
Definition thumbnail_text (o : option string) : string :=
  match o with Some s => if JsString.truthy_str s then s else "" | None => "" end.

(** [handleOpenDialog(course)]: the draft of an existing course. *)
Definition toDraft (c : course) : draft :=
  {| d_title := title c; d_description := description c; d_instructor := instructor c;
     d_category := category c; d_difficulty := difficulty c;
     d_duration := num_toString (num_of_Z (duration c)); d_price := num_toString (price c);
     d_thumbnail := thumbnail_text (thumbnail c);
     d_curriculum := join_lines (curriculum c);
     d_requirements := join_lines (requirements c) |}.

(** [formData.curriculum.split('\n').filter(Boolean)] *)
Definition lines_of (s : string) : list string :=
  JsString.filter_truthy (JsString.split NL s).

(** [courseData.curriculum.split('\n').filter(item => item.trim())] *)
Definition nonblank_lines_of (s : string) : list string :=
  JsString.filter_nonblank (JsString.split NL s).

(** [handleSubmit]'s [courseData]: [{...formData, duration: parseInt(...),
    price: parseFloat(...), curriculum: ..., requirements: ...}]. *)
Definition fromDraft (d : draft) : payload :=
  {| p_title := d_title d; p_description := d_description d;
     p_instructor := d_instructor d; p_category := d_category d;
     p_difficulty := d_difficulty d;
     p_duration := parseInt (d_duration d); p_price := parseFloat (d_price d);
     p_thumbnail := d_thumbnail d;
     p_curriculum := lines_of (d_curriculum d);
     p_requirements := lines_of (d_requirements d) |}.

(** The inputs of the dialog, each bound to one field of [formData]. *)
Inductive draft_field :=
| FTitle | FDescription | FInstructor | FCategory | FDifficulty
| FDuration | FPrice | FThumbnail | FCurriculum | FRequirements.

(** [setFormData({ ...formData, <field>: e.target.value })]: the other
    fields are copied, the edited one replaced. *)
Definition set_draft_field (f : draft_field) (v : string) (d : draft) : draft :=
  {| d_title := if f is FTitle then v else d_title d;
     d_description := if f is FDescription then v else d_description d;
     d_instructor := if f is FInstructor then v else d_instructor d;
     d_category := if f is FCategory then v else d_category d;
     d_difficulty := if f is FDifficulty then v else d_difficulty d;
     d_duration := if f is FDuration then v else d_duration d;
     d_price := if f is FPrice then v else d_price d;
     d_thumbnail := if f is FThumbnail then v else d_thumbnail d;
     d_curriculum := if f is FCurriculum then v else d_curriculum d;
     d_requirements := if f is FRequirements then v else d_requirements d |}.

(** ** What a [type="number"] input reports

    The duration and price inputs are [type="number"]: the browser keeps
    their value only when it is a valid floating-point number of HTML
    ([-]? then digits, or digits [.] digits, or [.] digits, then an
    optional exponent [e]/[E], sign, digits) and reports [""] otherwise,
    so [e.target.value] is never text such as ["abc"]. *)

Definition dec_span (s : string) : string * string := span (is_radix_digit 10) s.

Definition nonempty (s : string) : bool := negb (String.eqb s "").

(** The optional exponent, up to the end of the text. *)
Definition valid_exponent (s : string) : bool :=
  match s with
  | EmptyString => true
  | String e r =>
      (Ascii.eqb e "e" || Ascii.eqb e "E") &&
      let r' := match r with
                | String c r2 => if Ascii.eqb c "+" || Ascii.eqb c "-" then r2 else r
                | EmptyString => r
                end in
      let (ds, rest) := dec_span r' in nonempty ds && String.eqb rest ""
  end.

Definition valid_float (s : string) : bool :=
  let s1 := match s with String c r => if Ascii.eqb c "-" then r else s | EmptyString => s end in
  let (int, r1) := dec_span s1 in
  match r1 with
  | String c r =>
      if Ascii.eqb c "."
      then let (frac, r2) := dec_span r in nonempty frac && valid_exponent r2
      else nonempty int && valid_exponent r1
  | EmptyString => nonempty int
  end.

(** [e.target.value] of the input of field [f] after the user types [v]. *)
Definition input_value (f : draft_field) (v : string) : string :=
  match f with
  | FDuration | FPrice => if valid_float v then v else ""
  | _ => v
  end.

(** ** Field codecs *)

(** A field kept as text in the draft: how a value is written, how text is
    read, which values survive, and when two values are the same. *)
Class Codec (A : Type) := {
  encode : A -> string;
  decode : string -> option A;
  survives : A -> Prop;
  same : A -> A -> Prop
}.

(** The law of a codec: a surviving value comes back, up to [same]. *)
Definition roundtrip_law (A : Type) `{Codec A} : Prop :=
  forall a, survives a -> exists b, decode (encode a) = Some b /\ same b a.

#[export] Instance duration_codec : Codec Z :=
  {| encode := fun z => num_toString (num_of_Z z); decode := parseInt;
     survives := fun z => (Z.abs z <= MAX_SAFE_INTEGER)%Z; same := eq |}.

Definition finite (v : option fnum) : option num :=
  match v with Some (FFin x) => Some x | _ => None end.

#[export] Instance price_codec : Codec num :=
  {| encode := num_toString; decode := fun s => finite (parseFloat s);
     survives := fun _ => True; same := num_eqv |}.

(** A list field survives when no entry is empty or holds a newline. *)
Definition line_ok (x : string) : Prop := x <> EmptyString /\ JsString.has_char NL x = false.

#[export] Instance lines_codec : Codec (list string) :=
  {| encode := JsString.join newline; decode := fun s => Some (lines_of s);
     survives := Forall line_ok; same := eq |}.

(** [x ?? []]: an absent list reads as the empty one. *)
Definition list_or_nil (o : option (list string)) : list string :=
  match o with Some l => l | None => [] end.

(** The payload carries the course back: the text fields as they were, the
    duration as the same integer, the price as an equal number, the
    thumbnail as the dialog showed it and the list fields entry for entry. *)
Definition carries (c : course) (p : payload) : Prop :=
  p_title p = title c /\ p_description p = description c /\
  p_instructor p = instructor c /\ p_category p = category c /\
  p_difficulty p = difficulty c /\ p_duration p = Some (duration c) /\
  (exists y, p_price p = Some (FFin y) /\ num_eqv y (price c)) /\
  p_thumbnail p = thumbnail_text (thumbnail c) /\
  p_curriculum p = list_or_nil (curriculum c) /\
  p_requirements p = list_or_nil (requirements c).

(** ** Lemmas *)

Lemma split_pieces (c : ascii) (s : string) :
  Forall (fun x => JsString.has_char c x = false) (JsString.split c s).
Proof.
  induction s as [|a s IH]; simpl; [repeat constructor|].
  destruct (Ascii.eqb a c) eqn:Ea; [constructor; [reflexivity|exact IH]|].
  destruct (JsString.split c s) as [|x xs].
  - constructor; [simpl; rewrite Ea; reflexivity|constructor].
  - inversion IH as [|? ? Hx Hxs]. constructor; [simpl; rewrite Ea; exact Hx|exact Hxs].
Qed.

Lemma join_or_empty (l : list string) : join_lines (Some l) = JsString.join newline l.
Proof. unfold join_lines. simpl. destruct (JsString.join newline l); reflexivity. Qed.

Lemma lines_of_ok (s : string) : Forall line_ok (lines_of s).
Proof.
  unfold lines_of, JsString.filter_truthy.
  apply Forall_forall. intros x Hx. apply filter_In in Hx as [Hin Ht].
  pose proof (proj1 (Forall_forall _ _) (split_pieces NL s) x Hin).
  split; [intros ->; discriminate|assumption].
Qed.

Lemma lines_of_join (l : list string) :
  Forall line_ok l -> lines_of (JsString.join newline l) = l.
Proof.
  intros Hl. destruct l as [|x l]; [reflexivity|]. unfold lines_of, newline.
  rewrite JsString.split_join by
    (discriminate || (eapply Forall_impl; [|exact Hl]; intros y [_ Hy]; exact Hy)).
  apply filter_all_true. eapply Forall_impl; [|exact Hl].
  intros [|a y] [Hy _]; [congruence|reflexivity].
Qed.

Lemma nonblank_lines_of_ok (s : string) :
  Forall (fun x => JsString.truthy_str (JsString.trim x) = true /\
                   JsString.has_char NL x = false) (nonblank_lines_of s).
Proof.
  unfold nonblank_lines_of, JsString.filter_nonblank.
  apply Forall_forall. intros x Hx. apply filter_In in Hx as [Hin Ht].
  exact (conj Ht (proj1 (Forall_forall _ _) (split_pieces NL s) x Hin)).
Qed.

Lemma nonblank_lines_of_join (l : list string) :
  Forall (fun x => JsString.truthy_str (JsString.trim x) = true /\
                   JsString.has_char NL x = false) l ->
  nonblank_lines_of (JsString.join newline l) = l.
Proof.
  intros Hl. destruct l as [|x l]; [reflexivity|]. unfold nonblank_lines_of, newline.
  rewrite JsString.split_join by
    (discriminate || (eapply Forall_impl; [|exact Hl]; intros y [_ Hy]; exact Hy)).
  apply filter_all_true. eapply Forall_impl; [|exact Hl]. intros y [Hy _]; exact Hy.
Qed.

Lemma duration_codec_law : roundtrip_law Z.
Proof.
  intros z Hz. exists z. split; [|reflexivity].
  apply parseInt_toString. cbv [survives duration_codec MAX_SAFE_INTEGER] in Hz.
  change (10 ^ 21)%Z with 1000000000000000000000%Z. lia.
Qed.

Lemma price_codec_law : roundtrip_law num.
Proof.
  intros x _. destruct (parseFloat_num_toString x) as (y & Hy & Hxy).
  exists y. simpl. rewrite Hy. split; [reflexivity|exact Hxy].
Qed.

Lemma lines_codec_law : roundtrip_law (list string).
Proof. intros l Hl. exists l. split; [simpl; f_equal; apply lines_of_join, Hl|reflexivity]. Qed.

(** ** Properties *)

(** C3. Opening a course in the dialog and submitting it unchanged sends
    the course back: the text fields unchanged, [parseInt] of the duration's
    [toString] is the duration, [parseFloat] of the price's text is the
    price, and each list field is the course's list (an absent one becomes
    [[]]), provided the duration is a safe integer (what a JSON number
    holds exactly; from [10^21] on [toString] writes [1e+21] and
    [parseInt] reads [1]) and no list entry is empty or contains a
    newline. *)
Theorem fromDraft_toDraft (c : course)
    (Hdur : (Z.abs (duration c) <= MAX_SAFE_INTEGER)%Z)
    (Hcur : Forall line_ok (list_or_nil (curriculum c)))
    (Hreq : Forall line_ok (list_or_nil (requirements c))) :
  carries c (fromDraft (toDraft c)).
Proof.
  assert (Hl : forall o, Forall line_ok (list_or_nil o) ->
                 lines_of (join_lines o) = list_or_nil o).
  { intros [l|] H; [rewrite join_or_empty; apply lines_of_join, H|reflexivity]. }
  assert (Hd : parseInt (num_toString (num_of_Z (duration c))) = Some (duration c)).
  { apply parseInt_toString. unfold MAX_SAFE_INTEGER in Hdur.
    change (10 ^ 21)%Z with 1000000000000000000000%Z. lia. }
  destruct (parseFloat_num_toString (price c)) as (y & Hy & Hxy).
  repeat split; simpl; auto. exists y. split; [exact Hy|exact Hxy].
Qed.

Lemma fromDraft_toDraft_witness :
  (Z.abs 12 <= MAX_SAFE_INTEGER)%Z /\ Forall line_ok ["Intro"; "Basics"] /\ Forall line_ok [] /\
  carries (Course 7 "React" "Hooks" "Ana" "Web" "Beginner" 12 (Num 4999 (-2)) None
             (Some ["Intro"; "Basics"]) None true)
          (fromDraft (toDraft (Course 7 "React" "Hooks" "Ana" "Web" "Beginner" 12
             (Num 4999 (-2)) None (Some ["Intro"; "Basics"]) None true))).
Proof.
  assert (H : Forall line_ok ["Intro"; "Basics"])
    by (repeat constructor; simpl; discriminate || reflexivity).
  assert (Hd : (Z.abs 12 <= MAX_SAFE_INTEGER)%Z) by (vm_compute; discriminate).
  split; [exact Hd|]. split; [exact H|]. split; [constructor|].
  apply fromDraft_toDraft; [exact Hd|exact H|constructor].
Defined.

(** C34. The admin dialog's list fields ([split('\n').filter(Boolean)])
    give back exactly the lists whose entries are non-empty and free of
    newlines: such a list survives [join('\n')] and the split, and any other
    list is changed by it. *)
Theorem lines_roundtrip_iff (l : list string) :
  lines_of (JsString.join newline l) = l <-> Forall line_ok l.
Proof.
  split; [intros H; rewrite <- H; apply lines_of_ok|apply lines_of_join].
Qed.

(** C35. The edit form's list fields ([split('\n').filter(item =>
    item.trim())]) give back exactly the lists whose entries are not blank
    and free of newlines; kept entries are not trimmed. *)
Theorem nonblank_roundtrip_iff (l : list string) :
  nonblank_lines_of (JsString.join newline l) = l <->
  Forall (fun x => JsString.truthy_str (JsString.trim x) = true /\
                   JsString.has_char NL x = false) l.
Proof.
  split; [intros H; rewrite <- H; apply nonblank_lines_of_ok|apply nonblank_lines_of_join].
Qed.

End FormBinding.
