(* ===== verification/DialogSpec.v ===== *)
(** * The edit dialog and mutation contract of the specification (§4.3, §4.4)

    The specification's state machine of the edit dialog: [Closed], then
    [OpenCreate] with the empty draft or [OpenEdit(id)] with the draft of
    the course; edits change the draft; a submit whose numbers do not parse
    is rejected at the field, with no network call; a submit that parses
    goes to [Submitting], which ends in [Closed] on success and back in the
    open dialog, draft intact and the error surfaced, on failure.  This
    models the specification, not a source file; the admin page's dialog is
    compared with it in [AdminDialog]. *)

From Stdlib Require Import String List Bool ZArith.
From S2P Require Import Prelude FormBinding.
Import ListNotations.

Module DialogSpec.

Import FormBinding.

(** What the dialog edits: a new course, or the course with id [cid]. *)
Inductive mode := MCreate | MEdit (cid : Z).

(** The dialog; [surfaced] says whether an error is shown at the dialog. *)
Inductive dialog :=
| Closed
| Open (m : mode) (d : draft) (surfaced : bool)
| Submitting (m : mode) (d : draft).

(** [fromDraft] succeeds: the duration and the price parse as numbers
    (§4.4: a [NaN] is a [ValidationError]). *)
Definition parses (d : draft) : bool :=
  match p_duration (fromDraft d), p_price (fromDraft d) with
  | Some _, Some _ => true
  | _, _ => false
  end.

(** What happens to the dialog: the user opens it on a course or on a new
    one, edits a field, cancels, submits; the write succeeds or fails. *)
Inductive action :=
| AOpen (c : option course)
| AEdit (f : draft_field) (v : string)
| ACancel
| ASubmit
| ASucceed
| AFail.

Inductive dstep : dialog -> action -> dialog -> Prop :=
| DOpenCreate : dstep Closed (AOpen None) (Open MCreate empty_draft false)
| DOpenEdit (c : course) : dstep Closed (AOpen (Some c)) (Open (MEdit (id c)) (toDraft c) false)
| DEdit (m : mode) (d : draft) (e : bool) (f : draft_field) (v : string) :
    dstep (Open m d e) (AEdit f v) (Open m (set_draft_field f v d) e)
| DCancel (m : mode) (d : draft) (e : bool) : dstep (Open m d e) ACancel Closed
| DReject (m : mode) (d : draft) (e : bool) :
    parses d = false -> dstep (Open m d e) ASubmit (Open m d true)
| DSubmit (m : mode) (d : draft) (e : bool) :
    parses d = true -> dstep (Open m d e) ASubmit (Submitting m d)
| DSucceed (m : mode) (d : draft) : dstep (Submitting m d) ASucceed Closed
| DFail (m : mode) (d : draft) : dstep (Submitting m d) AFail (Open m d true).

(** The contract is deterministic: a dialog and an action fix the next
    dialog. *)
Lemma dstep_deterministic (x : dialog) (a : action) (y z : dialog) :
  dstep x a y -> dstep x a z -> y = z.
Proof. intros H1 H2. inversion H1; subst; inversion H2; subst; congruence. Qed.

End DialogSpec.
