(* ===== verification/AdminCourses.v ===== *)
(** * The admin course table and its dialog ([src/src/pages/AdminCourses.jsx])

    The [AdminCourses] component lists the courses of [/api/admin/courses]
    and creates, updates and deletes them through a dialog.  Its state
    ([courses], [loading], [error], [showDialog], [editingCourse],
    [formData]) is the record [astate]; each handler is a function on it,
    cut at its [await]: the part before issues a request, the part after
    runs when that request's response arrives, in any order.  The page only
    shows its table, buttons and dialog once [loading] is false, and the
    dialog's inputs only while it is open; these are the guards of the
    step function.  As in [Catalog], the requests in flight are a ghost
    field of the model. *)

From Stdlib Require Import String Ascii List Bool ZArith Lia.
From S2P Require Import Prelude JsArray JsString JsNumber JsDecimal JsValue Fetcher FormBinding.
Import ListNotations.
Open Scope string_scope.

Module AdminCourses.

Import JsNumber JsValue Fetcher FormBinding JsArray.

(** ** State *)

(** A request in flight, with the code that runs after its [await]. *)
Inductive request :=
| ReqList                              (** [api.get('/api/admin/courses')] in [fetchCourses] *)
| ReqCreate (body : payload)           (** [api.post('/api/admin/courses', courseData)] *)
| ReqUpdate (cid : Z) (body : payload) (** [api.put(`/api/admin/courses/${id}`, courseData)] *)
| ReqDelete (cid : Z).                 (** [api.delete(`/api/admin/courses/${id}`)] *)

Definition base_url : string := "/api/admin/courses".

(** The URL each request is sent to. *)
Definition request_url (q : request) : string :=
  match q with
  | ReqList | ReqCreate _ => base_url
  | ReqUpdate cid _ | ReqDelete cid => base_url ++ "/" ++ Z_to_string cid
  end.

Record astate := AState {
  courses : jsval;               (** [useState([])] *)
  loading : bool;                (** [useState(true)] *)
  error : string;                (** [useState('')] *)
  showDialog : bool;             (** [useState(false)] *)
  editingCourse : option course; (** [useState(null)] *)
  formData : draft;              (** [useState({... difficulty: 'Beginner' ...})] *)
  mounted : bool;
  inflight : list request
}.

Definition initial : astate :=
  {| courses := JArr []; loading := true; error := ""; showDialog := false;
     editingCourse := None; formData := empty_draft; mounted := false; inflight := [] |}.

(** ** The setters *)

Definition setCourses (v : jsval) (s : astate) : astate :=
  {| courses := v; loading := loading s; error := error s; showDialog := showDialog s;
     editingCourse := editingCourse s; formData := formData s; mounted := mounted s;
     inflight := inflight s |}.

Definition setLoading (b : bool) (s : astate) : astate :=
  {| courses := courses s; loading := b; error := error s; showDialog := showDialog s;
     editingCourse := editingCourse s; formData := formData s; mounted := mounted s;
     inflight := inflight s |}.

Definition setError (m : string) (s : astate) : astate :=
  {| courses := courses s; loading := loading s; error := m; showDialog := showDialog s;
     editingCourse := editingCourse s; formData := formData s; mounted := mounted s;
     inflight := inflight s |}.

Definition setShowDialog (b : bool) (s : astate) : astate :=
  {| courses := courses s; loading := loading s; error := error s; showDialog := b;
     editingCourse := editingCourse s; formData := formData s; mounted := mounted s;
     inflight := inflight s |}.

Definition setEditingCourse (c : option course) (s : astate) : astate :=
  {| courses := courses s; loading := loading s; error := error s; showDialog := showDialog s;
     editingCourse := c; formData := formData s; mounted := mounted s;
     inflight := inflight s |}.

Definition setFormData (d : draft) (s : astate) : astate :=
  {| courses := courses s; loading := loading s; error := error s; showDialog := showDialog s;
     editingCourse := editingCourse s; formData := d; mounted := mounted s;
     inflight := inflight s |}.

Definition with_mounted (s : astate) : astate :=
  {| courses := courses s; loading := loading s; error := error s; showDialog := showDialog s;
     editingCourse := editingCourse s; formData := formData s; mounted := true;
     inflight := inflight s |}.

Definition issue (q : request) (s : astate) : astate :=
  {| courses := courses s; loading := loading s; error := error s; showDialog := showDialog s;
     editingCourse := editingCourse s; formData := formData s; mounted := mounted s;
     inflight := inflight s ++ [q] |}.

Definition settle (i : nat) (s : astate) : astate :=
  {| courses := courses s; loading := loading s; error := error s; showDialog := showDialog s;
     editingCourse := editingCourse s; formData := formData s; mounted := mounted s;
     inflight := remove_at i (inflight s) |}.

(** ** The handlers *)

Definition load_error : string := "Failed to load courses.".

(** [fetchCourses] up to its [await]: only the request; [loading] is not
    set again. *)
Definition fetchCourses (s : astate) : astate := issue ReqList s.

(** [fetchCourses] after its [await]: [setCourses(response.data)] and
    [setError('')], or [setError('Failed to load courses.')]; the [finally]
    block clears [loading] in both cases. *)
Definition listSettled (r : http_response) (s : astate) : astate :=
  match r with
  | HttpOk data => setLoading false (setError "" (setCourses data s))
  | HttpFail _ => setLoading false (setError load_error s)
  end.

(** [handleOpenDialog(course)] and [handleOpenDialog()]. *)
Definition handleOpenDialog (c : option course) (s : astate) : astate :=
  match c with
  | Some c => setShowDialog true (setFormData (toDraft c) (setEditingCourse (Some c) s))
  | None => setShowDialog true (setFormData empty_draft (setEditingCourse None s))
  end.

(** [handleCloseDialog]. *)
Definition handleCloseDialog (s : astate) : astate :=
  setEditingCourse None (setShowDialog false s).

(** [handleSubmit] up to its [await]: the payload of the current draft,
    sent with [put] to the edited course or with [post]; nothing checks
    that the numbers parsed. *)
Definition submit_request (s : astate) : request :=
  match editingCourse s with
  | Some c => ReqUpdate (id c) (fromDraft (formData s))
  | None => ReqCreate (fromDraft (formData s))
  end.

Definition handleSubmit (s : astate) : astate := issue (submit_request s) s.

(** [handleSubmit] after its [await]: [handleCloseDialog()] and
    [fetchCourses()], or a log line. *)
Definition saveSettled (r : http_response) (s : astate) : astate :=
  match r with
  | HttpOk _ => fetchCourses (handleCloseDialog s)
  | HttpFail _ => s
  end.

(** [handleDelete(id)] up to its [await]: nothing unless the user confirms. *)
Definition handleDelete (cid : Z) (confirmed : bool) (s : astate) : astate :=
  if confirmed then issue (ReqDelete cid) s else s.

(** [handleDelete] after its [await]: [fetchCourses()], or a log line. *)
Definition deleteSettled (r : http_response) (s : astate) : astate :=
  match r with
  | HttpOk _ => fetchCourses s
  | HttpFail _ => s
  end.

(** ** The render *)

Definition placeholder : string := "https://via.placeholder.com/50x30".

(** [getDifficultyColor(difficulty)]: a [switch], so strict equality with
    the three literals. *)
Definition getDifficultyColor (difficulty : jsval) : string :=
  if is_str difficulty "Beginner" then "success"
  else if is_str difficulty "Intermediate" then "warning"
  else if is_str difficulty "Advanced" then "error"
  else "default".

(** What one [TableRow] shows. *)
Record row := Row {
  row_image : jsval;
  row_alt : jsval;
  row_title : string;
  row_caption : string;
  row_instructor : string;
  row_category : string;
  row_difficulty : string;
  row_difficulty_color : string;
  row_duration : string;
  row_price : string;
  row_status : string;
  row_status_color : string
}.

(** [course.description.substring(0, 50)]: a [TypeError] unless the
    description is a string. *)
Definition substring50 (v : jsval) : option string :=
  match v with JStr d => Some (substring 0 50 d) | _ => None end.

(** The body of [courses.map((course) => <TableRow ...>)]. *)
Definition table_row (c : jsval) : option row :=
  let* thumbnail := get_prop c "thumbnail" in
  let* title := get_prop c "title" in
  let* title_t := react_text title in
  let* description := get_prop c "description" in
  let* caption := substring50 description in
  let* instructor := get_prop c "instructor" in
  let* instructor_t := react_text instructor in
  let* category := get_prop c "category" in
  let* category_t := react_text category in
  let* difficulty := get_prop c "difficulty" in
  let* difficulty_t := react_text difficulty in
  let* duration := get_prop c "duration" in
  let* duration_t := react_text duration in
  let* price := get_prop c "price" in
  let* price_t := react_text price in
  let* active := get_prop c "active" in
  Some {| row_image := js_or thumbnail (JStr placeholder); row_alt := title;
          row_title := title_t; row_caption := caption ++ "...";
          row_instructor := instructor_t; row_category := category_t;
          row_difficulty := difficulty_t; row_difficulty_color := getDifficultyColor difficulty;
          row_duration := duration_t ++ " hrs"; row_price := "$" ++ price_t;
          row_status := if truthy active then "Active" else "Inactive";
          row_status_color := if truthy active then "success" else "default" |}.

(** [courses.map(...)]: only an array has [map]; any other value throws. *)
Definition table_rows (courses : jsval) : option (list row) :=
  match courses with
  | JArr items => map_opt table_row items
  | _ => None
  end.

(** The open dialog: its title, its inputs' values and its submit label. *)
Record dialog_view := DialogView {
  dialog_title : string;
  dialog_fields : draft;
  dialog_submit : string
}.

Definition dialog_of (s : astate) : dialog_view :=
  match editingCourse s with
  | Some _ => DialogView "Edit Course" (formData s) "Update Course"
  | None => DialogView "Add New Course" (formData s) "Create Course"
  end.

Inductive page_view :=
| Spinner
| Page (alert : option string) (rows : list row) (dialog : option dialog_view).

(** The component's return value; [None] is a render that throws, after
    which React unmounts the page. *)
Definition view (s : astate) : option page_view :=
  if loading s then Some Spinner
  else
    let* rows := table_rows (courses s) in
    Some (Page (if JsString.truthy_str (error s) then Some (error s) else None) rows
               (if showDialog s then Some (dialog_of s) else None)).

(** The table, its buttons and the dialog exist: the page has mounted,
    loaded, and its render did not throw. *)
Definition ready (s : astate) : bool :=
  mounted s && negb (loading s) && match view s with Some _ => true | None => false end.

(** What happens to the page: the mount, the buttons of the table, the
    dialog's inputs and buttons, [window.confirm]'s answer with the delete
    button, and the arrival of a response. *)
Inductive event :=
| Mount
| OpenDialog (c : option course)
| CloseDialog
| EditField (f : draft_field) (v : string)
| Submit
| Delete (cid : Z) (confirmed : bool)
| Respond (i : nat) (r : http_response).

(** The Edit button of a row calls [handleOpenDialog(course)] with that
    row's object: a course can be opened only when the table shows it. *)
Definition in_table (c : course) (s : astate) : bool :=
  match courses s with JArr l => existsb (jsval_eqb (course_to_json c)) l | _ => false end.

Definition can_open (c : option course) (s : astate) : bool :=
  match c with Some c => in_table c s | None => true end.

Definition respond (i : nat) (r : http_response) (s : astate) : option astate :=
  match nth_error (inflight s) i with
  | None => None
  | Some ReqList => Some (listSettled r (settle i s))
  | Some (ReqCreate _) | Some (ReqUpdate _ _) => Some (saveSettled r (settle i s))
  | Some (ReqDelete _) => Some (deleteSettled r (settle i s))
  end.

(** The component.  The table and the "Add Course" button are covered by
    the modal dialog while it is open; the dialog's inputs and buttons
    exist only while it is open. *)
Definition step (s : astate) (e : event) : option astate :=
  match e with
  | Mount => if mounted s then None else Some (fetchCourses (with_mounted s))
  | OpenDialog c =>
      if ready s && negb (showDialog s) && can_open c s then Some (handleOpenDialog c s)
      else None
  | CloseDialog => if ready s && showDialog s then Some (handleCloseDialog s) else None
  | EditField f v =>
      if ready s && showDialog s
      then Some (setFormData (set_draft_field f (input_value f v) (formData s)) s)
      else None
  | Submit => if ready s && showDialog s then Some (handleSubmit s) else None
  | Delete cid ok =>
      if ready s && negb (showDialog s) then Some (handleDelete cid ok s) else None
  | Respond i r => respond i r s
  end.

(** ** Invariants *)

(** A closed dialog edits no course. *)
Definition dialog_ok (s : astate) : Prop := showDialog s = false -> editingCourse s = None.

(** While the spinner shows, the only request in flight is the first list
    request, or the page has not mounted yet and nothing is in flight. *)
Definition loading_ok (s : astate) : Prop :=
  loading s = true ->
  (mounted s = false /\ inflight s = []) \/ (mounted s = true /\ inflight s = [ReqList]).

Definition inv (s : astate) : Prop := dialog_ok s /\ loading_ok s.

Lemma ready_loaded (s : astate) : ready s = true -> loading s = false.
Proof. unfold ready. destruct (mounted s), (loading s); simpl; congruence. Qed.

Lemma ready_renders (s : astate) : ready s = true -> exists v, view s = Some v.
Proof.
  unfold ready. destruct (view s); [eauto|]. rewrite andb_false_r. discriminate.
Qed.

Lemma ready_guard (s : astate) (b : bool) : ready s && b = true -> loading s = false /\ b = true.
Proof. intros H. apply andb_true_iff in H as [H1 H2]. exact (conj (ready_loaded s H1) H2). Qed.

Lemma inv_idle (t : astate) :
  loading t = false -> (showDialog t = false -> editingCourse t = None) -> inv t.
Proof. intros Hl Hd. split; [exact Hd|congruence]. Qed.

Lemma respond_inv (i : nat) (r : http_response) (s s' : astate) :
  inv s -> respond i r s = Some s' -> inv s'.
Proof.
  intros [Hd Hl] Hs. unfold respond in Hs.
  destruct (nth_error (inflight s) i) as [q|] eqn:Hq; [|discriminate].
  assert (Hq' : loading s = true -> q = ReqList).
  { intros HL. destruct (Hl HL) as [[_ Hi]|[_ Hi]]; rewrite Hi in Hq;
      destruct i as [|[|]]; simpl in Hq; congruence. }
  destruct q as [| | |]; injection Hs as <-.
  - destruct r; apply inv_idle; try reflexivity; exact Hd.
  - destruct (loading s) eqn:HL; [discriminate (Hq' eq_refl)|].
    destruct r; apply inv_idle; try exact HL; try exact Hd; intros; reflexivity.
  - destruct (loading s) eqn:HL; [discriminate (Hq' eq_refl)|].
    destruct r; apply inv_idle; try exact HL; try exact Hd; intros; reflexivity.
  - destruct (loading s) eqn:HL; [discriminate (Hq' eq_refl)|].
    destruct r; apply inv_idle; try exact HL; exact Hd.
Qed.

Lemma step_inv (s : astate) (e : event) (s' : astate) :
  inv s -> step s e = Some s' -> inv s'.
Proof.
  intros Hinv Hs. destruct Hinv as [Hd Hl]. destruct e; simpl in Hs.
  - destruct (mounted s) eqn:Hm; inv Hs. split; [exact Hd|].
    intros HL. simpl in HL |- *. destruct (Hl HL) as [[_ Hi]|[Hm' _]];
      [rewrite Hi; right; split; reflexivity|congruence].
  - destruct (ready s && negb (showDialog s) && can_open c s) eqn:G; inv Hs.
    apply andb_true_iff in G as [G _]. apply ready_guard in G as [HL _].
    destruct c; apply inv_idle; first [exact HL|discriminate].
  - destruct (ready s && showDialog s) eqn:G; inv Hs.
    apply ready_guard in G as [HL _]. apply inv_idle; [exact HL|reflexivity].
  - destruct (ready s && showDialog s) eqn:G; inv Hs.
    apply ready_guard in G as [HL HS]. apply inv_idle; [exact HL|simpl; congruence].
  - destruct (ready s && showDialog s) eqn:G; inv Hs.
    apply ready_guard in G as [HL HS]. apply inv_idle; [exact HL|simpl; congruence].
  - destruct (ready s && negb (showDialog s)) eqn:G; inv Hs.
    apply ready_guard in G as [HL _]. unfold handleDelete.
    destruct confirmed; apply inv_idle; assumption.
  - eapply respond_inv; [split; eassumption|exact Hs].
Qed.

Lemma initial_inv : inv initial.
Proof. split; intros _; [reflexivity|left; split; reflexivity]. Qed.

Lemma reachable_inv (es : list event) (s : astate) : run step initial es = Some s -> inv s.
Proof. intros H. exact (run_invariant step inv step_inv es initial s initial_inv H). Qed.

(** The body a request sends. *)
Definition body_of (q : request) : option payload :=
  match q with ReqCreate b | ReqUpdate _ b => Some b | _ => None end.

Lemma respond_at (i : nat) (q : request) (r : http_response) (s : astate) :
  nth_error (inflight s) i = Some q ->
  respond i r s = Some (match q with
                        | ReqList => listSettled r (settle i s)
                        | ReqCreate _ | ReqUpdate _ _ => saveSettled r (settle i s)
                        | ReqDelete _ => deleteSettled r (settle i s)
                        end).
Proof. intros Hq. unfold respond. rewrite Hq. destruct q; reflexivity. Qed.

Lemma is_save_settled (i : nat) (q : request) (r : http_response) (s : astate) :
  nth_error (inflight s) i = Some q -> body_of q <> None ->
  respond i r s = Some (saveSettled r (settle i s)).
Proof.
  intros Hq Hb. rewrite (respond_at i q r s Hq). destruct q; simpl in Hb; congruence.
Qed.

(** ** Sample runs *)

Definition sample_course (k : Z) (t : string) : course :=
  Course k t "Basics of the web" "Ana" "Web" "Beginner" 10 (Num 4999 (-2)) None
         (Some ["Intro"; "Basics"]) None true.

(** The page loads an empty list. *)
Definition loaded : list event := [Mount; Respond 0 (HttpOk (JArr []))].

(** The page loads courses 1 and 2; the admin saves course 1, closes the
    dialog before the answer, and opens course 2. *)
Definition edit_two : list event :=
  [Mount; Respond 0 (HttpOk (JArr [course_to_json (sample_course 1 "A");
                                   course_to_json (sample_course 2 "B")]));
   OpenDialog (Some (sample_course 1 "A")); Submit; CloseDialog;
   OpenDialog (Some (sample_course 2 "B"))].

(** A course as the list endpoint sends it, without a thumbnail. *)
Definition course_json (k : Z) : jsval :=
  JObj [("id", JNum (num_of_Z k)); ("title", JStr "React"); ("description", JStr "Hooks");
        ("instructor", JStr "Ana"); ("category", JStr "Web"); ("difficulty", JStr "Beginner");
        ("duration", JNum (num_of_Z 10)); ("price", JNum (Num 4999 (-2)));
        ("active", JBool true)].

(** Courses 5 and 6 are deleted; each success refreshes the list; the
    refresh issued after the first deletion answers last. *)
Definition two_deletes : list event :=
  [Mount; Respond 0 (HttpOk (JArr [course_json 5; course_json 6; course_json 7]));
   Delete 5 true; Delete 6 true;
   Respond 0 (HttpOk JNull); Respond 0 (HttpOk JNull);
   Respond 1 (HttpOk (JArr [course_json 7]));
   Respond 0 (HttpOk (JArr [course_json 6; course_json 7]))].

(** A reachable state, computed. *)
Ltac reach H := vm_compute in H; injection H as <-.

(** ** Properties *)

(** C37. In every reachable state of the admin page, a closed dialog edits
    no course: [showDialog] false implies [editingCourse] is [null]. *)
Theorem closed_dialog_edits_nothing (es : list event) (s : astate) :
  run step initial es = Some s -> showDialog s = false -> editingCourse s = None.
Proof. intros H. exact (proj1 (reachable_inv es s H)). Qed.

Lemma closed_dialog_edits_nothing_witness :
  exists s, run step initial (edit_two ++ [Respond 0 (HttpOk JNull)]) = Some s /\
            editingCourse s = None.
Proof.
  destruct (run step initial (edit_two ++ [Respond 0 (HttpOk JNull)])) as [s|] eqn:Hrun;
    [|vm_compute in Hrun; discriminate].
  exists s. split; [reflexivity|].
  apply (closed_dialog_edits_nothing _ s Hrun). reach Hrun. reflexivity.
Defined.


(** C26. The spinner ends: in a reachable state of the mounted page that
    still shows it, the first list request is the one in flight, and its
    response, success or failure, clears [loading]. *)
Theorem spinner_cleared_by_first_response (es : list event) (s : astate) (r : http_response) :
  run step initial es = Some s -> mounted s = true -> loading s = true ->
  exists s', step s (Respond 0 r) = Some s' /\ loading s' = false.
Proof.
  intros Hrun Hm HL. destruct (proj2 (reachable_inv es s Hrun) HL) as [[Hm' _]|[_ Hi]];
    [congruence|].
  exists (listSettled r (settle 0 s)). split.
  - simpl. unfold respond. rewrite Hi. reflexivity.
  - destruct r; reflexivity.
Qed.

Lemma spinner_cleared_by_first_response_witness :
  exists s s', run step initial [Mount] = Some s /\
               step s (Respond 0 (HttpFail Network)) = Some s' /\ loading s' = false.
Proof.
  destruct (run step initial [Mount]) as [s|] eqn:Hrun; [|discriminate].
  destruct (spinner_cleared_by_first_response [Mount] s (HttpFail Network) Hrun)
    as (s' & H1 & H2); [reach Hrun; reflexivity|reach Hrun; reflexivity|].
  exists s, s'. repeat split; assumption.
Defined.


(** C11. Submitting the dialog sends the draft as it is: whatever the
    duration's text, the page issues the [put] (editing) or [post]
    (creating) with [fromDraft] of the draft, so a duration that does not
    parse is sent as NaN ([null] in the JSON body) and no validation error
    is raised.  The number input lets through text such as [".5"] or an
    empty field, which [parseInt] does not read, and the Save button is
    outside the [form], so the browser's [required] check does not run. *)
Theorem submit_sends_unparsed (s : astate) :
  ready s && showDialog s = true ->
  parseInt (d_duration (formData s)) = None ->
  exists s' q, step s Submit = Some s' /\ inflight s' = (inflight s ++ [q])%list /\
    body_of q = Some (fromDraft (formData s)) /\
    request_url q = match editingCourse s with
                    | Some c => base_url ++ "/" ++ Z_to_string (id c)
                    | None => base_url
                    end /\
    option_map p_duration (body_of q) = Some None.
Proof.
  intros G Hnan. exists (handleSubmit s), (submit_request s). simpl. rewrite G.
  unfold submit_request. destruct (editingCourse s) as [c|]; simpl; rewrite ?Hnan;
    repeat split; reflexivity.
Qed.

Lemma submit_sends_unparsed_witness :
  exists s s' q, run step initial (loaded ++ [OpenDialog None; EditField FDuration ".5"]) = Some s /\
    step s Submit = Some s' /\ inflight s' = [q] /\ option_map p_duration (body_of q) = Some None.
Proof.
  destruct (run step initial (loaded ++ [OpenDialog None; EditField FDuration ".5"]))
    as [s|] eqn:Hrun; [|vm_compute in Hrun; discriminate].
  destruct (submit_sends_unparsed s) as (s' & q & H1 & H2 & _ & _ & H5);
    [reach Hrun; reflexivity|reach Hrun; reflexivity|].
  exists s, s', q. split; [reflexivity|]. split; [exact H1|]. split; [|exact H5].
  rewrite H2. reach Hrun. reflexivity.
Defined.


(** C13. A save that succeeds closes the dialog and refreshes the list,
    whichever dialog is open when its response arrives: the dialog is
    closed, [editingCourse] cleared, and a list request issued. *)
Theorem save_success_closes_dialog (s : astate) (i : nat) (q : request) (d : jsval) :
  nth_error (inflight s) i = Some q -> body_of q <> None ->
  exists s', respond i (HttpOk d) s = Some s' /\
    showDialog s' = false /\ editingCourse s' = None /\ formData s' = formData s /\
    inflight s' = (remove_at i (inflight s) ++ [ReqList])%list.
Proof.
  intros Hq Hb. rewrite (is_save_settled i q _ s Hq Hb).
  eexists; split; [reflexivity|]. repeat split.
Qed.

Lemma save_success_closes_dialog_witness :
  exists s s', run step initial edit_two = Some s /\
    editingCourse s = Some (sample_course 2 "B") /\
    respond 0 (HttpOk JNull) s = Some s' /\ showDialog s' = false.
Proof.
  destruct (run step initial edit_two) as [s|] eqn:Hrun; [|vm_compute in Hrun; discriminate].
  destruct (save_success_closes_dialog s 0
              (ReqUpdate 1 (fromDraft (toDraft (sample_course 1 "A")))) JNull)
    as (s' & H1 & H2 & _); [reach Hrun; reflexivity|discriminate|].
  exists s, s'. split; [reflexivity|]. split; [reach Hrun; reflexivity|]. split; assumption.
Defined.


(** C12. A save that fails changes nothing the user sees: the dialog stays
    open on the same draft, and no error message is set (the error goes to
    the console only). *)
Theorem save_failure_surfaces_nothing (s : astate) (i : nat) (q : request) (e : http_error) :
  nth_error (inflight s) i = Some q -> body_of q <> None ->
  respond i (HttpFail e) s = Some (settle i s) /\
  showDialog (settle i s) = showDialog s /\ formData (settle i s) = formData s /\
  editingCourse (settle i s) = editingCourse s /\ error (settle i s) = error s.
Proof.
  intros Hq Hb. rewrite (is_save_settled i q _ s Hq Hb). repeat split.
Qed.

Lemma save_failure_surfaces_nothing_witness :
  exists s, run step initial (loaded ++ [OpenDialog None; Submit]) = Some s /\
    respond 0 (HttpFail (ServerStatus 500)) s = Some (settle 0 s) /\
    showDialog (settle 0 s) = true /\ error (settle 0 s) = "".
Proof.
  destruct (run step initial (loaded ++ [OpenDialog None; Submit])) as [s|] eqn:Hrun;
    [|vm_compute in Hrun; discriminate].
  destruct (save_failure_surfaces_nothing s 0 (ReqCreate (fromDraft empty_draft))
              (ServerStatus 500)) as (H1 & H2 & _ & _ & H5);
    [reach Hrun; reflexivity|discriminate|].
  exists s. split; [reflexivity|]. split; [exact H1|].
  rewrite H2, H5. reach Hrun. split; reflexivity.
Defined.


(** C36. Deleting asks first: without confirmation nothing happens; with
    it, a [delete] of [/api/admin/courses/<id>] is issued, whose success
    issues a list refresh and whose failure changes nothing. *)
Theorem delete_flow (s : astate) (cid : Z) :
  ready s && negb (showDialog s) = true ->
  step s (Delete cid false) = Some s /\
  step s (Delete cid true) = Some (issue (ReqDelete cid) s) /\
  request_url (ReqDelete cid) = base_url ++ "/" ++ Z_to_string cid /\
  (forall d, respond (length (inflight s)) (HttpOk d) (issue (ReqDelete cid) s) =
             Some (issue ReqList s)) /\
  (forall e, respond (length (inflight s)) (HttpFail e) (issue (ReqDelete cid) s) = Some s).
Proof.
  intros G. simpl. rewrite G. split; [reflexivity|]. split; [reflexivity|].
  split; [reflexivity|].
  split; intros; unfold respond; simpl; rewrite nth_error_length_snoc; simpl;
    unfold fetchCourses, settle, issue; cbn; rewrite remove_at_snoc; destruct s; reflexivity.
Qed.

Lemma delete_flow_witness :
  exists s, run step initial loaded = Some s /\
    step s (Delete 3 true) = Some (issue (ReqDelete 3) s) /\
    respond 0 (HttpOk JNull) (issue (ReqDelete 3) s) = Some (issue ReqList s).
Proof.
  destruct (run step initial loaded) as [s|] eqn:Hrun; [|discriminate].
  destruct (delete_flow s 3) as (_ & H2 & _ & H4 & _); [reach Hrun; reflexivity|].
  exists s. split; [reflexivity|]. split; [exact H2|].
  specialize (H4 JNull). replace (length (inflight s)) with 0 in H4; [exact H4|].
  reach Hrun. reflexivity.
Defined.


(** C14. The list refreshes are applied in the order their responses
    arrive, not the order they were issued: when two list requests are in
    flight and the later one's response arrives first, the earlier one's
    response, arriving last, is what the table shows, with no error and
    [loading] off, whatever the two lists are. *)
Theorem list_refresh_last_arrival_wins (s : astate) (i j : nat) (di dj : jsval) :
  i < j -> nth_error (inflight s) i = Some ReqList -> nth_error (inflight s) j = Some ReqList ->
  exists s', run step s [Respond j (HttpOk dj); Respond i (HttpOk di)] = Some s' /\
    courses s' = di /\ error s' = "" /\ loading s' = false /\
    inflight s' = remove_at i (remove_at j (inflight s)).
Proof.
  intros Hij Hi Hj.
  set (s1 := listSettled (HttpOk dj) (settle j s)).
  assert (H1 : step s (Respond j (HttpOk dj)) = Some s1)
    by (cbn [step]; rewrite (respond_at j ReqList _ s Hj); reflexivity).
  assert (Hi1 : nth_error (inflight s1) i = Some ReqList)
    by (unfold s1; cbn; rewrite remove_at_lt by exact Hij; exact Hi).
  exists (listSettled (HttpOk di) (settle i s1)). cbn [run]. rewrite H1.
  cbn [step]. rewrite (respond_at i ReqList _ s1 Hi1). repeat split.
Qed.

(** C40. Every course the backend sends in the admin list is shown without
    a render error, its row showing the course's fields: the thumbnail or
    the placeholder, the first 50 characters of the description followed by
    "...", the duration in hours, the price after "$", the difficulty's
    chip color and the status. *)
Theorem table_row_course (c : course) :
  table_row (course_to_json c) =
  Some {| row_image := if thumbnail_text (thumbnail c) =? "" then JStr placeholder
                       else JStr (thumbnail_text (thumbnail c));
          row_alt := JStr (title c); row_title := title c;
          row_caption := substring 0 50 (description c) ++ "...";
          row_instructor := instructor c; row_category := category c;
          row_difficulty := difficulty c;
          row_difficulty_color := getDifficultyColor (JStr (difficulty c));
          row_duration := JsDecimal.num_toString (num_of_Z (duration c)) ++ " hrs";
          row_price := "$" ++ JsDecimal.num_toString (price c);
          row_status := if active c then "Active" else "Inactive";
          row_status_color := if active c then "success" else "default" |}.
Proof.
  unfold table_row. simpl.
  destruct (thumbnail c) as [[|a t]|]; reflexivity.
Qed.

(** C15. The admin page does not normalize the list response: when the
    list endpoint answers with an envelope object instead of an array, the
    table's [courses.map] throws, React unmounts the page, and no button
    of it can be used any more. *)
Theorem envelope_crashes_table (s : astate) (i : nat) (fs : list (string * jsval)) :
  nth_error (inflight s) i = Some ReqList -> mounted s = true ->
  exists s', respond i (HttpOk (JObj fs)) s = Some s' /\ courses s' = JObj fs /\
    view s' = None /\ forall e, (forall j r, e <> Respond j r) -> step s' e = None.
Proof.
  intros Hq Hm. rewrite (respond_at i ReqList _ s Hq).
  set (s' := listSettled (HttpOk (JObj fs)) (settle i s)).
  assert (Hr : ready s' = false) by (unfold ready; simpl; rewrite Hm; reflexivity).
  exists s'. split; [reflexivity|]. split; [reflexivity|]. split; [reflexivity|].
  intros e He. destruct e as [| | | | | |j r]; unfold step; rewrite ?Hr; try reflexivity.
  - simpl. rewrite Hm. reflexivity.
  - exfalso. exact (He j r eq_refl).
Qed.

Lemma envelope_crashes_table_witness :
  exists s s', run step initial [Mount] = Some s /\
    respond 0 (HttpOk (JObj [("content", JArr []); ("totalPages", JNum (num_of_Z 1))])) s = Some s' /\
    view s' = None /\ step s' (OpenDialog None) = None.
Proof.
  destruct (run step initial [Mount]) as [s|] eqn:Hrun; [|discriminate].
  destruct (envelope_crashes_table s 0 [("content", JArr []); ("totalPages", JNum (num_of_Z 1))])
    as (s' & H1 & _ & H3 & H4); [reach Hrun; reflexivity|reach Hrun; reflexivity|].
  exists s, s'. split; [reflexivity|]. split; [exact H1|]. split; [exact H3|].
  apply H4. discriminate.
Defined.

(** [two_deletes] before its last two responses: both refreshes are in
    flight, the one issued after the first deletion first. *)
Definition both_refreshes : list event := firstn 6 two_deletes.

Lemma list_refresh_last_arrival_wins_witness :
  exists s s', run step initial both_refreshes = Some s /\
    run step s [Respond 1 (HttpOk (JArr [course_json 7]));
                Respond 0 (HttpOk (JArr [course_json 6; course_json 7]))] = Some s' /\
    courses s' = JArr [course_json 6; course_json 7].
Proof.
  destruct (run step initial both_refreshes) as [s|] eqn:Hrun; [|vm_compute in Hrun; discriminate].
  destruct (list_refresh_last_arrival_wins s 0 1 (JArr [course_json 6; course_json 7])
              (JArr [course_json 7])) as (s' & H1 & H2 & _);
    [lia|reach Hrun; reflexivity|reach Hrun; reflexivity|].
  exists s, s'. split; [reflexivity|]. split; assumption.
Defined.

End AdminCourses.
