(* ===== verification/AdminDialog.v ===== *)
(** * The admin page's dialog against the dialog contract

    The dialog of [AdminCourses] ([showDialog], [editingCourse],
    [formData] and the saves in flight) seen as a state of the
    specification's dialog machine [DialogSpec.dstep]: closed, open on the
    edited course or on a new one, or submitting while a save ([post] or
    [put]) is in flight.  [abs] is that view.  The page implements the
    contract on the runs where the admin behaves as the contract expects:
    every submitted draft parses, the dialog is neither reopened, edited
    nor closed while a save is in flight, and saves succeed.  Outside those
    runs the page differs from the contract, as [AdminCourses] shows
    ([submit_sends_unparsed], [save_failure_surfaces_nothing],
    [save_success_closes_dialog]). *)

From Stdlib Require Import String List Bool ZArith Lia.
From S2P Require Import Prelude JsValue Fetcher FormBinding DialogSpec AdminCourses.
Import ListNotations.

Module AdminDialog.

Import JsValue Fetcher FormBinding DialogSpec AdminCourses.

(** ** The abstraction *)

Definition is_save (q : request) : bool :=
  match q with ReqCreate _ | ReqUpdate _ _ => true | ReqList | ReqDelete _ => false end.

Definition save_share (q : request) : nat := if is_save q then 1 else 0.

(** The saves in flight. *)
Definition saves (s : astate) : nat := list_sum (map save_share (inflight s)).

Definition mode_of (s : astate) : mode :=
  match editingCourse s with Some c => MEdit (id c) | None => MCreate end.

(** The dialog as the contract sees it; the page never surfaces an error
    at the dialog. *)
Definition abs (s : astate) : dialog :=
  if showDialog s
  then if Nat.eqb (saves s) 0 then Open (mode_of s) (formData s) false
       else Submitting (mode_of s) (formData s)
  else Closed.

(** The steps the contract expects of the user and of the backend. *)
Definition polite (s : astate) (e : event) : bool :=
  match e with
  | OpenDialog _ | CloseDialog | EditField _ _ => Nat.eqb (saves s) 0
  | Submit => Nat.eqb (saves s) 0 && parses (formData s)
  | Respond i r =>
      match nth_error (inflight s) i, r with
      | Some q, HttpFail _ => negb (is_save q)
      | _, _ => true
      end
  | Mount | Delete _ _ => true
  end.

(** The contract's action of a step of the page, if it has one: the
    dialog's buttons and inputs, and the answer to a save. *)
Definition label (s : astate) (e : event) : option action :=
  match e with
  | OpenDialog c => Some (AOpen c)
  | CloseDialog => Some ACancel
  | EditField f v => Some (AEdit f (input_value f v))
  | Submit => Some ASubmit
  | Respond i r =>
      match nth_error (inflight s) i with
      | Some q => if is_save q then Some (match r with HttpOk _ => ASucceed | HttpFail _ => AFail end)
                  else None
      | None => None
      end
  | Mount | Delete _ _ => None
  end.

(** At most one save is in flight, and only while the dialog is open. *)
Definition dialog_inv (s : astate) : Prop := saves s <= 1 /\ (saves s <> 0 -> showDialog s = true).

(** ** Lemmas *)

Lemma saves_same (t s : astate) : inflight t = inflight s -> saves t = saves s.
Proof. intros H. unfold saves. rewrite H. reflexivity. Qed.

Lemma saves_issue (q : request) (s : astate) : saves (issue q s) = saves s + save_share q.
Proof. unfold saves. simpl. rewrite map_app, list_sum_app. simpl. lia. Qed.

Lemma saves_settle (i : nat) (q : request) (s : astate) :
  nth_error (inflight s) i = Some q -> saves (settle i s) + save_share q = saves s.
Proof. apply list_sum_remove_at. Qed.

(** Responses that are not saves change neither the dialog nor the saves. *)
Lemma abs_listSettled (r : http_response) (s : astate) :
  abs (listSettled r s) = abs s /\ saves (listSettled r s) = saves s.
Proof. destruct r; split; reflexivity. Qed.

Lemma abs_deleteSettled (r : http_response) (s : astate) :
  abs (deleteSettled r s) = abs s /\ saves (deleteSettled r s) = saves s.
Proof.
  destruct r; [|split; reflexivity]. unfold deleteSettled, fetchCourses, abs.
  rewrite saves_issue. simpl. rewrite Nat.add_0_r. split; reflexivity.
Qed.

Lemma abs_settle_other (i : nat) (q : request) (s : astate) :
  nth_error (inflight s) i = Some q -> is_save q = false ->
  abs (settle i s) = abs s /\ saves (settle i s) = saves s.
Proof.
  intros Hq Hs. pose proof (saves_settle i q s Hq) as H. unfold save_share in H.
  rewrite Hs, Nat.add_0_r in H. unfold abs. rewrite H. split; reflexivity.
Qed.

(** A step that leaves the dialog and the saves alone is a stutter. *)
Lemma stutter (s t : astate) :
  saves t = saves s -> showDialog t = showDialog s -> mode_of t = mode_of s ->
  formData t = formData s -> dialog_inv s -> dialog_inv t /\ abs t = abs s.
Proof.
  intros Hn Hd Hm Hf [H1 H2]. unfold dialog_inv, abs. rewrite Hn, Hd, Hm, Hf.
  split; [split; assumption|reflexivity].
Qed.

(** A step into the open dialog with no save in flight. *)
Lemma to_open (s t : astate) (l : action) :
  saves t = 0 -> showDialog t = true -> dstep (abs s) l (Open (mode_of t) (formData t) false) ->
  dialog_inv t /\ dstep (abs s) l (abs t).
Proof.
  intros Hn Hd Hst. unfold dialog_inv. rewrite Hn. split; [lia|].
  unfold abs at 2. rewrite Hd, Hn. exact Hst.
Qed.

(** A step into the closed dialog with no save in flight. *)
Lemma to_closed (s t : astate) (l : action) :
  saves t = 0 -> showDialog t = false -> dstep (abs s) l Closed ->
  dialog_inv t /\ dstep (abs s) l (abs t).
Proof.
  intros Hn Hd Hst. unfold dialog_inv. rewrite Hn. split; [lia|].
  unfold abs at 2. rewrite Hd. exact Hst.
Qed.

Lemma abs_open (s : astate) :
  showDialog s = true -> saves s = 0 -> abs s = Open (mode_of s) (formData s) false.
Proof. intros Hd Hn. unfold abs. rewrite Hd, Hn. reflexivity. Qed.

Lemma abs_submitting (s : astate) :
  saves s <> 0 -> dialog_inv s -> abs s = Submitting (mode_of s) (formData s).
Proof.
  intros Hn [_ H2]. unfold abs. rewrite (H2 Hn). apply Nat.eqb_neq in Hn. rewrite Hn. reflexivity.
Qed.

(** The response to a request in flight that is not a save. *)
Lemma respond_other (i : nat) (q : request) (s t : astate) :
  nth_error (inflight s) i = Some q -> is_save q = false ->
  saves t = saves (settle i s) -> showDialog t = showDialog s -> mode_of t = mode_of s ->
  formData t = formData s -> dialog_inv s -> dialog_inv t /\ abs t = abs s.
Proof.
  intros Hq Hs Hn. pose proof (saves_settle i q s Hq) as H. unfold save_share in H.
  rewrite Hs, Nat.add_0_r in H. rewrite H in Hn. apply stutter, Hn.
Qed.

(** The successful response to the save in flight closes the dialog. *)
Lemma respond_save (i : nat) (q : request) (s : astate) (data : jsval) :
  nth_error (inflight s) i = Some q -> is_save q = true -> dialog_inv s ->
  dialog_inv (saveSettled (HttpOk data) (settle i s)) /\
  dstep (abs s) ASucceed (abs (saveSettled (HttpOk data) (settle i s))).
Proof.
  intros Hq Hs Hi. pose proof (saves_settle i q s Hq) as Hn. unfold save_share in Hn.
  rewrite Hs in Hn. destruct Hi as [H1 H2].
  apply to_closed; [|reflexivity|].
  - unfold saveSettled, fetchCourses. rewrite saves_issue, (saves_same (handleCloseDialog (settle i s)) (settle i s) eq_refl).
    change (save_share ReqList) with 0. lia.
  - rewrite (abs_submitting s ltac:(lia) (conj H1 H2)). constructor.
Qed.

(** The arrival of a response, when a save's answer is a success. *)
Lemma polite_respond (i : nat) (r : http_response) (s s' : astate) :
  dialog_inv s -> polite s (Respond i r) = true -> respond i r s = Some s' ->
  dialog_inv s' /\ match label s (Respond i r) with
                   | Some l => dstep (abs s) l (abs s')
                   | None => abs s' = abs s
                   end.
Proof.
  intros Hi Hp Hs. unfold respond in Hs. simpl in Hp |- *.
  destruct (nth_error (inflight s) i) as [q|] eqn:Hq; [|discriminate].
  destruct q as [|body|cid body|cid]; inv Hs; cbn [is_save].
  - destruct r; apply (respond_other i ReqList); first [exact Hq|exact Hi|reflexivity].
  - destruct r as [data|err]; [|discriminate]. exact (respond_save i _ s data Hq eq_refl Hi).
  - destruct r as [data|err]; [|discriminate]. exact (respond_save i _ s data Hq eq_refl Hi).
  - destruct r; apply (respond_other i (ReqDelete cid)); try first [exact Hq|exact Hi|reflexivity].
    unfold deleteSettled, fetchCourses. rewrite saves_issue. apply Nat.add_0_r.
Qed.

(** One allowed step keeps the invariant and is matched by the contract's
    step with the same action, or leaves the dialog as it is. *)
Lemma polite_step (s : astate) (e : event) (s' : astate) :
  dialog_inv s -> polite s e = true -> step s e = Some s' ->
  dialog_inv s' /\ match label s e with
                   | Some l => dstep (abs s) l (abs s')
                   | None => abs s' = abs s
                   end.
Proof.
  intros Hi Hp Hs. destruct e as [|c| |f v| |cid ok|i r]; simpl in Hp, Hs |- *.
  - destruct (mounted s); inv Hs. apply stutter; try reflexivity; [|exact Hi].
    unfold fetchCourses. rewrite saves_issue. apply Nat.add_0_r.
  - destruct (ready s && negb (showDialog s) && can_open c s) eqn:G; inv Hs.
    apply andb_true_iff in G as [G _].
    apply andb_true_iff in G as [_ G]. apply negb_true_iff in G. apply Nat.eqb_eq in Hp.
    assert (Ha : abs s = Closed) by (unfold abs; rewrite G; reflexivity).
    apply to_open; [rewrite <- Hp; apply saves_same; destruct c; reflexivity|destruct c; reflexivity|].
    rewrite Ha. destruct c; constructor.
  - destruct (ready s && showDialog s) eqn:G; inv Hs. apply andb_true_iff in G as [_ G].
    apply Nat.eqb_eq in Hp.
    apply to_closed; [rewrite <- Hp; apply saves_same; reflexivity|reflexivity|].
    rewrite (abs_open s G Hp). constructor.
  - destruct (ready s && showDialog s) eqn:G; inv Hs. apply andb_true_iff in G as [_ G].
    apply Nat.eqb_eq in Hp.
    apply to_open; [rewrite <- Hp; apply saves_same; reflexivity|exact G|].
    rewrite (abs_open s G Hp). constructor.
  - destruct (ready s && showDialog s) eqn:G; inv Hs. apply andb_true_iff in G as [_ G].
    apply andb_true_iff in Hp as [Hp Hpar]. apply Nat.eqb_eq in Hp.
    assert (Hq : save_share (submit_request s) = 1)
      by (unfold submit_request; destruct (editingCourse s); reflexivity).
    assert (Hn : saves (handleSubmit s) = 1) by (unfold handleSubmit; rewrite saves_issue, Hp, Hq; reflexivity).
    assert (Hi' : dialog_inv (handleSubmit s)) by (split; [lia|intros _; exact G]).
    split; [exact Hi'|]. rewrite (abs_open s G Hp), (abs_submitting (handleSubmit s) ltac:(lia) Hi').
    constructor. exact Hpar.
  - destruct (ready s && negb (showDialog s)) eqn:G; inv Hs. unfold handleDelete.
    destruct ok; apply stutter; try reflexivity; try exact Hi.
    rewrite saves_issue. apply Nat.add_0_r.
  - exact (polite_respond i r s s' Hi Hp Hs).
Qed.

(** ** Properties *)

(** C16. The admin dialog implements the specification's dialog machine
    on the runs the contract expects: when every submitted draft parses,
    the dialog is not reopened, edited or closed while a save is in
    flight, and every save succeeds, the dialog's buttons, inputs and
    save answers of the run, in order, are a trace of [DialogSpec.dstep]
    from [Closed] that ends in the page's dialog: closed, open on the
    right course with the current draft, or submitting while the save is
    in flight. *)
Theorem admin_dialog_refines_spec (es : list event) (s : astate) :
  run step initial es = Some s -> all_steps step polite initial es = true ->
  trace dstep Closed (run_labels step label initial es) (abs s).
Proof.
  intros Hrun Hall. change Closed with (abs initial).
  apply (run_simulation step label dstep abs dialog_inv polite polite_step es initial s);
    [|exact Hall|exact Hrun].
  split; [unfold saves; simpl; lia|intros H; exfalso; apply H; reflexivity].
Qed.

(** ** Witnesses *)

(** A new course is created: the dialog is opened, filled and submitted,
    and the save succeeds. *)
Definition create_one : list event :=
  loaded ++ [OpenDialog None; EditField FTitle "React"; EditField FDuration "10";
             EditField FPrice "49.99"; Submit; Respond 0 (HttpOk JNull)].

Lemma admin_dialog_refines_spec_witness :
  exists s, run step initial create_one = Some s /\
    all_steps step polite initial create_one = true /\
    trace dstep Closed (run_labels step label initial create_one) (abs s).
Proof.
  destruct (run step initial create_one) as [s|] eqn:Hrun; [|vm_compute in Hrun; discriminate].
  exists s. split; [reflexivity|]. split; [vm_compute; reflexivity|].
  apply (admin_dialog_refines_spec create_one s Hrun). vm_compute. reflexivity.
Defined.

End AdminDialog.
