(* ===== verification/EditCourseForm.v ===== *)
(** * The edit form of one course ([src/src/pages/EditCourseForm.jsx])

    [EditCourseForm] keeps the course being edited as one JavaScript object
    ([courseData]): the object spread of the fetched course with its two
    list fields joined into text, updated one property at a time by
    [handleInputChange], and sent back by [handleSubmit] as the spread of
    [courseData] with the numbers parsed and the lists split.  Its props
    are the course id and an [onClose] callback.  The form is modelled as
    a component that answers each event with its new [courseData] and the
    effects it asks of its host: a request to issue, or a call of
    [onClose]; [AdminDashboard] runs those effects.

    Objects are lists of fields; [obj_set] is the assignment of one
    property (an existing key keeps its place, a new one goes last), which
    is what [{...o, [k]: v}] builds.  The body of a [put] is the JSON text
    [axios] sends, so a NaN or infinite number is [null] in it. *)

From Stdlib Require Import String Ascii List Bool ZArith Lia.
From S2P Require Import Prelude JsString JsNumber JsDecimal JsValue JsCoerce Fetcher FormBinding.
Import ListNotations.
Open Scope string_scope.

Module EditCourseForm.

Import JsNumber JsDecimal JsValue Fetcher FormBinding.

(** ** Objects *)

Definition obj_fields : Type := list (string * jsval).

(** [o[k] = v] on an object literal under construction. *)
Definition obj_set (k : string) (v : jsval) (fs : obj_fields) : obj_fields :=
  if existsb (fun kv => String.eqb k (fst kv)) fs
  then map (fun kv => if String.eqb k (fst kv) then (fst kv, v) else kv) fs
  else (fs ++ [(k, v)])%list.

(** The keys of an array or a string, ["0"], ["1"], ... *)
Definition index_keys {A : Type} (l : list A) : list string :=
  map (fun i => Z_to_string (Z.of_nat i)) (seq 0 (length l)).

(** [{...v}]: the own enumerable properties of [v]; [null], [undefined],
    booleans and numbers have none. *)
Definition spread (v : jsval) : obj_fields :=
  match v with
  | JObj fs => fold_left (fun acc kv => obj_set (fst kv) (snd kv) acc) fs []
  | JArr l => combine (index_keys l) l
  | JStr s => combine (index_keys (list_ascii_of_string s))
                      (map (fun a => JStr (String a EmptyString)) (list_ascii_of_string s))
  | _ => []
  end.

(** ** State and effects *)

(** What the form asks of its host. *)
Inductive effect :=
| EGet (url : string)               (** [api.get(`/api/courses/${courseId}`)] *)
| EPut (url : string) (body : jsval) (** [api.put(`/api/courses/${courseId}`, ...)] *)
| EClose.                           (** [onClose()] *)

(** [useState({title: '', ..., difficulty: 'Beginner', ...})] *)
Definition initial : obj_fields :=
  [("title", JStr ""); ("description", JStr ""); ("instructor", JStr "");
   ("category", JStr ""); ("difficulty", JStr "Beginner"); ("duration", JStr "");
   ("price", JStr ""); ("thumbnail", JStr ""); ("curriculum", JStr "");
   ("requirements", JStr "")].

Definition course_url (courseId : jsval) : string :=
  "/api/courses/" ++ JsCoerce.to_string courseId.

(** [useEffect(..., [courseId])] on mount: [fetchCourseData()]. *)
Definition mount (courseId : jsval) : obj_fields * list effect :=
  (initial, [EGet (course_url courseId)]).

(** [v?.join('\n') || '']: an array's elements as text, one per line;
    [null] and [undefined] give [''], anything else has no [join]. *)
Definition join_lines_js (v : jsval) : option string :=
  match v with
  | JUndefined | JNull => Some ""
  | JArr l =>
      Some (JsString.join newline
              (map (fun x => match x with JUndefined | JNull => "" | _ => JsCoerce.to_string x end) l))
  | _ => None
  end.

(** The object [setCourseData] receives after the fetch, or the exception
    the [catch] logs. *)
Definition loaded_data (data : jsval) : option obj_fields :=
  let* cur := get_prop data "curriculum" in
  let* cur_t := join_lines_js cur in
  let* req := get_prop data "requirements" in
  let* req_t := join_lines_js req in
  Some (obj_set "requirements" (JStr req_t) (obj_set "curriculum" (JStr cur_t) (spread data))).

(** [fetchCourseData] after its [await]: the new [courseData], or the old
    one when the request failed or reading the response threw. *)
Definition fetchSettled (r : http_response) (d : obj_fields) : obj_fields :=
  match r with
  | HttpOk data => loaded_data data ?? d
  | HttpFail _ => d
  end.

(** The [name] attribute of each input. *)
Definition field_name (f : draft_field) : string :=
  match f with
  | FTitle => "title" | FDescription => "description" | FInstructor => "instructor"
  | FCategory => "category" | FDifficulty => "difficulty" | FDuration => "duration"
  | FPrice => "price" | FThumbnail => "thumbnail" | FCurriculum => "curriculum"
  | FRequirements => "requirements"
  end.

(** [handleInputChange(e)]: [{ ...courseData, [e.target.name]: e.target.value }]. *)
Definition handleInputChange (f : draft_field) (value : string) (d : obj_fields) : obj_fields :=
  obj_set (field_name f) (JStr value) d.

(** A number as [JSON.stringify] writes it: NaN and the infinities are [null]. *)
Definition int_json (o : option Z) : jsval :=
  match o with Some z => JNum (num_of_Z z) | None => JNull end.

Definition float_json (o : option fnum) : jsval :=
  match o with Some (FFin x) => JNum x | _ => JNull end.

(** [v.split('\n').filter(item => item.trim())]: only strings have [split]. *)
Definition split_lines_js (v : jsval) : option (list string) :=
  match v with JStr s => Some (nonblank_lines_of s) | _ => None end.

(** The object literal of [handleSubmit], as sent. *)
Definition put_body (d : obj_fields) : option jsval :=
  let cd := JObj d in
  let* duration := get_prop cd "duration" in
  let* price := get_prop cd "price" in
  let* cur := get_prop cd "curriculum" in
  let* cur_l := split_lines_js cur in
  let* req := get_prop cd "requirements" in
  let* req_l := split_lines_js req in
  Some (JObj (obj_set "requirements" (JArr (map JStr req_l))
               (obj_set "curriculum" (JArr (map JStr cur_l))
                 (obj_set "price" (float_json (parseFloat (JsCoerce.to_string price)))
                   (obj_set "duration" (int_json (parseInt (JsCoerce.to_string duration))) d))))).

(** [handleSubmit] up to its [await]: the [put], unless building its body
    threw (then the [catch] only logs). *)
Definition handleSubmit (courseId : jsval) (d : obj_fields) : list effect :=
  match put_body d with Some b => [EPut (course_url courseId) b] | None => [] end.

(** [handleSubmit] after its [await]: [onClose()], or a log line. *)
Definition putSettled (r : http_response) : list effect :=
  match r with HttpOk _ => [EClose] | HttpFail _ => [] end.

(** ** The render *)

(** The inputs of the form, by [name], with their labels. *)
Definition form_fields : list (draft_field * string) :=
  [(FTitle, "Course Title"); (FDescription, "Description"); (FInstructor, "Instructor");
   (FCategory, "Category"); (FDifficulty, "Difficulty"); (FDuration, "Duration (hours)");
   (FPrice, "Price ($)"); (FThumbnail, "Thumbnail URL");
   (FCurriculum, "Curriculum (one item per line)");
   (FRequirements, "Requirements (one item per line)")].

(** Each input's label and [value={courseData.<name>}]. *)
Definition form_view (d : obj_fields) : list (string * jsval) :=
  map (fun fl => (snd fl, field_lookup (field_name (fst fl)) d ?? JUndefined)) form_fields.

(** The text an input shows for [value={v}]: React renders [null] and
    [undefined] as an empty input and any other value as [String(v)]; a
    [type="number"] input keeps only a valid floating-point number. *)
Definition input_text (f : draft_field) (v : jsval) : string :=
  input_value f match v with JUndefined | JNull => "" | _ => JsCoerce.to_string v end.

(** The inputs marked [required]. *)
Definition required_fields : list draft_field :=
  [FTitle; FDescription; FInstructor; FCategory; FDuration; FPrice].

(** "Save Changes" is the [form]'s submit button: the browser fires
    [onSubmit] only when no [required] input is empty. *)
Definition required_filled (d : obj_fields) : bool :=
  forallb (fun f => nonempty (input_text f (field_lookup (field_name f) d ?? JUndefined)))
    required_fields.

(** ** Lemmas on objects *)

Lemma field_lookup_none (k : string) (fs : obj_fields) :
  existsb (fun kv => String.eqb k (fst kv)) fs = false -> field_lookup k fs = None.
Proof.
  induction fs as [|[k' w] fs IH]; simpl; [reflexivity|].
  intros H. apply orb_false_iff in H as [H1 H2]. rewrite IH, H1 by exact H2. reflexivity.
Qed.

Lemma lookup_obj_set_eq (k : string) (v : jsval) (fs : obj_fields) :
  field_lookup k (obj_set k v fs) = Some v.
Proof.
  unfold obj_set. destruct (existsb _ fs) eqn:E.
  - induction fs as [|[k' w] fs IH]; simpl in *; [discriminate|].
    destruct (String.eqb_spec k k') as [<-|Hne]; simpl.
    + destruct (existsb (fun kv => String.eqb k (fst kv)) fs) eqn:E'.
      * rewrite IH by reflexivity. reflexivity.
      * clear IH. rewrite String.eqb_refl.
        assert (Hn : field_lookup k (map (fun kv => if String.eqb k (fst kv) then (fst kv, v) else kv) fs) = None).
        { apply field_lookup_none. rewrite <- E'. clear E E'.
          induction fs as [|[k'' w''] fs IHf]; simpl; [reflexivity|].
          destruct (String.eqb k k'') eqn:Ek; simpl; rewrite Ek, ?IHf; reflexivity. }
        rewrite Hn. reflexivity.
    + rewrite IH by exact E. reflexivity.
  - rewrite field_lookup_app. simpl. rewrite String.eqb_refl. reflexivity.
Qed.

Lemma lookup_obj_set_neq (k k' : string) (v : jsval) (fs : obj_fields) :
  k <> k' -> field_lookup k' (obj_set k v fs) = field_lookup k' fs.
Proof.
  intros Hne. unfold obj_set. destruct (existsb _ fs).
  - induction fs as [|[k'' w] fs IH]; simpl; [reflexivity|].
    rewrite IH. destruct (String.eqb k k'') eqn:E; simpl; [|reflexivity].
    apply String.eqb_eq in E. subst k''.
    destruct (String.eqb_spec k' k); [congruence|reflexivity].
  - rewrite field_lookup_app. simpl.
    destruct (String.eqb_spec k' k); [congruence|]. destruct (field_lookup k' fs); reflexivity.
Qed.

Lemma field_name_inj (f g : draft_field) : field_name f = field_name g -> f = g.
Proof. destruct f, g; simpl; congruence. Qed.

(** ** Properties *)

(** C39. Typing in one input of the edit form sets that property of
    [courseData] to the typed text and leaves every other property, the
    inputs' and any other field of the course, as it was. *)
Theorem handleInputChange_sets_one (f : draft_field) (value : string) (d : obj_fields) :
  field_lookup (field_name f) (handleInputChange f value d) = Some (JStr value) /\
  forall k, k <> field_name f -> field_lookup k (handleInputChange f value d) = field_lookup k d.
Proof.
  split; [apply lookup_obj_set_eq|]. intros k Hk. apply lookup_obj_set_neq. congruence.
Qed.

End EditCourseForm.
