(* ===== verification/AdminDashboard.v ===== *)
(** * The admin dashboard and the edit form it hosts
      ([src/src/pages/AdminDashboard.jsx])

    [AdminDashboard] shows six feature cards; four navigate away, "Add
    Course" shows [AddCourseForm] and "Edit Course" sets [courseId] to 1
    and shows [EditCourseForm], whose [onClose] hides it again.  The state
    is the dashboard's three hooks plus the [courseData] of the mounted
    edit form; the host runs the effects the form asks for
    ([EditCourseForm.effect]).  Each mount of the form is a new instance
    with fresh state: a ghost counter numbers the instances, and a
    response to a request of an unmounted instance cannot change the
    form's state any more, although its [onClose] still reaches the
    dashboard. *)

From Stdlib Require Import String Ascii List Bool ZArith Lia.
From S2P Require Import Prelude JsNumber JsValue Fetcher FormBinding EditCourseForm.
Import ListNotations.
Open Scope string_scope.

Module AdminDashboard.

Import JsNumber JsValue Fetcher FormBinding EditCourseForm.

(** ** State *)

(** A request of the edit form instance [inst] in flight. *)
Inductive request :=
| RGet (inst : nat) (url : string)
| RPut (inst : nat) (url : string) (body : jsval).

Record dstate := DState {
  showAddCourse : bool;  (** [useState(false)] *)
  showEditCourse : bool; (** [useState(false)] *)
  courseId : jsval;      (** [useState(null)] *)
  form : obj_fields;     (** [courseData] of the mounted [EditCourseForm] *)
  instance : nat;
  inflight : list request;
  location : option string (** where [navigate] went *)
}.

Definition initial : dstate :=
  {| showAddCourse := false; showEditCourse := false; courseId := JNull;
     form := EditCourseForm.initial; instance := 0; inflight := []; location := None |}.

Definition setShowAddCourse (b : bool) (s : dstate) : dstate :=
  {| showAddCourse := b; showEditCourse := showEditCourse s; courseId := courseId s;
     form := form s; instance := instance s; inflight := inflight s; location := location s |}.

Definition setShowEditCourse (b : bool) (s : dstate) : dstate :=
  {| showAddCourse := showAddCourse s; showEditCourse := b; courseId := courseId s;
     form := form s; instance := instance s; inflight := inflight s; location := location s |}.

Definition setCourseId (v : jsval) (s : dstate) : dstate :=
  {| showAddCourse := showAddCourse s; showEditCourse := showEditCourse s; courseId := v;
     form := form s; instance := instance s; inflight := inflight s; location := location s |}.

Definition setForm (d : obj_fields) (s : dstate) : dstate :=
  {| showAddCourse := showAddCourse s; showEditCourse := showEditCourse s;
     courseId := courseId s; form := d; instance := instance s; inflight := inflight s;
     location := location s |}.

Definition navigate (path : string) (s : dstate) : dstate :=
  {| showAddCourse := showAddCourse s; showEditCourse := showEditCourse s;
     courseId := courseId s; form := form s; instance := instance s; inflight := inflight s;
     location := Some path |}.

(** A new instance of the form, with its initial state. *)
Definition new_instance (d : obj_fields) (s : dstate) : dstate :=
  {| showAddCourse := showAddCourse s; showEditCourse := showEditCourse s;
     courseId := courseId s; form := d; instance := S (instance s); inflight := inflight s;
     location := location s |}.

Definition issue (q : request) (s : dstate) : dstate :=
  {| showAddCourse := showAddCourse s; showEditCourse := showEditCourse s;
     courseId := courseId s; form := form s; instance := instance s;
     inflight := inflight s ++ [q]; location := location s |}.

Definition settle (i : nat) (s : dstate) : dstate :=
  {| showAddCourse := showAddCourse s; showEditCourse := showEditCourse s;
     courseId := courseId s; form := form s; instance := instance s;
     inflight := remove_at i (inflight s); location := location s |}.

(** ** Hosting the form *)

(** [{!showAddCourse && !showEditCourse ? <Grid> : showAddCourse ?
    <AddCourseForm> : <EditCourseForm>}] *)
Definition grid_shown (s : dstate) : bool := negb (showAddCourse s) && negb (showEditCourse s).
Definition form_mounted (s : dstate) : bool := negb (showAddCourse s) && showEditCourse s.

(** The effects of the form instance [inst]: its requests, and its
    [onClose], which is [() => setShowEditCourse(false)]. *)
Fixpoint run_effects (inst : nat) (es : list effect) (s : dstate) : dstate :=
  match es with
  | [] => s
  | EGet u :: es' => run_effects inst es' (issue (RGet inst u) s)
  | EPut u b :: es' => run_effects inst es' (issue (RPut inst u b) s)
  | EClose :: es' => run_effects inst es' (setShowEditCourse false s)
  end.

(** The form mounts: a new instance, its initial state, its effect. *)
Definition mount_form (s : dstate) : dstate :=
  let '(d, es) := EditCourseForm.mount (courseId s) in
  run_effects (S (instance s)) es (new_instance d s).

(** The six cards of [features]. *)
Inductive feature := ManageCourses | ViewEnrollments | Payments | AddCourse | EditCourse
                   | AdminProfile.

(** [feature.onClick] *)
Definition onClick (f : feature) (s : dstate) : dstate :=
  match f with
  | ManageCourses => navigate "/admin/courses" s
  | ViewEnrollments => navigate "/admin/enrollments" s
  | Payments => navigate "/admin/payments" s
  | AddCourse => setShowAddCourse true s
  | EditCourse => mount_form (setShowEditCourse true (setCourseId (JNum (num_of_Z 1)) s))
  | AdminProfile => navigate "/profile" s
  end.

(** What happens on the page: a card, the [onClose] of [AddCourseForm],
    the edit form's inputs, its submit and cancel buttons, and the arrival
    of a response. *)
Inductive event :=
| Click (f : feature)
| CloseAddForm
| Input (f : draft_field) (v : string)
| Submit
| Cancel
| Respond (i : nat) (r : http_response).

(** The arrival of the response to the [i]-th request: the code after the
    [await] of the instance that sent it. *)
Definition respond (i : nat) (r : http_response) (s : dstate) : option dstate :=
  match nth_error (inflight s) i with
  | None => None
  | Some (RGet inst _) =>
      let s1 := settle i s in
      Some (if Nat.eqb inst (instance s) && form_mounted s
            then setForm (fetchSettled r (form s1)) s1 else s1)
  | Some (RPut inst _ _) => Some (run_effects inst (putSettled r) (settle i s))
  end.

(** The dashboard: after a navigation it is unmounted, and a response only
    leaves the requests in flight. *)
Definition step (s : dstate) (e : event) : option dstate :=
  match location s with
  | Some _ =>
      match e with
      | Respond i _ =>
          match nth_error (inflight s) i with Some _ => Some (settle i s) | None => None end
      | _ => None
      end
  | None =>
  match e with
  | Click f => if grid_shown s then Some (onClick f s) else None
  | CloseAddForm => if showAddCourse s then Some (setShowAddCourse false s) else None
  | Input f v =>
      if form_mounted s then Some (setForm (handleInputChange f (input_value f v) (form s)) s)
      else None
  | Submit =>
      if form_mounted s
      then Some (if required_filled (form s)
                 then run_effects (instance s) (handleSubmit (courseId s) (form s)) s else s)
      else None
  | Cancel => if form_mounted s then Some (run_effects (instance s) [EClose] s) else None
  | Respond i r => respond i r s
  end
  end.

(** ** The render *)

(** The [features] array, in its order. *)
Definition features : list feature :=
  [ManageCourses; ViewEnrollments; Payments; AddCourse; EditCourse; AdminProfile].

Definition feature_title (f : feature) : string :=
  match f with
  | ManageCourses => "Manage Courses"
  | ViewEnrollments => "View Enrollments"
  | Payments => "Payments"
  | AddCourse => "Add Course"
  | EditCourse => "Edit Course"
  | AdminProfile => "Admin Profile"
  end.

Definition feature_color (f : feature) : string :=
  match f with
  | ManageCourses => "#1976d2"
  | ViewEnrollments => "#f57c00"
  | Payments => "#d32f2f"
  | AddCourse => "#0288d1"
  | EditCourse => "#c2185b"
  | AdminProfile => "#512da8"
  end.

(** One card of the grid: its title and background; its
    [CardActionArea] runs [onClick] of the same feature. *)
Record feature_card := FeatureCard { card_title : string; card_color : string;
                                     card_feature : feature }.

Definition feature_card_of (f : feature) : feature_card :=
  FeatureCard (feature_title f) (feature_color f) f.

(** The content under the header: the grid, [AddCourseForm] (not in the
    repository), or the inputs of [EditCourseForm] with the hosted
    [courseData]. *)
Inductive content :=
| Grid (cards : list feature_card)
| AddForm
| EditForm (fields : list (string * jsval)).

Record dash_view := DashView { dv_title : string; dv_subtitle : string; dv_content : content }.

Definition view (s : dstate) : dash_view :=
  {| dv_title := "Admin Dashboard";
     dv_subtitle := "Manage courses, enrollments, payments, and more";
     dv_content := if grid_shown s then Grid (map feature_card_of features)
                   else if showAddCourse s then AddForm
                   else EditForm (form_view (form s)) |}.

(** ** The course the form edits *)

Definition url_of (q : request) : string :=
  match q with RGet _ u | RPut _ u _ => u end.

Definition course_one_url : string := "/api/courses/1".

(** Every request in flight is about course 1, and the shown form edits
    course 1. *)
Definition edits_one (s : dstate) : Prop :=
  (forall q, In q (inflight s) -> url_of q = course_one_url) /\
  (showEditCourse s = true -> courseId s = JNum (num_of_Z 1)).

Definition effect_ok (e : effect) : Prop :=
  match e with EGet u | EPut u _ => u = course_one_url | EClose => True end.

(** While the dashboard is mounted, a card's click is accepted exactly
    when the view shows the grid, and the grid has one card per feature;
    otherwise the view is the hosted form. *)
Lemma view_offers_clicks (s : dstate) (f : feature) :
  location s = None ->
  (step s (Click f) = Some (onClick f s) /\ dv_content (view s) = Grid (map feature_card_of features))
  \/ (step s (Click f) = None /\
       dv_content (view s) = if showAddCourse s then AddForm else EditForm (form_view (form s))).
Proof.
  intros Hl. unfold step, view. rewrite Hl. simpl.
  destruct (grid_shown s); [left|right]; split; reflexivity.
Qed.

Lemma edits_one_issue (q : request) (s : dstate) :
  edits_one s -> url_of q = course_one_url -> edits_one (issue q s).
Proof.
  intros [Hq Hc] Hu. split; [|exact Hc]. simpl. intros q' Hin.
  apply in_app_or in Hin as [Hin|[<-|[]]]; [apply Hq, Hin|exact Hu].
Qed.

Lemma run_effects_edits_one (inst : nat) (es : list effect) (s : dstate) :
  edits_one s -> Forall effect_ok es -> edits_one (run_effects inst es s).
Proof.
  revert s. induction es as [|e es IH]; intros s Hs Hes; [exact Hs|].
  inversion Hes as [|? ? He Hes']; subst. destruct e; simpl in *; apply IH; auto.
  - apply edits_one_issue; assumption.
  - apply edits_one_issue; assumption.
  - destruct Hs as [Hq _]. split; [exact Hq|discriminate].
Qed.

Lemma putSettled_ok (r : http_response) : Forall effect_ok (putSettled r).
Proof. destruct r; repeat constructor. Qed.

Lemma handleSubmit_ok (d : obj_fields) :
  Forall effect_ok (handleSubmit (JNum (num_of_Z 1)) d).
Proof. unfold handleSubmit. destruct (put_body d); repeat constructor. Qed.

Lemma edits_one_settle (i : nat) (s : dstate) : edits_one s -> edits_one (settle i s).
Proof.
  intros [Hq Hc]. split; [|exact Hc]. simpl. intros q Hin.
  apply Hq. eapply in_remove_at; exact Hin.
Qed.

Lemma form_mounted_edit (s : dstate) : form_mounted s = true -> showEditCourse s = true.
Proof. unfold form_mounted. destruct (showAddCourse s), (showEditCourse s); simpl; congruence. Qed.

Lemma step_edits_one (s : dstate) (e : event) (s' : dstate) :
  edits_one s -> step s e = Some s' -> edits_one s'.
Proof.
  intros Hs Hstep. unfold step in Hstep. destruct (location s) as [l|].
  - destruct e; try discriminate. destruct (nth_error (inflight s) i); inv Hstep.
    apply edits_one_settle, Hs.
  - pose proof Hs as [Hq Hc].
    destruct e as [f| |f v| | |i r].
    + case_if; inv Hstep. destruct f; simpl;
        try (split; [exact Hq|exact Hc]).
      unfold mount_form. simpl. apply edits_one_issue; [|reflexivity].
        split; [exact Hq|reflexivity].
    + case_if; inv Hstep. split; [exact Hq|exact Hc].
    + case_if; inv Hstep. split; [exact Hq|exact Hc].
    + case_if; inv Hstep. destruct (required_filled (form s)); [|exact Hs].
      rewrite (Hc (form_mounted_edit s E)).
      apply run_effects_edits_one; [exact Hs|apply handleSubmit_ok].
    + case_if; inv Hstep. split; [exact Hq|discriminate].
    + unfold respond in Hstep. destruct (nth_error (inflight s) i) as [[inst u|inst u b]|];
        inv Hstep.
      * destruct (Nat.eqb inst (instance s) && form_mounted s);
          [split; [apply (edits_one_settle i s Hs)|exact Hc]|apply edits_one_settle, Hs].
      * apply run_effects_edits_one; [apply edits_one_settle, Hs|apply putSettled_ok].
Qed.

(** ** Properties *)

(** C31. The dashboard only ever edits course 1: in every reachable state,
    the edit form, when shown, has [courseId] 1, and every request it has
    in flight is for [/api/courses/1]. *)
Theorem edits_only_course_one (es : list event) (s : dstate) :
  run step initial es = Some s -> edits_one s.
Proof.
  intros H. apply (run_invariant step edits_one step_edits_one es initial s); [|exact H].
  split; [intros q []|discriminate].
Qed.

(** C28. The form shows no loading state and accepts input at once, and
    the fetched course, when it arrives, replaces [courseData] as a whole:
    whatever was typed before the response is lost. *)
Theorem late_load_discards_edits (s : dstate) (i : nat) (u : string) (data : jsval)
    (d' : obj_fields) :
  location s = None -> form_mounted s = true ->
  nth_error (inflight s) i = Some (RGet (instance s) u) -> loaded_data data = Some d' ->
  exists s', step s (Respond i (HttpOk data)) = Some s' /\ form s' = d'.
Proof.
  intros Hl Hm Hi Hd. unfold step. rewrite Hl. unfold respond. rewrite Hi, Nat.eqb_refl, Hm.
  simpl. rewrite Hd. eexists; split; reflexivity.
Qed.

(** C30. A successful save calls [onClose] of the form that sent it, which
    hides whatever edit form is shown then, a newer instance included. *)
Theorem put_success_closes_any_form (s : dstate) (i inst : nat) (u : string) (b d : jsval) :
  location s = None -> nth_error (inflight s) i = Some (RPut inst u b) ->
  exists s', step s (Respond i (HttpOk d)) = Some s' /\
    showEditCourse s' = false /\ form_mounted s' = false.
Proof.
  intros Hl Hi. unfold step. rewrite Hl. unfold respond. rewrite Hi.
  eexists; split; [reflexivity|]. split; [reflexivity|].
  unfold form_mounted. simpl. apply andb_false_r.
Qed.


(** C29. "Save Changes" sends the course only when the form is filled:
    while one of the [required] inputs (title, description, instructor,
    category, duration, price) is empty, the browser blocks the submit
    and nothing is sent; once they are all filled, the submit issues the
    [put] of the form's body to [/api/courses/<courseId>]. *)
Theorem submit_requires_filled_form (s : dstate) :
  location s = None -> form_mounted s = true ->
  (required_filled (form s) = false -> step s Submit = Some s) /\
  (forall b, required_filled (form s) = true -> put_body (form s) = Some b ->
     step s Submit = Some (issue (RPut (instance s) (course_url (courseId s)) b) s)).
Proof.
  intros Hl Hm. unfold step. rewrite Hl, Hm. split; [intros ->; reflexivity|].
  intros b Hf Hb. rewrite Hf. unfold handleSubmit. rewrite Hb. reflexivity.
Qed.

(** ** Witnesses *)

Definition after (es : list event) : dstate :=
  match run step initial es with Some s => s | None => initial end.

Definition course_one : course :=
  Course 1 "React" "Hooks" "Ana" "Web" "Beginner" 12 (Num 4999 (-2)) None
         (Some ["Intro"; "Basics"]) None true.

Definition typed_early : list event := [Click EditCourse; Input FTitle "New title"].

Lemma late_load_discards_edits_witness :
  exists s', step (after typed_early) (Respond 0 (HttpOk (course_to_json course_one))) = Some s' /\
    field_lookup "title" (form s') = Some (JStr "React").
Proof.
  destruct (loaded_data (course_to_json course_one)) as [d'|] eqn:Hd;
    [|vm_compute in Hd; discriminate].
  destruct (late_load_discards_edits (after typed_early) 0 course_one_url
              (course_to_json course_one) d') as (s' & H1 & H2);
    [reflexivity|reflexivity|reflexivity|exact Hd|].
  exists s'. split; [exact H1|]. rewrite H2. vm_compute in Hd. injection Hd as <-. reflexivity.
Defined.

(** The course loads; the admin saves, cancels, and opens the form again
    before the save answers. *)
Definition reopened : list event :=
  [Click EditCourse; Respond 0 (HttpOk (course_to_json course_one)); Submit; Cancel; Click EditCourse].

Lemma put_success_closes_any_form_witness :
  form_mounted (after reopened) = true /\ instance (after reopened) = 2 /\
  exists s', step (after reopened) (Respond 0 (HttpOk JNull)) = Some s' /\
    form_mounted s' = false.
Proof.
  split; [reflexivity|]. split; [reflexivity|].
  destruct (nth_error (inflight (after reopened)) 0) as [[inst u|inst u b]|] eqn:Hq;
    [vm_compute in Hq; discriminate| |vm_compute in Hq; discriminate].
  destruct (put_success_closes_any_form (after reopened) 0 inst u b JNull) as (s' & H1 & _ & H3);
    [reflexivity|exact Hq|].
  exists s'. split; assumption.
Defined.


Lemma edits_only_course_one_witness :
  run step initial reopened = Some (after reopened) /\ edits_one (after reopened).
Proof.
  split; [reflexivity|]. apply (edits_only_course_one reopened). reflexivity.
Defined.

(** The form before the course has loaded, and after. *)
Definition loaded_form : list event :=
  [Click EditCourse; Respond 0 (HttpOk (course_to_json course_one))].

Lemma submit_requires_filled_form_witness :
  step (after [Click EditCourse]) Submit = Some (after [Click EditCourse]) /\
  exists b, step (after loaded_form) Submit =
    Some (issue (RPut (instance (after loaded_form)) (course_url (courseId (after loaded_form))) b)
                (after loaded_form)).
Proof.
  split.
  - apply (proj1 (submit_requires_filled_form (after [Click EditCourse]) eq_refl eq_refl)).
    vm_compute. reflexivity.
  - destruct (put_body (form (after loaded_form))) as [b|] eqn:Hb; [|vm_compute in Hb; discriminate].
    exists b. apply (proj2 (submit_requires_filled_form (after loaded_form) eq_refl eq_refl) b);
      [vm_compute; reflexivity|exact Hb].
Defined.

End AdminDashboard.
