(* ===== verification/StudentDashboard.v ===== *)
(** * The student dashboard ([src/src/pages/StudentDashboard.jsx])

    On mount the page asks for the student's enrollments and statistics
    together ([Promise.all]) and, when both have answered, stores them; if
    either request fails, the [catch] runs as soon as the first failure
    arrives and stores nothing.  The state is the page's four hooks and the
    status of the two requests; the render is a view function over it.
    The logged-in user comes from [useAuth] ([contexts/AuthContext], not in
    the sources) and is a parameter of the render; dates go through
    [new Date(...).toLocaleDateString()], whose locale-dependent text is
    not modelled: the view records the value given to [new Date]. *)

From Stdlib Require Import String Ascii List Bool ZArith Lia.
From S2P Require Import Prelude JsArray JsString JsNumber JsDecimal JsValue JsCoerce Fetcher Catalog.
Import ListNotations.
Open Scope string_scope.

Module StudentDashboard.

Import JsNumber JsValue Fetcher JsArray.

(** ** State *)

(** The two requests given to [Promise.all], in its order. *)
Inductive source := Enrollments | Stats.

Definition source_url (q : source) : string :=
  match q with
  | Enrollments => "/api/enrollments/my-courses"
  | Stats => "/api/students/stats"
  end.

Record sstate := SState {
  enrolledCourses : jsval; (** [useState([])] *)
  stats : jsval;           (** [useState({totalCourses: 0, ...})] *)
  loading : bool;          (** [useState(true)] *)
  error : string;          (** [useState('')] *)
  requests : option (pstatus * pstatus); (** [None] before the mount *)
  all_settled : bool       (** the [Promise.all] has settled *)
}.

Definition zero : jsval := JNum (num_of_Z 0).

Definition initial_stats : jsval :=
  JObj [("totalCourses", zero); ("completedCourses", zero); ("totalHours", zero);
        ("averageProgress", zero)].

Definition initial : sstate :=
  {| enrolledCourses := JArr []; stats := initial_stats; loading := true; error := "";
     requests := None; all_settled := false |}.

Definition load_error : string := "Failed to load dashboard data.".

(** The code after [await Promise.all(...)]: both answers stored and the
    error cleared, or the [catch]; the [finally] clears [loading]. *)
Definition settled (s : sstate) (ok : option (jsval * jsval)) : sstate :=
  {| enrolledCourses := match ok with Some (e, _) => e | None => enrolledCourses s end;
     stats := match ok with Some (_, st) => st | None => stats s end;
     loading := false;
     error := match ok with Some _ => "" | None => load_error end;
     requests := requests s; all_settled := true |}.

(** [Promise.all]: fulfilled when both are, rejected at the first failure,
    deaf to anything after it has settled. *)
Definition promise_all (s : sstate) : sstate :=
  if all_settled s then s
  else match requests s with
       | Some (p1, p2) => match all2 p1 p2 with Some ok => settled s ok | None => s end
       | None => s
       end.

Definition with_requests (p : pstatus * pstatus) (s : sstate) : sstate :=
  {| enrolledCourses := enrolledCourses s; stats := stats s; loading := loading s;
     error := error s; requests := Some p; all_settled := all_settled s |}.

Inductive event := Mount | Respond (q : source) (r : http_response).

(** The page: the mount issues both requests; each answers once. *)
Definition step (s : sstate) (e : event) : option sstate :=
  match e, requests s with
  | Mount, None => Some (with_requests (Pending, Pending) s)
  | Respond Enrollments r, Some (Pending, p2) =>
      Some (promise_all (with_requests (outcome r, p2) s))
  | Respond Stats r, Some (p1, Pending) =>
      Some (promise_all (with_requests (p1, outcome r) s))
  | _, _ => None
  end.

(** ** The render *)

(** [getProgressColor(progress)] *)
Definition getProgressColor (progress : jsval) : string :=
  if JsCoerce.ge_num progress (num_of_Z 80) then "success"
  else if JsCoerce.ge_num progress (num_of_Z 50) then "warning"
  else "error".

(** The difficulty chip's color: a nested conditional whose last branch is
    ['error']. *)
Definition difficulty_color (difficulty : jsval) : string :=
  if is_str difficulty "Beginner" then "success"
  else if is_str difficulty "Intermediate" then "warning"
  else "error".

Definition status_color (status : jsval) : string :=
  if is_str status "COMPLETED" then "success" else "primary".

Record stat_card := StatCard { stat_label : string; stat_value : string }.

(** The four statistics cards: three values as React text, the average
    through a template literal. *)
Definition stat_cards (st : jsval) : option (list stat_card) :=
  let* total := get_prop st "totalCourses" in
  let* completed := get_prop st "completedCourses" in
  let* hours := get_prop st "totalHours" in
  let* average := get_prop st "averageProgress" in
  let* total_t := react_text total in
  let* completed_t := react_text completed in
  let* hours_t := react_text hours in
  Some [StatCard "Enrolled Courses" total_t; StatCard "Completed Courses" completed_t;
        StatCard "Hours Learned" hours_t;
        StatCard "Average Progress" (JsCoerce.to_string average ++ "%")].

(** What one enrollment card shows. *)
Record enrollment_card := ECard {
  ec_image : jsval;
  ec_alt : jsval;
  ec_category : string;
  ec_difficulty : string;
  ec_difficulty_color : string;
  ec_title : string;
  ec_instructor : string;
  ec_progress : string;
  ec_progress_value : jsval;
  ec_progress_color : string;
  ec_duration : string;
  ec_enrolled_at : jsval;
  ec_status : string;
  ec_status_color : string;
  ec_link : string
}.

Definition enrollment_card_of (e : jsval) : option enrollment_card :=
  let* _ := get_prop e "id" in
  let* course := get_prop e "course" in
  let* thumbnail := get_prop course "thumbnail" in
  let* title := get_prop course "title" in
  let* category := get_prop course "category" in
  let* category_t := react_text category in
  let* difficulty := get_prop course "difficulty" in
  let* difficulty_t := react_text difficulty in
  let* title_t := react_text title in
  let* instructor := get_prop course "instructor" in
  let* instructor_t := react_text instructor in
  let* progress := get_prop e "progress" in
  let p := js_or progress zero in
  let* p_t := react_text p in
  let* duration := get_prop course "duration" in
  let* duration_t := react_text duration in
  let* enrolledAt := get_prop e "enrolledAt" in
  let* status := get_prop e "status" in
  let* status_t := react_text status in
  let* cid := get_prop course "id" in
  Some {| ec_image := js_or thumbnail (JStr "https://via.placeholder.com/300x200");
          ec_alt := title; ec_category := category_t; ec_difficulty := difficulty_t;
          ec_difficulty_color := difficulty_color difficulty; ec_title := title_t;
          ec_instructor := "by " ++ instructor_t; ec_progress := p_t ++ "%";
          ec_progress_value := p; ec_progress_color := getProgressColor p;
          ec_duration := duration_t ++ " hours"; ec_enrolled_at := enrolledAt;
          ec_status := status_t; ec_status_color := status_color status;
          ec_link := "/course/" ++ JsCoerce.to_string cid |}.

(** One line of "Recent Activity". *)
Record activity := Activity {
  act_primary : string;
  act_last_accessed : jsval;
  act_divider : bool;
  act_status : string;
  act_status_color : string
}.

(** [index < enrolledCourses.length - 1] *)
Definition before_last (index : nat) (len : jsval) : bool :=
  match JsCoerce.to_number len with
  | Some (JsDecimal.FFin x) => if JsCoerce.num_compare (num_of_Z (Z.of_nat index + 1)) x is Lt then true
                     else false
  | Some (JsDecimal.FInf neg) => negb neg
  | None => false
  end.

Definition activity_of (len : jsval) (ie : nat * jsval) : option activity :=
  let '(index, e) := ie in
  let* course := get_prop e "course" in
  let* title := get_prop course "title" in
  let* progress := get_prop e "progress" in
  let* last := get_prop e "lastAccessedAt" in
  let* enrolledAt := get_prop e "enrolledAt" in
  let* status := get_prop e "status" in
  let* status_t := react_text status in
  Some {| act_primary := JsCoerce.to_string title ++ " - " ++
                         JsCoerce.to_string (js_or progress zero) ++ "% completed";
          act_last_accessed := js_or last enrolledAt;
          act_divider := before_last index len;
          act_status := status_t; act_status_color := status_color status |}.

(** [enrolledCourses.slice(0, 5).map((enrollment, index) => ...)] *)
Definition recent_activity (ec len : jsval) : option (list activity) :=
  match ec with
  | JArr l => map_opt (activity_of len) (combine (seq 0 (length (firstn 5 l))) (firstn 5 l))
  | _ => None
  end.

Inductive courses_section := NoCourses | CourseCards (cards : list enrollment_card).

Inductive dash_view :=
| DSpinner
| DPage (welcome : string) (alert : option string) (cards : list stat_card)
        (courses : courses_section) (recent : option (list activity)).

(** [user?.name], for the [user] of [useAuth()]. *)
Definition user_name (user : jsval) : option jsval :=
  match user with JUndefined | JNull => Some JUndefined | _ => get_prop user "name" end.

(** The render, for the logged [user] of [AuthContext]. *)
Definition view (user : jsval) (s : sstate) : option dash_view :=
  if loading s then Some DSpinner
  else
    let* name := user_name user in
    let* name_t := react_text name in
    let* cards := stat_cards (stats s) in
    let* len := get_prop (enrolledCourses s) "length" in
    let* courses :=
      if JsCoerce.is_zero len then Some NoCourses
      else let* ecs := Catalog.js_map enrollment_card_of (enrolledCourses s) in
           Some (CourseCards ecs) in
    let* recent :=
      if JsCoerce.gt_num len (num_of_Z 0)
      then let* acts := recent_activity (enrolledCourses s) len in Some (Some acts)
      else Some None in
    Some (DPage ("Welcome back, " ++ name_t ++ "!")
                (if JsString.truthy_str (error s) then Some (error s) else None)
                cards courses recent).


(** ** Lemmas *)

Lemma before_last_count (index : nat) (n : Z) :
  before_last index (JNum (num_of_Z n)) = (Z.of_nat index + 1 <? n)%Z.
Proof.
  unfold before_last. cbn [JsCoerce.to_number]. unfold JsCoerce.num_compare, num_of_Z.
  cbn [exp10 mant]. rewrite Z.min_id, Z.sub_diag, Z.pow_0_r, !Z.mul_1_r.
  case (Z.compare_spec (Z.of_nat index + 1) n); intros; symmetry;
    [apply Z.ltb_ge|apply Z.ltb_lt|apply Z.ltb_ge]; lia.
Qed.

Lemma activity_divider (len : jsval) (ie : nat * jsval) (a : activity) :
  activity_of len ie = Some a -> act_divider a = before_last (fst ie) len.
Proof. destruct ie as [i e]. unfold activity_of. intros H. split_opt H; inv H; reflexivity. Qed.

(** The outcome [Promise.all] gives the page: both answers, or nothing. *)
Definition expected (r1 r2 : http_response) : jsval * jsval * string :=
  match r1, r2 with
  | HttpOk d1, HttpOk d2 => (d1, d2, "")
  | _, _ => (JArr [], initial_stats, load_error)
  end.

(** ** Properties *)

(** Whatever order the two answers arrive in, the dashboard ends with
    both stored and no error when both requests succeed, and with nothing
    stored (the initial list and statistics) and the error message when
    either fails; the spinner is gone either way. *)
Theorem promise_all_outcome (r1 r2 : http_response) (enrollments_first : bool) :
  exists s, run step initial
              (Mount :: if enrollments_first then [Respond Enrollments r1; Respond Stats r2]
                        else [Respond Stats r2; Respond Enrollments r1]) = Some s /\
    loading s = false /\ (enrolledCourses s, stats s, error s) = expected r1 r2.
Proof.
  destruct enrollments_first, r1, r2; eexists; (split; [reflexivity|split; reflexivity]).
Qed.

(** The first failure ends the loading at once, with the error shown,
    while the other request is still pending; its answer, success or
    failure, is then ignored. *)
Theorem first_failure_settles (q : source) (e : http_error) (r : http_response) :
  exists s1 s2, run step initial [Mount; Respond q (HttpFail e)] = Some s1 /\
    loading s1 = false /\ error s1 = load_error /\
    step s1 (Respond (if q is Enrollments then Stats else Enrollments) r) = Some s2 /\
    enrolledCourses s2 = JArr [] /\ stats s2 = initial_stats /\ error s2 = load_error /\
    loading s2 = false.
Proof. destruct q; do 2 eexists; repeat split. Qed.

(** C18. A statistics or enrollments answer whose body is [null] is
    stored as it is, and the next render throws (reading
    [stats.totalCourses] or [enrolledCourses.length] of [null]): the
    dashboard shows nothing, for any user. *)
Theorem null_data_crashes (user : jsval) (s : sstate) :
  loading s = false -> stats s = JNull \/ enrolledCourses s = JNull -> view user s = None.
Proof.
  intros HL Hn. unfold view. rewrite HL.
  destruct (user_name user) as [name|]; [|reflexivity]. simpl.
  destruct (react_text name); [|reflexivity]. simpl.
  destruct Hn as [Hn|Hn]; rewrite Hn; [reflexivity|].
  destruct (stat_cards (stats s)); reflexivity.
Qed.

(** C23. "Recent Activity" lists the first five enrollments, but each
    item's divider is computed against the whole list
    ([index < enrolledCourses.length - 1]): with more than five
    enrollments, every listed item, the last one included, has a divider. *)
Theorem recent_activity_dividers (l : list jsval) (acts : list activity) :
  recent_activity (JArr l) (JNum (num_of_Z (Z.of_nat (length l)))) = Some acts ->
  length acts = Nat.min 5 (length l) /\
  (5 < length l -> forall a, In a acts -> act_divider a = true).
Proof.
  cbn [recent_activity]. intros H. split.
  - rewrite (map_opt_length _ _ _ H), length_combine, length_seq, Nat.min_id, length_firstn. lia.
  - intros Hl a Ha. destruct (map_opt_In _ _ _ _ H Ha) as ([i e] & Hin & Ha').
    rewrite (activity_divider _ _ _ Ha'), before_last_count. simpl.
    apply in_combine_l, in_seq in Hin. rewrite length_firstn in Hin. lia.
Qed.

(** The dashboard colors a difficulty as the catalog does exactly on
    the three levels the backend uses; on any other value the dashboard
    shows ['error'] where the catalog shows ['default']. *)
Theorem difficulty_color_vs_catalog (d : jsval) :
  difficulty_color d = Catalog.getDifficultyColor d <->
  is_str d "Beginner" || is_str d "Intermediate" || is_str d "Advanced" = true.
Proof.
  unfold difficulty_color, Catalog.getDifficultyColor.
  destruct (is_str d "Beginner"), (is_str d "Intermediate"), (is_str d "Advanced");
    simpl; split; congruence.
Qed.

(** ** Witnesses *)

Definition after (es : list event) : sstate :=
  match run step initial es with Some s => s | None => initial end.

Definition enrollment_json (k : Z) : jsval :=
  JObj [("id", JNum (num_of_Z k));
        ("course", JObj [("id", JNum (num_of_Z k)); ("title", JStr "React")]);
        ("progress", JNum (num_of_Z 40)); ("enrolledAt", JStr "2024-01-01");
        ("status", JStr "ACTIVE")].

Definition six : list jsval := map enrollment_json [1; 2; 3; 4; 5; 6]%Z.

Lemma null_data_crashes_witness :
  loading (after [Mount; Respond Enrollments (HttpOk (JArr [])); Respond Stats (HttpOk JNull)])
    = false /\
  view (JObj [("name", JStr "Ana")])
       (after [Mount; Respond Enrollments (HttpOk (JArr [])); Respond Stats (HttpOk JNull)]) = None.
Proof.
  split; [reflexivity|]. apply null_data_crashes; [reflexivity|left; reflexivity].
Defined.

Lemma recent_activity_dividers_witness :
  exists acts, recent_activity (JArr six) (JNum (num_of_Z (Z.of_nat (length six)))) = Some acts /\
    length acts = 5 /\ forall a, In a acts -> act_divider a = true.
Proof.
  destruct (recent_activity (JArr six) (JNum (num_of_Z (Z.of_nat (length six))))) as [acts|] eqn:H;
    [|vm_compute in H; discriminate].
  destruct (recent_activity_dividers six acts H) as [H1 H2].
  exists acts. split; [reflexivity|]. split; [exact H1|]. apply H2. vm_compute. lia.
Defined.

End StudentDashboard.
