(* ===== verification/AdminEnrollments.v ===== *)
(** * The enrollment table of the admin ([src/src/pages/AdminEnrollments.jsx])

    On mount the page fetches [/api/admin/enrollments] once; its state is
    the three hooks [enrollments], [loading] and [err].  The render shows
    a spinner while loading, only the error when there is one, and
    otherwise one card per enrollment, whose status chip is colored by
    [en.status.toLowerCase()].  [new Date(en.createdAt).toLocaleString()]
    is locale-dependent and not modelled: the view records the value given
    to [new Date]. *)

From Stdlib Require Import String Ascii List Bool ZArith Lia.
From S2P Require Import Prelude JsArray JsString JsNumber JsValue JsCoerce Fetcher Catalog.
Import ListNotations.
Open Scope string_scope.

Module AdminEnrollments.

Import JsNumber JsValue Fetcher JsArray.

(** ** State *)

Record estate := EState {
  enrollments : jsval; (** [useState([])] *)
  loading : bool;      (** [useState(true)] *)
  err : string;        (** [useState("")] *)
  requested : bool;    (** the effect has run *)
  pending : bool       (** its request is in flight *)
}.

Definition initial : estate :=
  {| enrollments := JArr []; loading := true; err := ""; requested := false; pending := false |}.

Definition enrollments_url : string := "/api/admin/enrollments".

Definition load_error : string := "Failed to load enrollments".

(** [fetchEnrollments] after its [await]: [setEnrollments(res.data)] and
    [setErr("")], or [setErr(...)]; the [finally] clears [loading]. *)
Definition fetchSettled (r : http_response) (s : estate) : estate :=
  match r with
  | HttpOk data =>
      {| enrollments := data; loading := false; err := ""; requested := requested s;
         pending := false |}
  | HttpFail _ =>
      {| enrollments := enrollments s; loading := false; err := load_error;
         requested := requested s; pending := false |}
  end.

Inductive event := Mount | Respond (r : http_response).

Definition step (s : estate) (e : event) : option estate :=
  match e with
  | Mount =>
      if requested s then None
      else Some {| enrollments := enrollments s; loading := loading s; err := err s;
                   requested := true; pending := true |}
  | Respond r => if pending s then Some (fetchSettled r s) else None
  end.

(** ** The render *)

(** ["—"], U+2014, as its UTF-8 bytes. *)
Definition em_dash : string :=
  String (ascii_of_nat 226) (String (ascii_of_nat 128) (String (ascii_of_nat 148) EmptyString)).

(** The chip color: [en.status.toLowerCase()] compared with two literals;
    only a string has [toLowerCase]. *)
Definition status_color (status : jsval) : option string :=
  match status with
  | JStr st =>
      Some (if String.eqb (JsCoerce.to_lower st) "completed" then "success"
            else if String.eqb (JsCoerce.to_lower st) "pending" then "warning"
            else "default")
  | _ => None
  end.

Record enrollment_card := ECard {
  card_title : string;
  card_course : string;
  card_user : string;
  card_amount : string;
  card_payment : string;
  card_status : string;
  card_status_color : string;
  card_created : jsval
}.

(** The body of [enrollments.map((en) => ...)]. *)
Definition enrollment_card_of (en : jsval) : option enrollment_card :=
  let* eid := get_prop en "id" in
  let* eid_t := react_text eid in
  let* course := get_prop en "courseId" in
  let* course_t := react_text (js_or course (JStr em_dash)) in
  let* user := get_prop en "userId" in
  let* user_t := react_text (js_or user (JStr em_dash)) in
  let* amount := get_prop en "amount" in
  let* amount_t := react_text amount in
  let* payment := get_prop en "paymentId" in
  let* payment_t := react_text payment in
  let* status := get_prop en "status" in
  let* status_t := react_text status in
  let* color := status_color status in
  let* created := get_prop en "createdAt" in
  Some {| card_title := "Enrollment #" ++ eid_t; card_course := course_t; card_user := user_t;
          card_amount := "$" ++ amount_t; card_payment := payment_t; card_status := status_t;
          card_status_color := color; card_created := created |}.

Inductive enrollments_view :=
| ESpinner
| EError (message : string)
| EList (cards : list enrollment_card).

(** [if (loading) ...; if (err) ...; return ...] *)
Definition view (s : estate) : option enrollments_view :=
  if loading s then Some ESpinner
  else if JsString.truthy_str (err s) then Some (EError (err s))
  else let* cards := Catalog.js_map enrollment_card_of (enrollments s) in Some (EList cards).

(** ** Properties *)

(** C19. An enrollment whose status is missing, [null] or not a string
    makes [en.status.toLowerCase()] throw: once loaded without error, the
    page renders nothing, whatever the other enrollments are. *)
Theorem missing_status_crashes (s : estate) (before after : list jsval)
    (fs : list (string * jsval)) :
  loading s = false -> err s = "" ->
  enrollments s = JArr (before ++ JObj fs :: after) ->
  (forall st, field_lookup "status" fs <> Some (JStr st)) ->
  view s = None.
Proof.
  intros HL HE Hen Hst. unfold view. rewrite HL, HE, Hen. simpl.
  assert (Hs : status_color (field_lookup "status" fs ?? JUndefined) = None).
  { destruct (field_lookup "status" fs) as [v|] eqn:E; simpl; [|reflexivity].
    destruct v; try reflexivity. exfalso. exact (Hst s0 eq_refl). }
  assert (Hc : enrollment_card_of (JObj fs) = None).
  { unfold enrollment_card_of. simpl. rewrite Hs.
    repeat match goal with |- context [match ?x with Some _ => _ | None => _ end] =>
             destruct x end; reflexivity. }
  rewrite (map_opt_None _ _ _ _ Hc). reflexivity.
Qed.

(** Unlike the other pages, an error hides the data: once the fetch
    has failed, the page shows only the message, whatever enrollments it
    holds. *)
Theorem error_hides_list (s : estate) (e : http_error) :
  pending s = true ->
  exists s', step s (Respond (HttpFail e)) = Some s' /\ view s' = Some (EError load_error) /\
    enrollments s' = enrollments s.
Proof. intros Hp. simpl. rewrite Hp. eexists; repeat split. Qed.

(** ** Witnesses *)

Definition no_status : jsval := JObj [("id", JNum (num_of_Z 7)); ("amount", JNum (num_of_Z 499))].

Lemma missing_status_crashes_witness :
  view (fetchSettled (HttpOk (JArr [no_status])) initial) = None.
Proof.
  apply (missing_status_crashes _ [] [] [("id", JNum (num_of_Z 7)); ("amount", JNum (num_of_Z 499))]);
    [reflexivity|reflexivity|reflexivity|intros st; discriminate].
Defined.

Lemma error_hides_list_witness :
  exists s', step (EState (JArr []) true "" true true) (Respond (HttpFail Network)) = Some s' /\
    view s' = Some (EError load_error).
Proof.
  destruct (error_hides_list (EState (JArr []) true "" true true) Network) as (s' & H1 & H2 & _);
    [reflexivity|].
  exists s'. split; assumption.
Defined.

End AdminEnrollments.
