(* ===== verification/Home.v ===== *)
(** * The home page ([src/src/pages/Home.jsx])

    On mount the page asks for the featured courses and the site
    statistics together ([Promise.all]); when both answer it stores them,
    and on any failure it only logs.  It has no loading or error state: the
    page is shown at once with the initial values.  The render keeps what
    depends on the data: the three statistics cards and one card per
    featured course; the hero, the call to action and their links are
    constant, and the layout switch of [useMediaQuery] is styling. *)

From Stdlib Require Import String Ascii List Bool ZArith Lia.
From S2P Require Import Prelude JsArray JsString Utf8 JsNumber JsValue JsCoerce Fetcher Catalog.
Import ListNotations.
Open Scope string_scope.

Module Home.

Import JsNumber JsValue Fetcher JsArray.

(** ** State *)

Record hstate := HState {
  featuredCourses : jsval;            (** [useState([])] *)
  stats : jsval;                      (** [useState({totalCourses: 0, ...})] *)
  requests : option (pstatus * pstatus);
  all_settled : bool
}.

Definition zero : jsval := JNum (num_of_Z 0).

Definition initial_stats : jsval :=
  JObj [("totalCourses", zero); ("totalStudents", zero); ("totalInstructors", zero)].

Definition initial : hstate :=
  {| featuredCourses := JArr []; stats := initial_stats; requests := None;
     all_settled := false |}.

Definition featured_url : string := "/api/courses?featured=true&limit=6".
Definition stats_url : string := "/api/stats".

(** The code after [await Promise.all(...)]: both stored, or a log line. *)
Definition settle_all (s : hstate) : hstate :=
  if all_settled s then s
  else match requests s with
       | Some (p1, p2) =>
           match all2 p1 p2 with
           | Some (Some (c, st)) =>
               {| featuredCourses := c; stats := st; requests := requests s; all_settled := true |}
           | Some None =>
               {| featuredCourses := featuredCourses s; stats := stats s; requests := requests s;
                  all_settled := true |}
           | None => s
           end
       | None => s
       end.

Definition with_requests (p : pstatus * pstatus) (s : hstate) : hstate :=
  {| featuredCourses := featuredCourses s; stats := stats s; requests := Some p;
     all_settled := all_settled s |}.

Inductive source := Featured | Stats.

Inductive event := Mount | Respond (q : source) (r : http_response).

Definition step (s : hstate) (e : event) : option hstate :=
  match e, requests s with
  | Mount, None => Some (with_requests (Pending, Pending) s)
  | Respond Featured r, Some (Pending, p2) => Some (settle_all (with_requests (outcome r, p2) s))
  | Respond Stats r, Some (p1, Pending) => Some (settle_all (with_requests (p1, outcome r) s))
  | _, _ => None
  end.

(** ** The render *)

Record stat_card := StatCard { stat_value : string; stat_label : string }.

(** The three statistics cards: two counts as [`${n}+`], and a constant. *)
Definition stat_cards (st : jsval) : option (list stat_card) :=
  let* courses := get_prop st "totalCourses" in
  let* students := get_prop st "totalStudents" in
  Some [StatCard (JsCoerce.to_string courses ++ "+") "Courses Available";
        StatCard (JsCoerce.to_string students ++ "+") "Students Enrolled";
        StatCard "24/7" "Learning Access"].

(** The difficulty chip's background: a nested conditional. *)
Definition difficulty_gradient (difficulty : jsval) : string :=
  if is_str difficulty "Beginner" then "linear-gradient(135deg, #43e97b 0%, #38f9d7 100%)"
  else if is_str difficulty "Intermediate" then "linear-gradient(135deg, #ff9a44 0%, #ffd600 100%)"
  else "linear-gradient(135deg, #ff758c 0%, #ff7eb3 100%)".

Record featured_card := FCard {
  fc_image : Catalog.image;
  fc_alt : jsval;
  fc_category : string;
  fc_difficulty : string;
  fc_difficulty_background : string;
  fc_title : string;
  fc_description : string;
  fc_instructor : string;
  fc_duration : string;
  fc_link : string
}.

(** The body of [featuredCourses.map((course) => ...)]. *)
Definition featured_card_of (c : jsval) : option featured_card :=
  let* cid := get_prop c "id" in
  let* thumbnail := get_prop c "thumbnail" in
  let* title := get_prop c "title" in
  let* category := get_prop c "category" in
  let* category_t := react_text category in
  let* difficulty := get_prop c "difficulty" in
  let* difficulty_t := react_text difficulty in
  let* title_t := react_text title in
  let* description := get_prop c "description" in
  let* description_t := react_text description in
  let* instructor := get_prop c "instructor" in
  let* instructor_t := react_text instructor in
  let* duration := get_prop c "duration" in
  let* duration_t := react_text duration in
  Some {| fc_image := if truthy thumbnail then Catalog.Thumbnail thumbnail else Catalog.DefaultImage;
          fc_alt := title; fc_category := category_t; fc_difficulty := difficulty_t;
          fc_difficulty_background := difficulty_gradient difficulty; fc_title := title_t;
          fc_description := description_t; fc_instructor := "Instructor: " ++ instructor_t;
          fc_duration := duration_t ++ " hours";
          fc_link := "/course/" ++ JsCoerce.to_string cid |}.

(** ** The constant sections *)

(** A [Button component={RouterLink} to=...] and its label. *)
Record link := Link { link_to : string; link_text : string }.

(** A section's heading, its text and its buttons. *)
Record block := Block { block_title : string; block_text : string; block_links : list link }.

Definition hero : block :=
  Block "Education Without Barriers"
        ("Boost your skills and open new opportunities with thousands of courses from top "
         ++ "universities and leading companies.")
        [Link "/courses" "Explore Courses"; Link "/register" "Get Started"].

Definition featured_heading : string := "Featured Courses".

Definition view_all : link := Link "/courses" "View All Courses".

(** The bytes of the call to action's heading as the file has them:
    ["It"], then C3 A2 E2 82 AC E2 84 A2, then ["s Time to Learn Something
    New"]. *)
Definition cta_title : string :=
  "It" ++ String (Utf8.byte 195) (String (Utf8.byte 162) (String (Utf8.byte 226)
           (String (Utf8.byte 130) (String (Utf8.byte 172) (String (Utf8.byte 226)
           (String (Utf8.byte 132) (String (Utf8.byte 162) EmptyString)))))))
  ++ "s Time to Learn Something New".

Definition cta : block :=
  Block cta_title "Become part of a global learning community and begin your journey now."
        [Link "/register" "Get Started"; Link "/courses" "Browse Courses"].

Record home_view := HomeView {
  hv_hero : block;
  hv_stats : list stat_card;
  hv_featured_title : string;
  hv_featured : list featured_card;
  hv_view_all : link;
  hv_cta : block
}.

(** The page, top to bottom; [None] is a render that throws. *)
Definition view (s : hstate) : option home_view :=
  let* cards := stat_cards (stats s) in
  let* featured := Catalog.js_map featured_card_of (featuredCourses s) in
  Some (HomeView hero cards featured_heading featured view_all cta).

(** ** The effect of a failure *)

Definition is_rejected (p : pstatus) : bool :=
  match p with Rejected => true | _ => false end.

(** [Promise.all] has rejected: one of the two requests failed. *)
Definition has_rejected (s : hstate) : bool :=
  match requests s with Some (p1, p2) => is_rejected p1 || is_rejected p2 | None => false end.

(** The page still holds its initial data. *)
Definition untouched (s : hstate) : Prop :=
  featuredCourses s = featuredCourses initial /\ stats s = stats initial.

(** Until both requests are fulfilled, nothing is stored. *)
Definition home_inv (s : hstate) : Prop :=
  match requests s with Some (Fulfilled _, Fulfilled _) => True | _ => untouched s end.

Lemma settle_all_requests (s : hstate) : requests (settle_all s) = requests s.
Proof.
  unfold settle_all. destruct (all_settled s); [reflexivity|].
  destruct (requests s) as [[p1 p2]|] eqn:Hr; [|exact Hr].
  destruct (all2 p1 p2) as [[[c st]|]|]; simpl; congruence.
Qed.

Lemma home_inv_settle (p : pstatus * pstatus) (s : hstate) :
  untouched s -> home_inv (settle_all (with_requests p s)).
Proof.
  intros Hu. unfold home_inv. rewrite settle_all_requests. cbn [requests with_requests].
  unfold settle_all. cbn [all_settled requests with_requests].
  destruct (all_settled s); [destruct p as [[] []]; exact I || exact Hu|].
  destruct p as [[] []]; exact I || exact Hu.
Qed.

Lemma step_home_inv (s : hstate) (e : event) (s' : hstate) :
  home_inv s -> step s e = Some s' -> home_inv s'.
Proof.
  unfold step. intros Hi Hs. unfold home_inv in Hi.
  destruct e as [|[] r]; destruct (requests s) as [[[] p2]|] eqn:Hr; try discriminate;
    inv Hs; try (apply home_inv_settle; exact Hi);
    try (destruct p2; try discriminate; inv H0; apply home_inv_settle; exact Hi).
  exact Hi.
Qed.

Lemma step_has_rejected (s : hstate) (e : event) (s' : hstate) :
  step s e = Some s' ->
  has_rejected s' = has_rejected s ||
    match e with Respond _ (HttpFail _) => true | _ => false end.
Proof.
  unfold step, has_rejected. intros Hs.
  destruct e as [|[] [d|er]]; destruct (requests s) as [[p1 p2]|] eqn:Hr; try discriminate;
    [inv Hs; reflexivity|..];
    destruct p1, p2; try discriminate; inv Hs; rewrite settle_all_requests; reflexivity.
Qed.

Lemma rejected_untouched (s : hstate) :
  home_inv s -> has_rejected s = true -> untouched s.
Proof.
  unfold home_inv, has_rejected. destruct (requests s) as [[[] []]|]; simpl; auto; discriminate.
Qed.

(** Along a run, the invariant holds, and once a request has failed,
    [Promise.all] stays rejected. *)
Lemma run_failure (q : source) (er : http_error) (es : list event) (s0 s : hstate) :
  home_inv s0 -> run step s0 es = Some s ->
  has_rejected s0 = true \/ In (Respond q (HttpFail er)) es ->
  home_inv s /\ has_rejected s = true.
Proof.
  revert s0; induction es as [|e es IH]; intros s0 Hi Hrun Hf; simpl in Hrun.
  - inv Hrun. destruct Hf as [Hf|[]]. split; assumption.
  - destruct (step s0 e) as [s1|] eqn:Hs; [|discriminate].
    apply (IH s1); [eapply step_home_inv; eauto|exact Hrun|].
    rewrite (step_has_rejected _ _ _ Hs).
    destruct Hf as [Hf|[He|Hin]];
      [left; rewrite Hf; reflexivity|left; subst e; destruct (has_rejected s0); reflexivity|right; exact Hin].
Qed.

(** ** Properties *)

(** C22. Once either request of the home page has failed, whatever the
    order of the answers and whether the other request succeeded before or
    after, the page stays as first rendered, with no message: no featured
    course and the counts "0+", exactly as when the backend has no data. *)
Theorem failure_shows_zero_counts (es : list event) (s : hstate) (q : source) (er : http_error) :
  run step initial es = Some s -> In (Respond q (HttpFail er)) es ->
  view s = view initial /\
  option_map hv_stats (view s) = Some [StatCard "0+" "Courses Available";
                                       StatCard "0+" "Students Enrolled";
                                       StatCard "24/7" "Learning Access"] /\
  option_map hv_featured (view s) = Some [].
Proof.
  intros Hrun Hin.
  destruct (run_failure q er es initial s (conj eq_refl eq_refl) Hrun (or_intror Hin)) as [Hi Hr].
  destruct (rejected_untouched s Hi Hr) as [Hf Hs].
  assert (Hv : view s = view initial) by (unfold view; rewrite Hf, Hs; reflexivity).
  rewrite Hv. split; [reflexivity|]. split; reflexivity.
Qed.

(** When both requests succeed, whatever order they answer in, the
    page shows the statistics of the answer and one card per featured
    course, each linking to [/course/<id>]. *)
Theorem featured_cards_link (c : jsval) (cid : jsval) (st : jsval) (featured_first : bool)
    (card : featured_card) :
  featured_card_of c = Some card -> get_prop c "id" = Some cid ->
  exists s, run step initial
              (Mount :: if featured_first
                        then [Respond Featured (HttpOk (JArr [c])); Respond Stats (HttpOk st)]
                        else [Respond Stats (HttpOk st); Respond Featured (HttpOk (JArr [c]))])
            = Some s /\ featuredCourses s = JArr [c] /\ stats s = st /\
    fc_link card = "/course/" ++ JsCoerce.to_string cid.
Proof.
  intros Hc Hid. exists (HState (JArr [c]) st (Some (Fulfilled (JArr [c]), Fulfilled st)) true).
  split; [destruct featured_first; reflexivity|]. split; [reflexivity|]. split; [reflexivity|].
  unfold featured_card_of in Hc. rewrite Hid in Hc. split_opt Hc; inv Hc; reflexivity.
Qed.

Definition react_course : jsval :=
  JObj [("id", JNum (num_of_Z 3)); ("title", JStr "React"); ("category", JStr "Web");
        ("difficulty", JStr "Beginner"); ("duration", JNum (num_of_Z 12))].

Lemma featured_cards_link_witness :
  exists s card, run step initial
              [Mount; Respond Featured (HttpOk (JArr [react_course]));
               Respond Stats (HttpOk initial_stats)] = Some s /\ fc_link card = "/course/3".
Proof.
  destruct (featured_card_of react_course) as [card|] eqn:Hc; [|vm_compute in Hc; discriminate].
  destruct (featured_cards_link react_course (JNum (num_of_Z 3)) initial_stats true card Hc)
    as (s & Hs & _ & _ & Hl); [reflexivity|].
  exists s, card. split; [exact Hs|]. rewrite Hl. reflexivity.
Defined.

(** The featured courses arrive, then the statistics request fails. *)
Definition success_then_failure : list event :=
  [Mount; Respond Featured (HttpOk (JArr [react_course])); Respond Stats (HttpFail Network)].

Lemma failure_shows_zero_counts_witness :
  exists s, run step initial success_then_failure = Some s /\
    In (Respond Stats (HttpFail Network)) success_then_failure /\
    option_map hv_featured (view s) = Some [].
Proof.
  destruct (run step initial success_then_failure) as [s|] eqn:Hrun; [|vm_compute in Hrun; discriminate].
  assert (Hin : In (Respond Stats (HttpFail Network)) success_then_failure) by (simpl; auto).
  exists s. split; [reflexivity|]. split; [exact Hin|].
  exact (proj2 (proj2 (failure_shows_zero_counts success_then_failure s Stats Network Hrun Hin))).
Defined.

End Home.
