(* ===== verification/Payments.v ===== *)
(** * The payment page ([src/src/pages/Payments.jsx])

    [Payments] collects a name, an e-mail and an amount, and [handlePayment]
    runs the checkout: a guard on the three fields, the loading of the
    Razorpay script, the order request ([axios.post] of the form to
    [/api/createOrder]), the opening of the checkout widget with the
    order's amount in paise, and, when the widget reports a payment, the
    verification request ([/api/paymentCallback]).  The handler is one
    [async] function: it is cut at each [await], and what it reads of the
    form is the [formData] of the render it was called from, kept in the
    continuation.  The widget itself is a third-party script; it is
    modelled only by the options it is opened with and by the payment it
    reports to [handler]. *)

From Stdlib Require Import String Ascii List Bool ZArith PrimFloat Lia.
From S2P Require Import Prelude JsString JsNumber JsDecimal JsValue JsCoerce JsDouble Fetcher.
Import ListNotations.
Open Scope string_scope.

Module Payments.

Import JsNumber JsDecimal JsValue Fetcher.

(** ** State *)

(** [formData]: the three inputs' texts. *)
Record pform := PForm { name : string; email : string; amount : string }.

Inductive pfield := FName | FEmail | FAmount.

(** [setFormData(prev => ({ ...prev, [e.target.name]: e.target.value }))] *)
Definition handleChange (f : pfield) (v : string) (d : pform) : pform :=
  match f with
  | FName => PForm v (email d) (amount d)
  | FEmail => PForm (name d) v (amount d)
  | FAmount => PForm (name d) (email d) v
  end.

(** [message]: an alert severity and its text. *)
Record message := Message { mtype : string; mtext : string }.

Definition no_message : message := Message "" "".

(** What the handler waits for, with the form it was called with. *)
Inductive pending :=
| PScript (snap : pform)          (** [await loadRazorpayScript()] *)
| POrder (snap : pform)           (** [await axios.post(.../createOrder, formData)] *)
| PCallback.                      (** [await axios.post(.../paymentCallback, ...)] *)

(** The options the checkout widget was opened with. *)
Record checkout := Checkout {
  co_key : string;
  co_amount : option float; (** [order.amount * 100] in binary64 ([JsDouble.times_100]) *)
  co_currency : string;
  co_order_id : jsval;
  co_prefill_name : string;
  co_prefill_email : string
}.

Record pstate := PState {
  formData : pform;
  loading : bool;
  msg : message;
  waiting : list pending;       (** the continuations in flight *)
  widgets : list checkout;      (** the checkout widgets opened *)
  sent : list (string * jsval)  (** the requests sent: URL and body *)
}.

Definition initial : pstate :=
  {| formData := PForm "" "" ""; loading := false; msg := no_message; waiting := [];
     widgets := []; sent := [] |}.

Definition order_url : string := "http://localhost:8080/api/createOrder".
Definition callback_url : string := "http://localhost:8080/api/paymentCallback".

(** The JSON body [axios] sends for the form. *)
Definition form_json (d : pform) : jsval :=
  JObj [("name", JStr (name d)); ("email", JStr (email d)); ("amount", JStr (amount d))].

(** ** The handler, cut at its [await]s *)

Definition set_msg (m : message) (s : pstate) : pstate :=
  {| formData := formData s; loading := loading s; msg := m; waiting := waiting s;
     widgets := widgets s; sent := sent s |}.

Definition set_loading (b : bool) (s : pstate) : pstate :=
  {| formData := formData s; loading := b; msg := msg s; waiting := waiting s;
     widgets := widgets s; sent := sent s |}.

Definition await (p : pending) (s : pstate) : pstate :=
  {| formData := formData s; loading := loading s; msg := msg s; waiting := waiting s ++ [p];
     widgets := widgets s; sent := sent s |}.

Definition send (url : string) (body : jsval) (s : pstate) : pstate :=
  {| formData := formData s; loading := loading s; msg := msg s; waiting := waiting s;
     widgets := widgets s; sent := sent s ++ [(url, body)] |}.

Definition open_widget (c : checkout) (s : pstate) : pstate :=
  {| formData := formData s; loading := loading s; msg := msg s; waiting := waiting s;
     widgets := widgets s ++ [c]; sent := sent s |}.

Definition resume (i : nat) (s : pstate) : pstate :=
  {| formData := formData s; loading := loading s; msg := msg s;
     waiting := remove_at i (waiting s); widgets := widgets s; sent := sent s |}.

(** [handlePayment] up to [await loadRazorpayScript()]: the guard, then
    [setLoading(true)] and the message cleared. *)
Definition handlePayment (s : pstate) : pstate :=
  let d := formData s in
  if negb (JsString.truthy_str (name d)) || negb (JsString.truthy_str (email d))
     || negb (JsString.truthy_str (amount d))
  then set_msg (Message "error" "Please fill all fields.") s
  else await (PScript d) (set_msg no_message (set_loading true s)).

(** After the script: an error if it did not load, else the order request. *)
Definition scriptLoaded (ok : bool) (snap : pform) (s : pstate) : pstate :=
  if ok then await (POrder snap) (send order_url (form_json snap) s)
  else set_loading false (set_msg (Message "error" "Razorpay SDK failed to load.") s).

(** The options built from the order: reading [order.amount] of a [null]
    order throws. *)
Definition checkout_of (snap : pform) (order : jsval) : option checkout :=
  let* amt := get_prop order "amount" in
  let* oid := get_prop order "razorpayOrderId" in
  Some {| co_key := "My_Key"; co_amount := JsDouble.times_100 amt; co_currency := "INR";
          co_order_id := oid; co_prefill_name := name snap; co_prefill_email := email snap |}.

(** After the order request: the widget opened, or the [catch]; the
    [finally] clears [loading] in both cases. *)
Definition orderSettled (snap : pform) (r : http_response) (s : pstate) : pstate :=
  set_loading false
    match r with
    | HttpOk order =>
        match checkout_of snap order with
        | Some c => open_widget c s
        | None => set_msg (Message "error" "Payment initiation failed.") s
        end
    | HttpFail _ => set_msg (Message "error" "Payment initiation failed.") s
    end.

(** The widget's [handler(response)]: the verification request.  The
    properties of [response] are read inside the [try], so a [response]
    without properties ends in the [catch]. *)
Definition paymentHandler (payment : jsval) (s : pstate) : pstate :=
  match get_prop payment "razorpay_order_id", get_prop payment "razorpay_payment_id",
        get_prop payment "razorpay_signature" with
  | Some oid, Some pid, Some sig =>
      await PCallback
        (send callback_url (JObj [("razorpay_order_id", oid); ("razorpay_payment_id", pid);
                                  ("razorpay_signature", sig)]) s)
  | _, _, _ => set_msg (Message "error" "Payment verification failed.") s
  end.

Definition callbackSettled (r : http_response) (s : pstate) : pstate :=
  match r with
  | HttpOk _ => set_msg (Message "success" "Payment successful!") s
  | HttpFail _ => set_msg (Message "error" "Payment verification failed.") s
  end.

(** What happens on the page: an input, the button (disabled while
    [loading]), the script's [onload]/[onerror], a response, and a payment
    reported by an opened widget. *)
Inductive event :=
| Change (f : pfield) (v : string)
| Pay
| ScriptDone (i : nat) (ok : bool)
| Respond (i : nat) (r : http_response)
| WidgetPaid (w : nat) (payment : jsval).

Definition set_form (d : pform) (s : pstate) : pstate :=
  {| formData := d; loading := loading s; msg := msg s; waiting := waiting s;
     widgets := widgets s; sent := sent s |}.

Definition step (s : pstate) (e : event) : option pstate :=
  match e with
  | Change f v => Some (set_form (handleChange f v (formData s)) s)
  | Pay => if loading s then None else Some (handlePayment s)
  | ScriptDone i ok =>
      match nth_error (waiting s) i with
      | Some (PScript snap) => Some (scriptLoaded ok snap (resume i s))
      | _ => None
      end
  | Respond i r =>
      match nth_error (waiting s) i with
      | Some (POrder snap) => Some (orderSettled snap r (resume i s))
      | Some PCallback => Some (callbackSettled r (resume i s))
      | _ => None
      end
  | WidgetPaid w payment =>
      match nth_error (widgets s) w with
      | Some _ => Some (paymentHandler payment s)
      | None => None
      end
  end.

(** ** The render *)

Record payment_view := PaymentView {
  pv_alert : option message;
  pv_fields : list (string * string);
  pv_button_disabled : bool;
  pv_button_spinner : bool
}.

Definition view (s : pstate) : payment_view :=
  {| pv_alert := if JsString.truthy_str (mtext (msg s)) then Some (msg s) else None;
     pv_fields := [("Name", name (formData s)); ("Email", email (formData s));
                   ("Amount (INR)", amount (formData s))];
     pv_button_disabled := loading s; pv_button_spinner := loading s |}.

(** ** Continuations in flight

    A continuation of [handlePayment] (waiting for the script or for the
    order) is what keeps [loading] on; the verification request of a
    widget's handler does not touch it. *)

Definition is_handler (p : pending) : bool :=
  match p with PScript _ | POrder _ => true | PCallback => false end.

Definition handler_share (p : pending) : nat := if is_handler p then 1 else 0.

(** The number of [handlePayment] continuations in flight. *)
Definition handlers (l : list pending) : nat := list_sum (map handler_share l).

(** The state is well formed: one [handlePayment] continuation is in
    flight while [loading] is on, none while it is off. *)
Definition pending_wf (s : pstate) : Prop := handlers (waiting s) = if loading s then 1 else 0.

(** The work left: a script load still has its order request to come. *)
Definition pending_weight (p : pending) : nat :=
  match p with PScript _ => 2 | POrder _ | PCallback => 1 end.

Definition weight (l : list pending) : nat := list_sum (map pending_weight l).

(** The environment answers the oldest continuation in flight: the script
    with [script_ok] of the form it was loaded for, a request with
    [reply]. *)
Definition answer (script_ok : pform -> bool) (reply : pending -> http_response)
    (p : pending) : event :=
  match p with
  | PScript snap => ScriptDone 0 (script_ok snap)
  | _ => Respond 0 (reply p)
  end.

(** Answer the continuations in flight one by one, at most [fuel] times. *)
Fixpoint drain (fuel : nat) (script_ok : pform -> bool) (reply : pending -> http_response)
    (s : pstate) : option pstate :=
  match fuel with
  | O => Some s
  | S n =>
      match waiting s with
      | [] => Some s
      | p :: _ => let* s' := step s (answer script_ok reply p) in drain n script_ok reply s'
      end
  end.

(** ** Lemmas *)

Lemma handlers_app (l1 l2 : list pending) : handlers (l1 ++ l2) = handlers l1 + handlers l2.
Proof. unfold handlers. rewrite map_app, list_sum_app. reflexivity. Qed.

Lemma weight_app (l1 l2 : list pending) : weight (l1 ++ l2) = weight l1 + weight l2.
Proof. unfold weight. rewrite map_app, list_sum_app. reflexivity. Qed.

Lemma handlers_resume (i : nat) (p : pending) (s : pstate) :
  nth_error (waiting s) i = Some p ->
  handlers (waiting (resume i s)) + handler_share p = handlers (waiting s).
Proof. apply list_sum_remove_at. Qed.

Lemma waiting_orderSettled (snap : pform) (r : http_response) (s : pstate) :
  waiting (orderSettled snap r s) = waiting s /\ loading (orderSettled snap r s) = false.
Proof.
  unfold orderSettled. destruct r as [order|]; [|split; reflexivity].
  destruct (checkout_of snap order); split; reflexivity.
Qed.

Lemma waiting_callbackSettled (r : http_response) (s : pstate) :
  waiting (callbackSettled r s) = waiting s /\ loading (callbackSettled r s) = loading s.
Proof. destruct r; split; reflexivity. Qed.

Lemma waiting_paymentHandler (payment : jsval) (s : pstate) :
  (waiting (paymentHandler payment s) = waiting s \/
   waiting (paymentHandler payment s) = (waiting s ++ [PCallback])%list) /\
  loading (paymentHandler payment s) = loading s.
Proof.
  unfold paymentHandler.
  destruct (get_prop payment "razorpay_order_id"), (get_prop payment "razorpay_payment_id"),
    (get_prop payment "razorpay_signature"); split; (reflexivity || (left; reflexivity) || (right; reflexivity)).
Qed.

(** A continuation of [handlePayment] in flight means [loading] is on, and
    it is the only one. *)
Lemma handler_in_flight (s : pstate) (i : nat) (p : pending) :
  pending_wf s -> nth_error (waiting s) i = Some p -> is_handler p = true ->
  loading s = true /\ handlers (waiting (resume i s)) = 0.
Proof.
  unfold pending_wf, handler_share. intros H Hn Hp.
  pose proof (handlers_resume i p s Hn) as Hr. unfold handler_share in Hr. rewrite Hp in Hr.
  destruct (loading s); lia.
Qed.

Lemma step_pending_wf (s : pstate) (e : event) (s' : pstate) :
  pending_wf s -> step s e = Some s' -> pending_wf s'.
Proof.
  intros H Hs. destruct e as [f v| |i ok|i r|w pay]; simpl in Hs.
  - inv Hs. exact H.
  - unfold pending_wf in *. destruct (loading s) eqn:HL; [discriminate|]. inv Hs.
    unfold handlePayment. case_if; simpl; rewrite ?HL; [exact H|rewrite handlers_app, H; reflexivity].
  - destruct (nth_error (waiting s) i) as [[snap|snap|]|] eqn:Hn; inv Hs.
    destruct (handler_in_flight s i _ H Hn eq_refl) as [HL H0].
    unfold pending_wf, scriptLoaded. destruct ok; simpl in *; [rewrite handlers_app, H0, HL|rewrite H0];
      reflexivity.
  - destruct (nth_error (waiting s) i) as [[snap|snap|]|] eqn:Hn; inv Hs.
    + destruct (handler_in_flight s i _ H Hn eq_refl) as [_ H0].
      unfold pending_wf. destruct (waiting_orderSettled snap r (resume i s)) as [-> ->]. exact H0.
    + unfold pending_wf in *. destruct (waiting_callbackSettled r (resume i s)) as [-> ->].
      pose proof (handlers_resume i PCallback s Hn) as Hr.
      unfold handler_share in Hr. simpl is_handler in Hr. rewrite Nat.add_0_r in Hr.
      rewrite Hr. exact H.
  - destruct (nth_error (widgets s) w); inv Hs. unfold pending_wf in *.
    destruct (waiting_paymentHandler pay s) as [[-> | ->] ->]; [exact H|].
    rewrite handlers_app, H. destruct (loading s); reflexivity.
Qed.

(** Answering the oldest continuation always succeeds and leaves less
    work in flight. *)
Lemma answer_step (script_ok : pform -> bool) (reply : pending -> http_response) (s : pstate)
    (p : pending) (l : list pending) :
  waiting s = p :: l ->
  exists s', step s (answer script_ok reply p) = Some s' /\ weight (waiting s') < weight (waiting s).
Proof.
  intros Hw. unfold weight. rewrite Hw.
  destruct p as [snap|snap|]; simpl; rewrite Hw; eexists; split; try reflexivity.
  - unfold scriptLoaded. destruct (script_ok snap); simpl;
      [rewrite map_app, list_sum_app; simpl|]; rewrite Hw; simpl; lia.
  - rewrite (proj1 (waiting_orderSettled _ _ _)). simpl. rewrite Hw. simpl. lia.
  - rewrite (proj1 (waiting_callbackSettled _ _)). simpl. rewrite Hw. simpl. lia.
Qed.

Lemma drain_empties (script_ok : pform -> bool) (reply : pending -> http_response) (n : nat)
    (s : pstate) :
  pending_wf s -> weight (waiting s) <= n ->
  exists s', drain n script_ok reply s = Some s' /\ waiting s' = [] /\ pending_wf s'.
Proof.
  revert s. induction n as [|n IH]; intros s Hwf Hn; simpl.
  - destruct (waiting s) as [|p l] eqn:Hw; [exists s; auto|].
    unfold weight in Hn. destruct p; simpl in Hn; lia.
  - destruct (waiting s) as [|p l] eqn:Hw; [exists s; auto|].
    destruct (answer_step script_ok reply s p l Hw) as (s' & Hs & Hlt).
    rewrite Hs. rewrite Hw in Hlt. apply IH; [apply (step_pending_wf s _ s' Hwf Hs)|lia].
Qed.

(** ** Properties *)

(** C20. The button checks the three fields: with one of them empty it only
    shows "Please fill all fields." and starts nothing; with all three
    filled it turns [loading] on, clears the message and waits for the
    checkout script, keeping the form as it is now. *)
Theorem pay_guard (s : pstate) :
  loading s = false ->
  (name (formData s) = "" \/ email (formData s) = "" \/ amount (formData s) = "" ->
   step s Pay = Some (set_msg (Message "error" "Please fill all fields.") s)) /\
  (name (formData s) <> "" -> email (formData s) <> "" -> amount (formData s) <> "" ->
   exists s', step s Pay = Some s' /\ loading s' = true /\ msg s' = no_message /\
     waiting s' = (waiting s ++ [PScript (formData s)])%list /\ sent s' = sent s).
Proof.
  intros HL. simpl. rewrite HL. unfold handlePayment. split.
  - intros [H|[H|H]]; rewrite H; simpl; rewrite ?orb_true_r; reflexivity.
  - intros H1 H2 H3.
    destruct (name (formData s)) as [|a n]; [congruence|].
    destruct (email (formData s)) as [|b m]; [congruence|].
    destruct (amount (formData s)) as [|c k]; [congruence|].
    simpl. eexists; repeat split.
Qed.

(** C17. The order request sends the form as it was when the button was
    pressed: edits made while the script loads are shown in the inputs but
    not sent. *)
Theorem order_sends_click_snapshot (s : pstate) (i : nat) (snap : pform) :
  nth_error (waiting s) i = Some (PScript snap) ->
  exists s', step s (ScriptDone i true) = Some s' /\
    sent s' = (sent s ++ [(order_url, form_json snap)])%list /\ formData s' = formData s.
Proof. intros Hi. simpl. rewrite Hi. eexists; repeat split. Qed.

(** C21. Whatever order object the server returns, the checkout widget
    opens with the order's [razorpayOrderId], the name and e-mail of the
    form the order was made with, and as amount the binary64 product
    [order.amount * 100]; when the amount is a whole number [n] of rupees
    up to 100000 that product is [===] [100 * n] paise.  [loading] is
    cleared as soon as the widget is open, before any payment. *)
Theorem checkout_amount_paise (s : pstate) (i : nat) (snap : pform) (fs : list (string * jsval)) :
  nth_error (waiting s) i = Some (POrder snap) ->
  exists s' c,
    step s (Respond i (HttpOk (JObj fs))) = Some s' /\
    loading s' = false /\ widgets s' = (widgets s ++ [c])%list /\
    co_order_id c = field_lookup "razorpayOrderId" fs ?? JUndefined /\
    co_prefill_name c = name snap /\ co_prefill_email c = email snap /\
    co_amount c = JsDouble.times_100 (field_lookup "amount" fs ?? JUndefined) /\
    (forall n, field_lookup "amount" fs = Some (JNum (num_of_Z n)) -> (0 <= n <= 100000)%Z ->
       match co_amount c with
       | Some a => JsDouble.strict_eq a (JsDouble.of_Z (100 * n)) = true
       | None => False
       end).
Proof.
  intros Hi. simpl. rewrite Hi. unfold orderSettled, checkout_of. simpl.
  do 2 eexists. do 7 (split; [reflexivity|]). cbn [co_amount].
  intros n Hn Hr. rewrite Hn. cbn [with_default].
  pose proof (JsDouble.times_100_whole n Hr) as Ha. unfold JsDouble.times_100_is in Ha.
  destruct (JsDouble.times_100 (JNum (num_of_Z n))); [exact Ha|discriminate].
Qed.

(** C24. In every reachable state of the payment page, [loading] is on
    exactly when one continuation of [handlePayment] (waiting for the
    script or for the order) is in flight, and there is never more than
    one: the disabled button prevents a second payment while one is being
    started, but not once the widget is open. *)
Theorem reachable_pending_wf (es : list event) (s : pstate) :
  run step initial es = Some s -> handlers (waiting s) = if loading s then 1 else 0.
Proof.
  intros H. apply (run_invariant step pending_wf step_pending_wf es initial s); [reflexivity|exact H].
Qed.

(** C25. The payment flow terminates: from every reachable state,
    answering the continuations in flight one by one, whatever the script
    loads and the server replies, empties them within [weight] answers (two
    for a script load, one for a request) and leaves [loading] off. *)
Theorem payment_flow_terminates (es : list event) (s : pstate) (script_ok : pform -> bool)
    (reply : pending -> http_response) :
  run step initial es = Some s ->
  exists s', drain (weight (waiting s)) script_ok reply s = Some s' /\
    waiting s' = [] /\ loading s' = false.
Proof.
  intros H.
  assert (Hwf : pending_wf s)
    by (apply (run_invariant step pending_wf step_pending_wf es initial s); [reflexivity|exact H]).
  destruct (drain_empties script_ok reply _ s Hwf (le_n _)) as (s' & Hd & Hw & Hwf').
  exists s'. split; [exact Hd|]. split; [exact Hw|].
  unfold pending_wf in Hwf'. rewrite Hw in Hwf'. destruct (loading s'); [discriminate|reflexivity].
Qed.

(** ** Witnesses *)

Definition after (es : list event) : pstate :=
  match run step initial es with Some s => s | None => initial end.

(** The form is filled, the button pressed, and the amount edited while the
    script loads. *)
Definition filled : list event :=
  [Change FName "Ana"; Change FEmail "ana@example.com"; Change FAmount "499"; Pay;
   Change FAmount "1"].

Definition order_499 : jsval :=
  JObj [("amount", JNum (num_of_Z 499)); ("razorpayOrderId", JStr "order_1")].

Lemma pay_guard_witness :
  step initial Pay = Some (set_msg (Message "error" "Please fill all fields.") initial).
Proof. apply (proj1 (pay_guard initial eq_refl)). left. reflexivity. Defined.

Lemma order_sends_click_snapshot_witness :
  amount (formData (after filled)) = "1" /\
  exists s', step (after filled) (ScriptDone 0 true) = Some s' /\
    sent s' = [(order_url, form_json (PForm "Ana" "ana@example.com" "499"))].
Proof.
  split; [reflexivity|].
  destruct (order_sends_click_snapshot (after filled) 0 (PForm "Ana" "ana@example.com" "499"))
    as (s' & H1 & H2 & _); [reflexivity|].
  exists s'. split; [exact H1|]. rewrite H2. reflexivity.
Defined.

Lemma checkout_amount_paise_witness :
  exists s' c, step (after (filled ++ [ScriptDone 0 true])) (Respond 0 (HttpOk order_499)) = Some s' /\
    widgets s' = [c] /\
    match co_amount c with
    | Some a => JsDouble.strict_eq a (JsDouble.of_Z 49900) = true
    | None => False
    end.
Proof.
  destruct (checkout_amount_paise (after (filled ++ [ScriptDone 0 true])) 0
              (PForm "Ana" "ana@example.com" "499")
              [("amount", JNum (num_of_Z 499)); ("razorpayOrderId", JStr "order_1")])
    as (s' & c & H1 & _ & H3 & _ & _ & _ & _ & H8); [reflexivity|].
  exists s', c. split; [exact H1|]. split; [exact H3|]. apply (H8 499%Z); [reflexivity|lia].
Defined.

Lemma reachable_pending_wf_witness :
  run step initial filled = Some (after filled) /\ loading (after filled) = true /\
  handlers (waiting (after filled)) = 1.
Proof.
  split; [reflexivity|]. split; [reflexivity|].
  apply (reachable_pending_wf filled (after filled)). reflexivity.
Defined.

Lemma payment_flow_terminates_witness :
  run step initial filled = Some (after filled) /\
  exists s', drain (weight (waiting (after filled))) (fun _ => true) (fun _ => HttpOk order_499)
               (after filled) = Some s' /\ waiting s' = [] /\ loading s' = false.
Proof.
  split; [reflexivity|].
  apply (payment_flow_terminates filled (after filled)). reflexivity.
Defined.

End Payments.
